(** * chron-new: the scored-signal aggregation engine

    A shallow embedding of

      - [src/analyzer/code_analyzer.py]   ([AnalysisResult.calculate_overall_score]),
      - [src/analyzer/report_generator.py] ([ReportGenerator.generate_summary]),
      - [src/analyzer/gpt_analyzer.py]     ([GPTAnalyzer] and its four operations),

    followed by the properties the specification states about them.

    Conventions of the embedding.

      - Python floats are idealised as exact rationals ([Q]); a float
        literal such as [0.3] denotes the rational 3/10.  Equality of
        scores is therefore stated with [==] ([Qeq]) unless both sides
        are built by the same operations.
      - [time.time()] readings are rationals (seconds).
      - A Python [dict] produced by [json] is a [JSON] value; field order
        is the insertion order of the source.
      - Exceptions are explicit: a call either returns a value or raises
        ([Outcome]).  Only the exception classes that the handlers of the
        source tell apart are distinguished. *)

From Stdlib Require Import QArith Qminmax Lqa ZArith Ascii String DecimalString.
From stdpp Require Import gmap strings list.

Local Open Scope Q_scope.

(** ** Comparisons on scores, as booleans *)

(** [x > y] on floats. *)
Definition Qgtb (x y : Q) : bool := negb (Qle_bool x y).

(** [x >= y] on floats. *)
Definition Qgeb (x y : Q) : bool := Qle_bool y x.

(** [x < y] on floats. *)
Definition Qltb (x y : Q) : bool := negb (Qle_bool y x).

(** Python's [sum(l)]: a left fold from the integer [0]. *)
Definition py_sum (l : list Q) : Q := fold_left Qplus l 0.

(** Python's [len(l)] as a float operand. *)
Definition py_len (l : list Q) : Q := inject_Z (Z.of_nat (length l)).

(** Python's two-argument [max(a, b)]: the first argument is kept unless
    the second is strictly greater. *)
Definition py_max (a b : Q) : Q := if Qgtb b a then b else a.

(** ** [code_analyzer.py]: [AnalysisResult] *)

Module CodeAnalyzer.

(** One entry of [AnalysisResult.issues]; the aggregation never looks
    inside. *)
Record Issue := mkIssue { issue_type : string; issue_message : string }.

Record AnalysisResult := mkAnalysisResult {
  code_quality_score : Q;
  ai_framework_score : Q;
  execution_score : Q;
  security_score : Q;
  market_value_score : Q;
  issues : list Issue;
  recommendations : list string
}.

(** [[score for score in [ai, quality, execution, security] if score > 0]] *)
Definition base_scores (self : AnalysisResult) : list Q :=
  List.filter (fun score => Qgtb score 0)
         [ ai_framework_score self; code_quality_score self;
           execution_score self; security_score self ].

(** [AnalysisResult.calculate_overall_score].  The body of the source is
    wrapped in [try ... except Exception: return 0.0]; on float fields
    none of its operations raises (the only division is guarded by
    [if base_scores]), so the handler is unreachable and is not
    modelled. *)
Definition calculate_overall_score (self : AnalysisResult) : Q :=
  let base_scores := base_scores self in
  let market_contribution := market_value_score self * 0.3 in
  let base_score :=
    match base_scores with
    | _ :: _ =>
        let normalized_base := py_sum base_scores / py_len base_scores in
        let base_score := normalized_base * 0.7 in
        if Qgeb (market_value_score self) 0.8 then
          let min_base := 0.5 - market_contribution in
          py_max base_score min_base
        else base_score
    | [] => 0.0
    end in
  base_score + market_contribution.

End CodeAnalyzer.

(** ** [report_generator.py]: [Report] and [ReportGenerator] *)

Module ReportGenerator.
Import CodeAnalyzer.

Record Report := mkReport {
  overall_score : Q;
  detailed_scores : list (string * Q);
  report_issues : list Issue;
  report_recommendations : list string
}.

Definition override_note : string :=
  "NOTE: Project score was adjusted to minimum 5.0/10 due to high market success".

(** The local variables of [generate_summary] after line 53:
    [(base_score, market_contribution, score_override)]. *)
Definition summary_locals (result : AnalysisResult) : Q * Q * bool :=
  let base_scores :=
    List.filter (fun score => Qgtb score 0)
           [ ai_framework_score result; code_quality_score result;
             execution_score result; security_score result ] in
  let market_contribution := market_value_score result * 0.3 in
  let score_override := false in
  match base_scores with
  | _ :: _ =>
      let normalized_base := py_sum base_scores / py_len base_scores in
      let base_score := normalized_base * 0.7 in
      if Qgeb (market_value_score result) 0.8 then
        let min_base := 0.5 - market_contribution in
        let base_score := py_max base_score min_base in
        let score_override := true in
        (base_score, market_contribution, score_override)
      else (base_score, market_contribution, score_override)
  | [] => (0.0, market_contribution, score_override)
  end.

(** The flag [score_override] of [generate_summary]. *)
Definition score_override (result : AnalysisResult) : bool :=
  snd (summary_locals result).

(** [ReportGenerator.generate_summary]. *)
Definition generate_summary (result : AnalysisResult) : Report :=
  let '(base_score, market_contribution, score_override) :=
    summary_locals result in
  let overall_score := base_score + market_contribution in
  let detailed_scores :=
    [ ("AI Framework Integration"%string, ai_framework_score result);
      ("Code Quality"%string, code_quality_score result);
      ("Execution Performance"%string, execution_score result);
      ("Market Success"%string, market_value_score result);
      ("Code Originality"%string, security_score result) ] in
  let recommendations := recommendations result in
  let recommendations :=
    if score_override then override_note :: recommendations
    else recommendations in
  {| overall_score := overall_score;
     detailed_scores := detailed_scores;
     report_issues := issues result;
     report_recommendations := recommendations |}.

End ReportGenerator.


(** ** The Python runtime, as far as [gpt_analyzer.py] relies on it *)

(** *** Exceptions and results *)

Inductive ExnClass :=
| JSONDecodeError
| UnicodeDecodeError
| ValueError
| TypeError
| AttributeError
| IndexError
| OSError
| PermissionError
| APIError
| OverflowError.

Record Exn := mkExn { exn_class : ExnClass; exn_msg : string }.

(** [except json.JSONDecodeError] catches exactly this class; every class
    above is caught by [except Exception]. *)
Definition is_JSONDecodeError (e : Exn) : bool :=
  match exn_class e with
  | JSONDecodeError => true
  | _ => false
  end.

(** What a call does: it returns a value or raises. *)
Inductive Outcome (A : Type) :=
| Return (a : A)
| Raise (e : Exn).
Arguments Return {A} a.
Arguments Raise {A} e.

(** Sequencing: the first exception ends the computation.  The instance
    gives [Outcome] stdpp's notation [x ← m; k]. *)
#[global] Instance Outcome_bind : MBind Outcome := fun A B k m =>
  match m with
  | Return a => k a
  | Raise e => Raise e
  end.

#[global] Instance Outcome_ret : MRet Outcome := fun A a => Return a.

(** *** JSON values ([json.loads] results, [dict]s returned to callers) *)

#[warnings="-register-all"]
Inductive JSON :=
| JNull
| JBool (b : bool)
| JInt (n : Z)
| JFloat (x : Q)
| JStr (s : string)
| JArr (items : list JSON)
| JObj (fields : list (string * JSON)).

(** [type(v).__name__], as it shows in error messages. *)
Definition type_name (v : JSON) : string :=
  match v with
  | JNull => "NoneType"
  | JBool _ => "bool"
  | JInt _ => "int"
  | JFloat _ => "float"
  | JStr _ => "str"
  | JArr _ => "list"
  | JObj _ => "dict"
  end.

Fixpoint assoc (key : string) (fields : list (string * JSON)) : option JSON :=
  match fields with
  | [] => None
  | (k, v) :: fields => if String.eqb k key then Some v else assoc key fields
  end.

(** [d.get(key, default)]; on a value that is not a [dict] the attribute
    lookup raises. *)
Definition dict_get (d : JSON) (key : string) (default : JSON) : Outcome JSON :=
  match d with
  | JObj fields =>
      Return (match assoc key fields with Some v => v | None => default end)
  | other =>
      Raise (mkExn AttributeError
               ("'" ++ type_name other ++ "' object has no attribute 'get'"))
  end.

(** The parts of the runtime that are taken as given: the [json] parser
    and the parsing of a float from a string. *)
Class JsonRuntime := {
  json_loads : string -> Outcome JSON;
  float_of_str : string -> Outcome Q
}.

(** The least magnitude of an [int] that [float] does not convert: the
    midpoint between the largest double and [2 ** 1024], which rounds
    up. *)
Definition float_overflow : Z := (2 ^ 1024 - 2 ^ 970)%Z.

(** [float(v)] for a value that came out of [json.loads].  An [int] is
    converted as long as its magnitude is below [float_overflow]; from
    there on [float] raises [OverflowError]. *)
Definition py_float `{JsonRuntime} (v : JSON) : Outcome Q :=
  match v with
  | JFloat x => Return x
  | JInt n =>
      if (float_overflow <=? Z.abs n)%Z
      then Raise (mkExn OverflowError "int too large to convert to float")
      else Return (inject_Z n)
  | JBool b => Return (if b then 1 else 0)
  | JStr s => float_of_str s
  | other =>
      Raise (mkExn TypeError
               ("float() argument must be a string or a real number, not '"
                  ++ type_name other ++ "'"))
  end.

(** *** Strings: [strip], [startswith], [find], [rfind], slices *)

(** [str.isspace] on a code point below 256. *)
Definition is_space (c : ascii) : bool :=
  let n := nat_of_ascii c in
  ((9 <=? n) && (n <=? 13) || (28 <=? n) && (n <=? 32)
   || (n =? 133) || (n =? 160))%nat.

Fixpoint lstrip (s : string) : string :=
  match s with
  | EmptyString => EmptyString
  | String c s' => if is_space c then lstrip s' else s
  end.

Fixpoint rstrip (s : string) : string :=
  match s with
  | EmptyString => EmptyString
  | String c s' =>
      match rstrip s' with
      | EmptyString => if is_space c then EmptyString else String c EmptyString
      | r => String c r
      end
  end.

Definition strip (s : string) : string := rstrip (lstrip s).

(** [s.startswith(c)] for a one-character prefix. *)
Definition startswith (c : ascii) (s : string) : bool :=
  match s with
  | String a _ => Ascii.eqb a c
  | EmptyString => false
  end.

(** [s.find(c)]: the lowest index of [c], or [-1]. *)
Fixpoint find (c : ascii) (s : string) : Z :=
  match s with
  | EmptyString => -1
  | String a s' =>
      if Ascii.eqb a c then 0
      else let r := find c s' in if (r <? 0)%Z then -1 else r + 1
  end%Z.

(** [s.rfind(c)]: the highest index of [c], or [-1]. *)
Fixpoint rfind (c : ascii) (s : string) : Z :=
  match s with
  | EmptyString => -1
  | String a s' =>
      let r := rfind c s' in
      if (0 <=? r)%Z then r + 1 else if Ascii.eqb a c then 0 else -1
  end%Z.

(** [s[start:stop]] for [0 <= start <= stop]. *)
Definition slice (s : string) (start stop : Z) : string :=
  String.substring (Z.to_nat start) (Z.to_nat (stop - start)) s.

(** [str(n)] for an [int]. *)
Definition str_of_int (n : Z) : string := NilZero.string_of_int (Z.to_int n).

(** *** The built-in [hash] on [str]

    CPython salts the hash of a [str] with a secret drawn when the
    interpreter starts ([PYTHONHASHSEED], random by default): the value is
    SipHash-1-3 of the string's bytes under the 128-bit key [(k0, k1)] of
    the process (CPython 3.11 and later, 64-bit build).  Strings are
    taken with code points below 256, one byte each. *)

Module PyHash.
Local Open Scope Z_scope.

(** The per-process key [_Py_HashSecret.siphash]. *)
Record HashSecret := mkSecret { k0 : Z; k1 : Z }.

Definition u64 (x : Z) : Z := x mod 2 ^ 64.

Definition ROTATE (x b : Z) : Z :=
  u64 (Z.lor (Z.shiftl x b) (Z.shiftr x (64 - b))).

Definition HALF_ROUND (a b c d s t : Z) : Z * Z * Z * Z :=
  let a := u64 (a + b) in
  let c := u64 (c + d) in
  let b := Z.lxor (ROTATE b s) a in
  let d := Z.lxor (ROTATE d t) c in
  let a := ROTATE a 32 in
  (a, b, c, d).

Definition SINGLE_ROUND (v : Z * Z * Z * Z) : Z * Z * Z * Z :=
  let '(v0, v1, v2, v3) := v in
  let '(v0, v1, v2, v3) := HALF_ROUND v0 v1 v2 v3 13 16 in
  let '(v2, v1, v0, v3) := HALF_ROUND v2 v1 v0 v3 17 21 in
  (v0, v1, v2, v3).

(** A little-endian word from its bytes. *)
Fixpoint le64 (bs : list Z) : Z :=
  match bs with
  | [] => 0
  | b :: bs => b + 256 * le64 bs
  end.

(** The loop over whole 8-byte words; returns the state and the
    remaining (fewer than 8) bytes. *)
Fixpoint compress (fuel : nat) (v : Z * Z * Z * Z) (src : list Z)
  : (Z * Z * Z * Z) * list Z :=
  match fuel, src with
  | S fuel, b0 :: b1 :: b2 :: b3 :: b4 :: b5 :: b6 :: b7 :: rest =>
      let mi := le64 [b0; b1; b2; b3; b4; b5; b6; b7] in
      let '(v0, v1, v2, v3) := v in
      let v3 := Z.lxor v3 mi in
      let '(v0, v1, v2, v3) := SINGLE_ROUND (v0, v1, v2, v3) in
      let v0 := Z.lxor v0 mi in
      compress fuel (v0, v1, v2, v3) rest
  | _, _ => (v, src)
  end.

Definition siphash13 (k0 k1 : Z) (src : list Z) : Z :=
  let src_sz := Z.of_nat (length src) in
  let b := u64 (Z.shiftl src_sz 56) in
  let v0 := Z.lxor k0 0x736f6d6570736575 in
  let v1 := Z.lxor k1 0x646f72616e646f6d in
  let v2 := Z.lxor k0 0x6c7967656e657261 in
  let v3 := Z.lxor k1 0x7465646279746573 in
  let '((v0, v1, v2, v3), tail) :=
    compress (length src) (v0, v1, v2, v3) src in
  let b := Z.lor b (le64 tail) in
  let v3 := Z.lxor v3 b in
  let '(v0, v1, v2, v3) := SINGLE_ROUND (v0, v1, v2, v3) in
  let v0 := Z.lxor v0 b in
  let v2 := Z.lxor v2 0xff in
  let '(v0, v1, v2, v3) := SINGLE_ROUND (v0, v1, v2, v3) in
  let '(v0, v1, v2, v3) := SINGLE_ROUND (v0, v1, v2, v3) in
  let '(v0, v1, v2, v3) := SINGLE_ROUND (v0, v1, v2, v3) in
  Z.lxor (Z.lxor v0 v1) (Z.lxor v2 v3).

Definition bytes_of_str (s : string) : list Z :=
  List.map (fun c => Z.of_N (N_of_ascii c)) (list_ascii_of_string s).

(** The cast to the signed [Py_hash_t]. *)
Definition to_signed (x : Z) : Z := if x <? 2 ^ 63 then x else x - 2 ^ 64.

(** [hash(s)] in a process whose secret is [k]: the empty string hashes
    to 0, and -1 (the error value) is replaced by -2. *)
Definition hash (k : HashSecret) (s : string) : Z :=
  match s with
  | EmptyString => 0
  | _ =>
      let x := to_signed (siphash13 (k0 k) (k1 k) (bytes_of_str s)) in
      if x =? -1 then -2 else x
  end.

(** The secret that [PYTHONHASHSEED=seed] fixes: seed 0 switches the
    salt off, another seed fills the key from a linear congruential
    generator. *)
Fixpoint lcg_urandom (size : nat) (x : Z) : list Z :=
  match size with
  | O => []
  | S size =>
      let x := (x * 214013 + 2531011) mod 2 ^ 32 in
      Z.shiftr x 16 mod 256 :: lcg_urandom size x
  end.

Definition secret_of_seed (seed : Z) : HashSecret :=
  if seed =? 0 then mkSecret 0 0
  else
    let buffer := lcg_urandom 16 seed in
    mkSecret (le64 (firstn 8 buffer)) (le64 (skipn 8 buffer)).

End PyHash.

(** ** [gpt_analyzer.py]: [GPTAnalyzer] *)

Module GptAnalyzer.
Import PyHash.
Local Open Scope string_scope.

(** *** The analyzer object and what surrounds it *)

(** The attributes of a [GPTAnalyzer] that its operations read or
    write.  [cache_dir] is [None] when caching is off. *)
Record GPTAnalyzer := mkGPTAnalyzer {
  max_calls : Z;
  calls_made : Z;
  call_reset_time : Q;
  cache_dir : option string;
  cache_ttl : Z
}.

Definition set_calls_made (n : Z) (self : GPTAnalyzer) : GPTAnalyzer :=
  {| max_calls := max_calls self;
     calls_made := n;
     call_reset_time := call_reset_time self;
     cache_dir := cache_dir self;
     cache_ttl := cache_ttl self |}.

Definition set_call_reset_time (t : Q) (self : GPTAnalyzer) : GPTAnalyzer :=
  {| max_calls := max_calls self;
     calls_made := calls_made self;
     call_reset_time := t;
     cache_dir := cache_dir self;
     cache_ttl := cache_ttl self |}.

(** What reading a cache file does: [open(cache_file, 'r')] followed by
    [json.load(f)] yields a value or raises ([JSONDecodeError] for text
    that is not JSON, [PermissionError] or another [OSError] for a file
    that cannot be opened, [UnicodeDecodeError] for bytes that do not
    decode). *)
Inductive FileRead :=
| ReadJson (v : JSON)
| ReadRaises (e : Exn).

Record CacheFile := mkCacheFile { st_mtime : Q; on_read : FileRead }.

(** What [with open(..., 'w') as f: json.dump(result, f)] does. *)
Inductive WriteOutcome :=
| WriteOk                    (* the file holds the dumped record *)
| WriteOpenFails (e : Exn)   (* [open] raises: nothing is written *)
| WriteDumpFails (e : Exn).  (* raised after truncation: partial text *)

(** What the external service does for one request.  [content] is the
    evaluation of [response.choices[0].message.content], which can
    itself raise on a malformed response. *)
Inductive ApiOutcome :=
| ApiRaises (e : Exn)
| ApiResponds (content : Outcome string).

(** Everything one call of an operation observes from outside: the
    clock at the cache check, the clock at the rate-limit check, the
    modification time a written file gets, the service and the disk. *)
Record Env := mkEnv {
  clock_cache : Q;
  clock_limit : Q;
  clock_write : Q;
  api : ApiOutcome;
  cache_write : WriteOutcome
}.

(** The observable steps of a call, in the order they happen. *)
Inductive Event :=
| CacheLookup (cache_file : string) (fresh_hit : bool)
| RateLimitCheck (admitted : bool)
| ExternalCall
| CacheWrite (cache_file : string).

(** A finished call: what it returned or raised, the analyzer and the
    cache directory afterwards, and the steps it took. *)
Record Run := mkRun {
  returned : Outcome JSON;
  self_after : GPTAnalyzer;
  files_after : gmap string CacheFile;
  trace : list Event
}.

(** [cache_dir / name] *)
Definition path_join (dir name : string) : string := dir ++ "/" ++ name.

(** *** [__init__] *)

(** The environment variables read by the constructor; the two integer
    settings are taken as already parsed by [int(...)]. *)
Record Environ := mkEnviron {
  OPENAI_API_KEY : option string;
  MAX_GPT_CALLS : option Z;
  GPT_ANALYSIS_CACHE_PATH : option string;
  GPT_CACHE_TTL : option Z
}.

Definition truthy (s : option string) : bool :=
  match s with
  | Some (String _ _) => true
  | _ => false
  end.

(** [GPTAnalyzer.__init__] at time [now]. *)
Definition init (environ : Environ) (now : Q) : Outcome GPTAnalyzer :=
  if negb (truthy (OPENAI_API_KEY environ)) then
    Raise (mkExn ValueError "OpenAI API key not found in environment")
  else
    Return {| max_calls := default 5%Z (MAX_GPT_CALLS environ);
              calls_made := 0;
              call_reset_time := now + 3600;
              cache_dir :=
                if truthy (GPT_ANALYSIS_CACHE_PATH environ)
                then GPT_ANALYSIS_CACHE_PATH environ else None;
              cache_ttl := default (24 * 3600)%Z (GPT_CACHE_TTL environ) |}.

(** *** The blocks shared by the operations *)

Inductive Lookup :=
| Hit (v : JSON)
| Miss
| ReadError (e : Exn).

(** The cache check, lines 118-130 (the same block at 258-268, 321-331
    and 406-416 with another key): a file that exists and is younger
    than the TTL is read; [JSONDecodeError] alone is swallowed. *)
Definition cache_lookup (env : Env) (self : GPTAnalyzer)
    (files : gmap string CacheFile) (cache_key : string)
  : Lookup * list Event :=
  match cache_dir self with
  | Some dir =>
      let cache_file := path_join dir (cache_key ++ ".json") in
      match files !! cache_file with
      | Some f =>
          let cache_age := (clock_cache env - st_mtime f)%Q in
          if Qltb cache_age (inject_Z (cache_ttl self)) then
            match on_read f with
            | ReadJson v => (Hit v, [CacheLookup cache_file true])
            | ReadRaises e =>
                if is_JSONDecodeError e
                then (Miss, [CacheLookup cache_file false])
                else (ReadError e, [CacheLookup cache_file false])
            end
          else (Miss, [CacheLookup cache_file false])
      | None => (Miss, [CacheLookup cache_file false])
      end
  | None => (Miss, [])
  end.

(** The cache write, lines 206-212 (also 297-303, 360-366, 445-451):
    any exception is logged and dropped. *)
Definition cache_store (env : Env) (self : GPTAnalyzer)
    (files : gmap string CacheFile) (cache_key : string) (result : JSON)
  : gmap string CacheFile * list Event :=
  match cache_dir self with
  | Some dir =>
      let cache_file := path_join dir (cache_key ++ ".json") in
      match cache_write env with
      | WriteOk =>
          (<[cache_file := mkCacheFile (clock_write env) (ReadJson result)]> files,
           [CacheWrite cache_file])
      | WriteOpenFails _ => (files, [])
      | WriteDumpFails _ =>
          (<[cache_file :=
               mkCacheFile (clock_write env)
                 (ReadRaises (mkExn JSONDecodeError "Expecting value"))]> files,
           [CacheWrite cache_file])
      end
  | None => (files, [])
  end.

(** The window reset, lines 133-136 (also 237-240 and 385-388). *)
Definition reset_window (current_time : Q) (self : GPTAnalyzer) : GPTAnalyzer :=
  if Qgeb current_time (call_reset_time self)
  then set_call_reset_time (current_time + 3600)%Q (set_calls_made 0 self)
  else self.

(** *** The cache keys, lines 116, 256, 319 and 404 *)

(** [f"analyze_{hash(code + context)}"] *)
Definition analyze_key (k : HashSecret) (code context : string) : string :=
  "analyze_" ++ str_of_int (hash k (code ++ context)).

(** [f"verify_{hash(code)}"] *)
Definition verify_key (k : HashSecret) (code : string) : string :=
  "verify_" ++ str_of_int (hash k code).

(** [f"market_{hash(project_name + repo_url)}"] *)
Definition market_key (k : HashSecret) (project_name repo_url : string)
  : string :=
  "market_" ++ str_of_int (hash k (project_name ++ repo_url)).

(** [f"originality_{hash(code)}"] *)
Definition originality_key (k : HashSecret) (code : string) : string :=
  "originality_" ++ str_of_int (hash k code).

(** *** [analyze_code_segment] *)

(** [_get_fallback_analysis(error_msg)] *)
Definition _get_fallback_analysis (error_msg : string) : JSON :=
  JObj [ ("ai_score", JFloat 0.5);
         ("quality_score", JFloat 0.5);
         ("originality_score", JFloat 0.5);
         ("execution_score", JFloat 0.5);
         ("market_value", JFloat 0.5);
         ("findings",
          match error_msg with
          | String _ _ => JArr [JStr ("GPT analysis failed: " ++ error_msg)]
          | EmptyString => JArr [JStr "No findings available"]
          end);
         ("recommendations",
          JArr [JStr "Enable GPT analysis for enhanced results"]) ].

(** Lines 179-187: strip the text and, when it does not open with a
    brace, cut out what lies between the first [{] and the last [}]. *)
Definition extract_object (content : string) : Outcome string :=
  let content := strip content in
  if negb (startswith "{" content) then
    let start := find "{" content in
    let end_ := rfind "}" content in
    if (0 <=? start)%Z && (start <? end_)%Z
    then Return (slice content start (end_ + 1))
    else Raise (mkExn ValueError "No valid JSON object found in response")
  else Return content.

(** Lines 189-198: the record built from the parsed response. *)
Definition build_result `{JsonRuntime} (analysis : JSON) : Outcome JSON :=
  ai_score ← dict_get analysis "ai_score" (JFloat 0.5) ≫= py_float;
  quality_score ← dict_get analysis "quality_score" (JFloat 0.5) ≫= py_float;
  originality_score ←
    dict_get analysis "originality_score" (JFloat 0.5) ≫= py_float;
  execution_score ←
    dict_get analysis "execution_score" (JFloat 0.5) ≫= py_float;
  market_value ← dict_get analysis "market_value" (JFloat 0.5) ≫= py_float;
  findings ←
    dict_get analysis "findings" (JArr [JStr "No findings available"]);
  recommendations ←
    dict_get analysis "recommendations"
      (JArr [JStr "No recommendations available"]);
  Return (JObj [ ("ai_score", JFloat ai_score);
                 ("quality_score", JFloat quality_score);
                 ("originality_score", JFloat originality_score);
                 ("execution_score", JFloat execution_score);
                 ("market_value", JFloat market_value);
                 ("findings", findings);
                 ("recommendations", recommendations) ]).

(** The inner [try] block, lines 176-198. *)
Definition parse_analysis `{JsonRuntime} (content : Outcome string)
  : Outcome JSON :=
  content ← content;
  content ← extract_object content;
  analysis ← json_loads content;
  build_result analysis.

(** [GPTAnalyzer.analyze_code_segment(code, context)] in a process whose
    hash secret is [k]. *)
Definition analyze_code_segment `{JsonRuntime} (k : HashSecret) (env : Env)
    (code context : string)
    (self : GPTAnalyzer) (files : gmap string CacheFile) : Run :=
  let cache_key := analyze_key k code context in
  match cache_lookup env self files cache_key with
  | (Hit v, tr) => mkRun (Return v) self files tr
  | (ReadError e, tr) => mkRun (Raise e) self files tr
  | (Miss, tr) =>
      let current_time := clock_limit env in
      let self := reset_window current_time self in
      let next_count := (calls_made self + 1)%Z in
      if (next_count >? max_calls self)%Z then
        mkRun (Return (_get_fallback_analysis "Rate limit reached"))
              self files (tr ++ [RateLimitCheck false])%list
      else
        let self := set_calls_made next_count self in
        let tr := (tr ++ [RateLimitCheck true; ExternalCall])%list in
        match api env with
        | ApiRaises e =>
            mkRun (Return (_get_fallback_analysis (exn_msg e))) self files tr
        | ApiResponds content =>
            match parse_analysis content with
            | Raise e =>
                if is_JSONDecodeError e then
                  mkRun (Return (_get_fallback_analysis
                                   ("JSON parse error: " ++ exn_msg e)))
                        self files tr
                else
                  mkRun (Return (_get_fallback_analysis (exn_msg e)))
                        self files tr
            | Return result =>
                let '(files, tr') :=
                  cache_store env self files cache_key result in
                mkRun (Return result) self files (tr ++ tr')%list
            end
        end
  end.

(** *** [verify_ai_implementation] *)

(** The record returned at lines 245-251. *)
Definition verify_rate_limited : JSON :=
  JObj [ ("is_real_ai", JBool false);
         ("implementation_type", JStr "unknown");
         ("confidence", JFloat 0.0);
         ("evidence", JArr [JStr "Rate limit reached"]);
         ("suggestions", JArr [JStr "Try again later"]) ].

(** The record returned at lines 309-315. *)
Definition verify_failed (msg : string) : JSON :=
  JObj [ ("is_real_ai", JBool false);
         ("implementation_type", JStr "unknown");
         ("confidence", JFloat 0.0);
         ("evidence", JArr [JStr ("Analysis failed: " ++ msg)]);
         ("suggestions", JArr [JStr "Enable GPT analysis for AI verification"]) ].

(** The [try] block of the three sibling operations up to the cache
    write: the request, then [json.loads(response.choices[0].message.content)]. *)
Definition request_json `{JsonRuntime} (env : Env) : Outcome JSON :=
  match api env with
  | ApiRaises e => Raise e
  | ApiResponds content => content ← content; json_loads content
  end.

(** [GPTAnalyzer.verify_ai_implementation(code)] *)
Definition verify_ai_implementation `{JsonRuntime} (k : HashSecret)
    (env : Env) (code : string)
    (self : GPTAnalyzer) (files : gmap string CacheFile) : Run :=
  let current_time := clock_limit env in
  let self := reset_window current_time self in
  if (calls_made self >=? max_calls self)%Z then
    mkRun (Return verify_rate_limited) self files [RateLimitCheck false]
  else
    let self := set_calls_made (calls_made self + 1)%Z self in
    let cache_key := verify_key k code in
    match cache_lookup env self files cache_key with
    | (Hit v, tr) => mkRun (Return v) self files (RateLimitCheck true :: tr)
    | (ReadError e, tr) =>
        mkRun (Raise e) self files (RateLimitCheck true :: tr)
    | (Miss, tr) =>
        let tr := (RateLimitCheck true :: tr ++ [ExternalCall])%list in
        match request_json env with
        | Return result =>
            let '(files, tr') :=
              cache_store env self files cache_key result in
            mkRun (Return result) self files (tr ++ tr')%list
        | Raise e =>
            mkRun (Return (verify_failed (exn_msg e))) self files tr
        end
    end.

(** *** [analyze_market_context] *)

(** The record returned at lines 372-380. *)
Definition market_failed (msg : string) : JSON :=
  JObj [ ("popularity_score", JFloat 0.5);
         ("adoption_score", JFloat 0.5);
         ("impact_score", JFloat 0.5);
         ("popularity_metrics", JObj []);
         ("community_metrics", JObj []);
         ("market_context", JStr ("Analysis failed: " ++ msg));
         ("recommendations",
          JArr [JStr "Enable GPT analysis for market research"]) ].

(** [GPTAnalyzer.analyze_market_context(project_name, repo_url)] *)
Definition analyze_market_context `{JsonRuntime} (k : HashSecret)
    (env : Env) (project_name repo_url : string)
    (self : GPTAnalyzer) (files : gmap string CacheFile) : Run :=
  let cache_key := market_key k project_name repo_url in
  match cache_lookup env self files cache_key with
  | (Hit v, tr) => mkRun (Return v) self files tr
  | (ReadError e, tr) => mkRun (Raise e) self files tr
  | (Miss, tr) =>
      let tr := (tr ++ [ExternalCall])%list in
      match request_json env with
      | Return result =>
          let '(files, tr') :=
            cache_store env self files cache_key result in
          mkRun (Return result) self files (tr ++ tr')%list
      | Raise e =>
          mkRun (Return (market_failed (exn_msg e))) self files tr
      end
  end.

(** *** [check_code_originality] *)

(** The record returned at lines 393-399. *)
Definition originality_rate_limited : JSON :=
  JObj [ ("originality_score", JFloat 0.5);
         ("is_likely_copied", JBool false);
         ("common_patterns", JArr [JStr "Rate limit reached"]);
         ("unique_elements", JArr []);
         ("recommendations", JArr [JStr "Try again later"]) ].

(** The record returned at lines 457-463. *)
Definition originality_failed : JSON :=
  JObj [ ("originality_score", JFloat 0.5);
         ("is_likely_copied", JBool false);
         ("common_patterns", JArr []);
         ("unique_elements", JArr []);
         ("recommendations",
          JArr [JStr "Enable GPT analysis for originality verification"]) ].

(** [GPTAnalyzer.check_code_originality(code)] *)
Definition check_code_originality `{JsonRuntime} (k : HashSecret)
    (env : Env) (code : string)
    (self : GPTAnalyzer) (files : gmap string CacheFile) : Run :=
  let current_time := clock_limit env in
  let self := reset_window current_time self in
  if (calls_made self >=? max_calls self)%Z then
    mkRun (Return originality_rate_limited) self files [RateLimitCheck false]
  else
    let self := set_calls_made (calls_made self + 1)%Z self in
    let cache_key := originality_key k code in
    match cache_lookup env self files cache_key with
    | (Hit v, tr) => mkRun (Return v) self files (RateLimitCheck true :: tr)
    | (ReadError e, tr) =>
        mkRun (Raise e) self files (RateLimitCheck true :: tr)
    | (Miss, tr) =>
        let tr := (RateLimitCheck true :: tr ++ [ExternalCall])%list in
        match request_json env with
        | Return result =>
            let '(files, tr') :=
              cache_store env self files cache_key result in
            mkRun (Return result) self files (tr ++ tr')%list
        | Raise e =>
            mkRun (Return originality_failed) self files tr
        end
    end.

(** *** The four operations as one interface *)

Inductive Operation :=
| AnalyzeCodeSegment (code context : string)
| VerifyAiImplementation (code : string)
| AnalyzeMarketContext (project_name repo_url : string)
| CheckCodeOriginality (code : string).

Definition cache_key (k : HashSecret) (op : Operation) : string :=
  match op with
  | AnalyzeCodeSegment code context => analyze_key k code context
  | VerifyAiImplementation code => verify_key k code
  | AnalyzeMarketContext project_name repo_url =>
      market_key k project_name repo_url
  | CheckCodeOriginality code => originality_key k code
  end.

Definition call `{JsonRuntime} (k : HashSecret) (env : Env) (op : Operation)
    (self : GPTAnalyzer) (files : gmap string CacheFile) : Run :=
  match op with
  | AnalyzeCodeSegment code context =>
      analyze_code_segment k env code context self files
  | VerifyAiImplementation code =>
      verify_ai_implementation k env code self files
  | AnalyzeMarketContext project_name repo_url =>
      analyze_market_context k env project_name repo_url self files
  | CheckCodeOriginality code =>
      check_code_originality k env code self files
  end.

(** A sequence of calls made one after the other on the same analyzer
    and cache directory; the result is the list of runs, first call
    first. *)
Fixpoint calls `{JsonRuntime} (k : HashSecret) (script : list (Env * Operation))
    (self : GPTAnalyzer) (files : gmap string CacheFile) : list Run :=
  match script with
  | [] => []
  | (env, op) :: script =>
      let run := call k env op self files in
      run :: calls k script (self_after run) (files_after run)
  end.

End GptAnalyzer.

(** ** [report_generator.py]: the private score of [ReportGenerator] *)

Module ReportGeneratorPrivate.
Import CodeAnalyzer.

(** [ReportGenerator._calculate_overall_score]: the four weights of the
    local dictionary are all [0.25]. *)
Definition _calculate_overall_score (result : AnalysisResult) : Q :=
  let base_score :=
    0.25 * ai_framework_score result
    + 0.25 * code_quality_score result
    + 0.25 * execution_score result
    + 0.25 * security_score result in
  if Qgeb (market_value_score result) 0.8
  then py_max base_score 0.5
  else base_score.

End ReportGeneratorPrivate.

(** ** [market_analyzer.py]: [MarketAnalyzer] *)

(** Python's two-argument [min(a, b)]: the first argument is kept unless
    the second is strictly smaller. *)
Definition py_min (a b : Q) : Q := if Qltb b a then b else a.

Module MarketAnalyzer.
Import PyHash GptAnalyzer.
Local Open Scope string_scope.

(** The attributes of a [MarketAnalyzer]: its own [GPTAnalyzer], its own
    cache directory and TTL, and the two thresholds. *)
Record MarketAnalyzer := mkMarketAnalyzer {
  gpt_analyzer : GPTAnalyzer;
  market_cache_dir : option string;
  market_cache_ttl : Z;
  popularity_threshold : Z;
  min_popular_score : Q
}.

Definition set_gpt_analyzer (gpt : GPTAnalyzer) (self : MarketAnalyzer)
  : MarketAnalyzer :=
  {| gpt_analyzer := gpt;
     market_cache_dir := market_cache_dir self;
     market_cache_ttl := market_cache_ttl self;
     popularity_threshold := popularity_threshold self;
     min_popular_score := min_popular_score self |}.

(** The environment variables read by the constructor, besides those of
    [GPTAnalyzer]; the numbers are taken as already parsed. *)
Record MarketEnviron := mkMarketEnviron {
  gpt_environ : Environ;
  MARKET_CACHE_TTL : option Z;
  POPULARITY_THRESHOLD : option Z;
  MIN_POPULAR_SCORE : option Q
}.

(** [MarketAnalyzer.__init__] at time [now]. *)
Definition init (environ : MarketEnviron) (now : Q) : Outcome MarketAnalyzer :=
  gpt ← GptAnalyzer.init (gpt_environ environ) now;
  Return {| gpt_analyzer := gpt;
            market_cache_dir :=
              match GPT_ANALYSIS_CACHE_PATH (gpt_environ environ) with
              | Some (String c path) =>
                  Some (path_join (String c path) "market")
              | _ => None
              end;
            market_cache_ttl :=
              default (24 * 3600)%Z (MARKET_CACHE_TTL environ);
            popularity_threshold :=
              default 1000%Z (POPULARITY_THRESHOLD environ);
            min_popular_score :=
              (default 5.0 (MIN_POPULAR_SCORE environ) / 10.0)%Q |}.

(** What one call of [analyze_market_value] observes from outside, on top
    of what the call of [analyze_market_context] inside it observes. *)
Record MarketEnv := mkMarketEnv {
  market_clock : Q;
  market_clock_write : Q;
  market_cache_write : WriteOutcome;
  gpt_env : Env
}.

(** A finished call of [analyze_market_value]. *)
Record MarketRun := mkMarketRun {
  market_returned : Outcome JSON;
  market_self_after : MarketAnalyzer;
  market_files_after : gmap string CacheFile;
  market_trace : list Event
}.

(** The cache check, lines 62-73. *)
Definition market_cache_lookup (menv : MarketEnv) (self : MarketAnalyzer)
    (files : gmap string CacheFile) (cache_key : string)
  : Lookup * list Event :=
  match market_cache_dir self with
  | Some dir =>
      let cache_file := path_join dir (cache_key ++ ".json") in
      match files !! cache_file with
      | Some f =>
          let cache_age := (market_clock menv - st_mtime f)%Q in
          if Qltb cache_age (inject_Z (market_cache_ttl self)) then
            match on_read f with
            | ReadJson v => (Hit v, [CacheLookup cache_file true])
            | ReadRaises e =>
                if is_JSONDecodeError e
                then (Miss, [CacheLookup cache_file false])
                else (ReadError e, [CacheLookup cache_file false])
            end
          else (Miss, [CacheLookup cache_file false])
      | None => (Miss, [CacheLookup cache_file false])
      end
  | None => (Miss, [])
  end.

(** The cache write, lines 95-101. *)
Definition market_cache_store (menv : MarketEnv) (self : MarketAnalyzer)
    (files : gmap string CacheFile) (cache_key : string) (result : JSON)
  : gmap string CacheFile * list Event :=
  match market_cache_dir self with
  | Some dir =>
      let cache_file := path_join dir (cache_key ++ ".json") in
      match market_cache_write menv with
      | WriteOk =>
          (<[cache_file :=
               mkCacheFile (market_clock_write menv) (ReadJson result)]> files,
           [CacheWrite cache_file])
      | WriteOpenFails _ => (files, [])
      | WriteDumpFails _ =>
          (<[cache_file :=
               mkCacheFile (market_clock_write menv)
                 (ReadRaises (mkExn JSONDecodeError "Expecting value"))]> files,
           [CacheWrite cache_file])
      end
  | None => (files, [])
  end.

(** [MarketAnalyzer._calculate_market_score]: any exception inside gives
    the neutral 0.5. *)
Definition _calculate_market_score `{JsonRuntime} (market_data : JSON) : Q :=
  match
    popularity ← dict_get market_data "popularity_score" (JFloat 0.5) ≫= py_float;
    adoption ← dict_get market_data "adoption_score" (JFloat 0.5) ≫= py_float;
    impact ← dict_get market_data "impact_score" (JFloat 0.5) ≫= py_float;
    let weighted_score :=
      (popularity * 0.4 + adoption * 0.4 + impact * 0.2)%Q in
    Return (py_min 1.0 weighted_score)
  with
  | Return score => score
  | Raise _ => 0.5%Q
  end.

(** [MarketAnalyzer._get_fallback_analysis()] *)
Definition _get_fallback_analysis : JSON :=
  JObj [ ("market_score", JFloat 0.5);
         ("is_popular", JBool false);
         ("popularity_metrics", JObj []);
         ("community_metrics", JObj []);
         ("market_context", JStr "Market analysis unavailable");
         ("recommendations",
          JArr [JStr "Enable market analysis for enhanced results"]) ].

(** Lines 82-93: the record built from the market data. *)
Definition build_market_result `{JsonRuntime} (market_data : JSON)
  : Outcome JSON :=
  let market_score := _calculate_market_score market_data in
  popularity_metrics ← dict_get market_data "popularity_metrics" (JObj []);
  community_metrics ← dict_get market_data "community_metrics" (JObj []);
  market_context ← dict_get market_data "market_context" (JStr "");
  recommendations ← dict_get market_data "recommendations" (JArr []);
  Return (JObj [ ("market_score", JFloat market_score);
                 ("is_popular", JBool (Qgeb market_score 0.8));
                 ("popularity_metrics", popularity_metrics);
                 ("community_metrics", community_metrics);
                 ("market_context", market_context);
                 ("recommendations", recommendations) ]).

(** [MarketAnalyzer.analyze_market_value(project_name, repo_url)].  The
    cache key is built as in [GPTAnalyzer.analyze_market_context]
    (line 60); the files live in the analyzer's own directory. *)
Definition analyze_market_value `{JsonRuntime} (k : HashSecret)
    (menv : MarketEnv) (project_name repo_url : string)
    (self : MarketAnalyzer) (files : gmap string CacheFile) : MarketRun :=
  let cache_key := market_key k project_name repo_url in
  match market_cache_lookup menv self files cache_key with
  | (Hit v, tr) => mkMarketRun (Return v) self files tr
  | (ReadError e, tr) => mkMarketRun (Raise e) self files tr
  | (Miss, tr) =>
      let run :=
        analyze_market_context k (gpt_env menv) project_name repo_url
          (gpt_analyzer self) files in
      let self := set_gpt_analyzer (self_after run) self in
      let files := files_after run in
      let tr := (tr ++ trace run)%list in
      match returned run ≫= build_market_result with
      | Return result =>
          let '(files, tr') :=
            market_cache_store menv self files cache_key result in
          mkMarketRun (Return result) self files (tr ++ tr')%list
      | Raise e => mkMarketRun (Return _get_fallback_analysis) self files tr
      end
  end.

(** [MarketAnalyzer.should_boost_score(market_score)] *)
Definition should_boost_score (market_score : Q) : bool :=
  Qgeb market_score 0.8.


End MarketAnalyzer.

(** ** The repository under analysis and the tools applied to it *)

(** A file below the repository root, in the order in which [os.walk]
    lists the files: its name and what
    [with open(path, 'r') as f: f.read()] gives. *)
Record SourceFile := mkSourceFile {
  file_name : string;
  file_read : Outcome string
}.

(** [s.endswith(suffix)] *)
Fixpoint endswith (suffix s : string) : bool :=
  if String.eqb suffix s then true
  else match s with
       | EmptyString => false
       | String _ s' => endswith suffix s'
       end.

(** [s.endswith((suffix1, suffix2, ...))] *)
Definition endswith_any (suffixes : list string) (s : string) : bool :=
  existsb (fun suffix => endswith suffix s) suffixes.

(** What [ast.parse] does with a text: it accepts it, rejects it with
    [SyntaxError], or raises something else. *)
Inductive ParseOutcome :=
| ParseOk
| ParseSyntaxError
| ParseRaises (e : Exn).

(** The text tools that are taken as given: [re.search(pattern, content)]
    as a truth value, the same with the flags
    [re.MULTILINE | re.IGNORECASE], and [ast.parse]. *)
Class TextTools := {
  re_search : string -> string -> bool;
  re_search_mi : string -> string -> bool;
  ast_parse : string -> ParseOutcome
}.

(** A loop over a list whose body can raise: the first exception ends
    it. *)
Fixpoint for_each {A B : Type} (body : A -> B -> Outcome A) (acc : A)
    (items : list B) : Outcome A :=
  match items with
  | [] => Return acc
  | item :: items =>
      match body acc item with
      | Return acc => for_each body acc items
      | Raise e => Raise e
      end
  end.

(** ** [execution_verifier.py]: [ExecutionVerifier] *)

Module ExecutionVerifier.
Local Open Scope string_scope.

(** One round of the loop of [_check_syntax] over the counters
    [(valid_files, total_files)]. *)
Definition check_syntax_file `{TextTools} (counters : Z * Z) (file : SourceFile)
  : Outcome (Z * Z) :=
  let '(valid_files, total_files) := counters in
  if negb (endswith ".py" (file_name file)) then Return counters
  else
    let total_files := (total_files + 1)%Z in
    match file_read file with
    | Raise e => Raise e
    | Return content =>
        match ast_parse content with
        | ParseOk => Return ((valid_files + 1)%Z, total_files)
        | ParseSyntaxError => Return (valid_files, total_files)
        | ParseRaises e => Raise e
        end
    end.

(** [ExecutionVerifier._check_syntax] *)
Definition _check_syntax `{TextTools} (files : list SourceFile) : Outcome Q :=
  counters ← for_each check_syntax_file (0, 0)%Z files;
  let '(valid_files, total_files) := counters in
  Return (inject_Z valid_files / inject_Z (Z.max total_files 1))%Q.

(** [ExecutionVerifier._check_model_init] *)
Definition _check_model_init `{TextTools} (content : string) : bool :=
  existsb (fun pattern => re_search pattern content)
    [ "CompletionModel::new";
      "EmbeddingModel::new";
      "Agent::new";
      "model\s*=\s*[A-Za-z]+Model\(";
      "torch\.nn\.Module";
      "keras\.Model" ].

(** [ExecutionVerifier._check_inference_methods] *)
Definition _check_inference_methods `{TextTools} (content : string) : bool :=
  existsb (fun pattern => re_search pattern content)
    [ "async\s+fn\s+completion";
      "async\s+fn\s+embed";
      "fn\s+forward";
      "def\s+predict";
      "def\s+forward";
      "model\.predict" ].

(** [ExecutionVerifier._check_ai_error_handling] *)
Definition _check_ai_error_handling `{TextTools} (content : string) : bool :=
  existsb (fun pattern => re_search pattern content)
    [ "CompletionError";
      "EmbeddingError";
      "Result<.*Response";
      "try:.*except\s+(torch|tensorflow|transformers)" ].

(** [ExecutionVerifier._check_model_config] *)
Definition _check_model_config `{TextTools} (content : string) : bool :=
  existsb (fun pattern => re_search pattern content)
    [ "temperature\s*=";
      "max_tokens\s*=";
      "model_name\s*=";
      "batch_size\s*=";
      "learning_rate\s*=" ].

(** One of the four [if self._check_...(content):] blocks of
    [_check_implementation]: both counters go up together. *)
Definition count_check (passed : bool) (counters : Q * Z) : Q * Z :=
  if passed then ((counters.1 + 1)%Q, (counters.2 + 1)%Z) else counters.

(** One round of the loop of [_check_implementation] over the counters
    [(implementation_score, total_checks)]. *)
Definition check_implementation_file `{TextTools} (counters : Q * Z)
    (file : SourceFile) : Outcome (Q * Z) :=
  if negb (endswith_any [".py"; ".rs"] (file_name file)) then Return counters
  else
    content ← file_read file;
    let counters := count_check (_check_model_init content) counters in
    let counters := count_check (_check_inference_methods content) counters in
    let counters := count_check (_check_ai_error_handling content) counters in
    let counters := count_check (_check_model_config content) counters in
    Return counters.

(** [ExecutionVerifier._check_implementation] *)
Definition _check_implementation `{TextTools} (files : list SourceFile)
  : Outcome Q :=
  counters ← for_each check_implementation_file (0.0%Q, 0%Z) files;
  let '(implementation_score, total_checks) := counters in
  Return (implementation_score / inject_Z (Z.max total_checks 1))%Q.

(** [ExecutionVerifier._check_dependencies] *)
Definition _check_dependencies : Q := 0.5.

(** [ExecutionVerifier.verify_execution] *)
Definition verify_execution `{TextTools} (files : list SourceFile)
  : Outcome Q :=
  syntax_score ← _check_syntax files;
  implementation_score ← _check_implementation files;
  let dependency_score := _check_dependencies in
  Return (syntax_score * 0.25 + implementation_score * 0.65
          + dependency_score * 0.1)%Q.

End ExecutionVerifier.

(** ** [authenticity_detector.py]: [AuthenticityDetector] *)

Module AuthenticityDetector.
Local Open Scope string_scope.

(** An entry of [KNOWN_AI_FRAMEWORKS].  The three pattern sets are
    written as lists: the code only asks whether any pattern matches and
    how many do. *)
Record Framework := mkFramework {
  imports : list string;
  basic_patterns : list string;
  advanced_patterns : list string;
  weight : Q
}.

(** [AuthenticityDetector.KNOWN_AI_FRAMEWORKS], in the order of the
    dictionary. *)
Definition KNOWN_AI_FRAMEWORKS : list (string * Framework) :=
  [ ("tensorflow",
     mkFramework
       [ "import\s+tensorflow"; "import\s+tf"; "from\s+tensorflow" ]
       [ "model\s*=\s*tf"; "keras\.Sequential"; "keras\.layers";
         "keras\.Model"; "tf\.keras"; "Sequential\s*\(\s*\)" ]
       [ "class\s+\w+\s*\(\s*tf\.keras\.Model\s*\)"; "tf\.GradientTape";
         "@tf\.function"; "custom_training_loop"; "tf\.data\.Dataset" ]
       1.0);
    ("pytorch",
     mkFramework
       [ "import\s+torch"; "from\s+torch"; "import\s+torch\.nn" ]
       [ "torch\.nn"; "nn\."; "torch\.optim"; "model\.forward";
         "torch\.utils\.data"; "Module\s*\("; "Linear\s*\(" ]
       [ "class\s+\w+\s*\(\s*nn\.Module\s*\)"; "torch\.autograd";
         "@torch\.jit\.script"; "custom_loss"; "torch\.cuda" ]
       1.0);
    ("transformers",
     mkFramework
       [ "from\s+transformers"; "import\s+transformers" ]
       [ "AutoModel\s*\."; "AutoTokenizer\s*\."; "pipeline\s*\(";
         "from_pretrained\s*\("; "PreTrainedModel\s*\("; "transformers\." ]
       [ "class\s+\w+\s*\(\s*PreTrainedModel\s*\)"; "custom_head";
         "trainer\.train"; "model\.train"; "custom_tokens" ]
       0.9);
    ("openai",
     mkFramework
       [ "import\s+openai"; "from\s+openai"; "OpenAI";
         "import\s*{\s*Configuration,\s*OpenAIApi\s*}" ]
       [ "openai\.Completion\.create"; "openai\.ChatCompletion\.create";
         "new\s+OpenAI\s*\(\s*\)"; "OpenAIApi"; "gpt-4"; "gpt-3\.5-turbo";
         "createChatCompletion"; "createCompletion" ]
       [ "fine_tuning"; "custom_prompts"; "system_messages";
         "context_window"; "token_handling" ]
       0.5);
    ("langchain",
     mkFramework
       [ "from\s+langchain"; "import\s+langchain";
         "import\s*{\s*LangChain\s*}" ]
       [ "LLMChain"; "PromptTemplate"; "ChatPromptTemplate"; "VectorStore";
         "Embeddings"; "BaseLanguageModel" ]
       [ "custom_chain"; "custom_agent"; "custom_tool";
         "memory_implementation"; "custom_retriever" ]
       0.7);
    ("rig",
     mkFramework
       [ "use rig"; "from rig" ]
       [ "CompletionModel"; "EmbeddingModel"; "Agent"; "VectorStore" ]
       [ "custom_provider"; "custom_model"; "custom_agent"; "custom_store";
         "custom_embedding" ]
       0.8) ].

(** [self.KNOWN_AI_FRAMEWORKS[f]]; [None] is the [KeyError] of a name that
    is not in the table. *)
Fixpoint known_framework_in (table : list (string * Framework)) (f : string)
  : option Framework :=
  match table with
  | [] => None
  | (name, patterns) :: table =>
      if String.eqb name f then Some patterns else known_framework_in table f
  end.

Definition known_framework : string -> option Framework :=
  known_framework_in KNOWN_AI_FRAMEWORKS.

(** [any(re.search(pattern, content, re.MULTILINE | re.IGNORECASE)
         for pattern in patterns['imports'])] *)
Definition imports_found `{TextTools} (patterns : Framework) (content : string)
  : bool :=
  existsb (fun pattern => re_search_mi pattern content) (imports patterns).

(** [sum(1 for pattern in ... if re.search(pattern, content, ...))] *)
Definition matches `{TextTools} (patterns : list string) (content : string)
  : Z :=
  Z.of_nat (length (List.filter (fun pattern => re_search_mi pattern content)
                      patterns)).

(** The score that the body of the loop over the table computes for one
    framework and one file, weight applied. *)
Definition framework_score `{TextTools} (patterns : Framework)
    (content : string) : Q :=
  let score := 0 in
  let score := if imports_found patterns content then score + 0.2 else score in
  let basic_matches := matches (basic_patterns patterns) content in
  let score :=
    if (0 <? basic_matches)%Z
    then score + py_min 0.3 (inject_Z basic_matches * 0.1)
    else score in
  let advanced_matches := matches (advanced_patterns patterns) content in
  let score :=
    if (0 <? advanced_matches)%Z
    then score + py_min 0.5 (inject_Z advanced_matches * 0.1)
    else score in
  score * weight patterns.

(** One round of the loop over the table, on the locals
    [(detected_frameworks, framework_scores)]. *)
Definition find_framework `{TextTools} (content : string)
    (found : gset string * gmap string Q) (entry : string * Framework)
  : gset string * gmap string Q :=
  let '(detected_frameworks, framework_scores) := found in
  let '(framework, patterns) := entry in
  let score := framework_score patterns content in
  if Qgtb score 0 then
    let framework_scores :=
      <[framework := py_max score (default 0 (framework_scores !! framework))]>
        framework_scores in
    if imports_found patterns content
    then ({[framework]} ∪ detected_frameworks, framework_scores)
    else if Qgtb score 0.2
         then ({[framework]} ∪ detected_frameworks, framework_scores)
         else (detected_frameworks, framework_scores)
  else found.

(** One round of the loop over the files. *)
Definition find_in_file `{TextTools} (found : gset string * gmap string Q)
    (file : SourceFile) : Outcome (gset string * gmap string Q) :=
  if negb (endswith_any [".py"; ".rs"; ".ts"; ".tsx"; ".js"; ".jsx"]
             (file_name file))
  then Return found
  else
    content ← file_read file;
    Return (fold_left (find_framework content) KNOWN_AI_FRAMEWORKS found).

(** [AuthenticityDetector._find_framework_implementations]: what it
    returns, paired with what it leaves in [self.framework_scores]. *)
Definition _find_framework_implementations `{TextTools}
    (files : list SourceFile) : Outcome (gset string * gmap string Q) :=
  for_each find_in_file (∅, ∅) files.

(** [AuthenticityDetector._analyze_implementation], up to its first
    [return]; what follows it in the source is never run.  [None] is the
    [KeyError] of a name that is not in the table.  The sum runs over the
    set in some order, which exact addition does not see. *)
Definition _analyze_implementation (frameworks : gset string) : option Q :=
  if decide (frameworks = ∅) then Some 0.0
  else
    weights ← mapM (fun f => weight <$> known_framework f)
                   (elements frameworks);
    let total_weight := py_sum weights in
    let base_score := total_weight / inject_Z (Z.of_nat (size frameworks)) in
    let base_score :=
      if (3 <=? Z.of_nat (size frameworks))%Z then base_score * 1.4
      else if (Z.of_nat (size frameworks) =? 2)%Z then base_score * 1.2
      else base_score in
    Some (py_min 1.0 base_score).

(** [AuthenticityDetector.analyze_authenticity].  The outer [Outcome]
    carries what reading a file raises, the inner [option] the
    [KeyError] of [_analyze_implementation]. *)
Definition analyze_authenticity `{TextTools} (files : list SourceFile)
  : Outcome (option Q) :=
  found ← _find_framework_implementations files;
  let '(detected, self_framework_scores) := found in
  if decide (detected = ∅) then Return (Some 0.0)
  else
    match _analyze_implementation detected with
    | None => Return None
    | Some implementation_score =>
        let framework_scores := (map_to_list self_framework_scores).*2 in
        match framework_scores with
        | [] => Return (Some 0.0)
        | _ =>
            let avg_framework_score :=
              py_sum framework_scores / py_len framework_scores in
            let final_score :=
              (implementation_score + avg_framework_score) / 2 in
            Return (Some (py_min 1.0 final_score))
        end
    end.

End AuthenticityDetector.

(** [s.split(sep)] for a one-character separator. *)
Fixpoint split_on (sep : ascii) (s : string) : list string :=
  match s with
  | EmptyString => [EmptyString]
  | String c s' =>
      if Ascii.eqb c sep then EmptyString :: split_on sep s'
      else match split_on sep s' with
           | [] => [String c EmptyString]
           | l :: ls => String c l :: ls
           end
  end.

(** The line feed. *)
Definition newline : ascii := ascii_of_nat 10.

(** What [radon.metrics.h_visit] returns: a number, or a report that is
    neither an [int] nor a [float]. *)
Inductive HalsteadResult :=
| HalsteadNumber (x : Q)
| HalsteadReport.

(** The fields of [radon.raw.analyze]'s result that the code reads. *)
Record RawMetrics := mkRawMetrics {
  raw_loc : Z;
  raw_lloc : Z;
  raw_comments : Z
}.

(** The [radon] library, taken as given: [cc_visit] gives the
    complexities of the blocks it finds, [h_visit] and [analyze] their
    results; each can raise. *)
Class Radon := {
  cc_visit : string -> Outcome (list Z);
  h_visit : string -> Outcome HalsteadResult;
  analyze : string -> Outcome RawMetrics
}.

(** ** [code_analyzer.py]: the security and quality analyses of
    [CodeAnalyzer] *)

Module CodeAnalyzerMethods.
Local Open Scope string_scope.

(** The double quote, which a string of this file cannot hold. *)
Definition dq : string := String (ascii_of_nat 34) EmptyString.

(** The dictionary [security_patterns] of [_analyze_security], in its
    order. *)
Definition security_patterns : list (string * string) :=
  [ ("api_key_exposure",
     "(API_KEY|OPENAI_KEY|SECRET_KEY)\s*=\s*[" ++ dq ++ "\'][^" ++ dq
       ++ "\']+[" ++ dq ++ "\']");
    ("sql_injection", "`SELECT.*\$\{");
    ("xss_vulnerability", "dangerouslySetInnerHTML");
    ("eval_usage", "\beval\s*\(");
    ("secure_headers", "helmet\(");
    ("csrf_protection", "csrf");
    ("rate_limiting", "RateLimit|rateLimiter");
    ("input_validation", "zod|yup|joi|validate") ].

(** [len(l)] as an integer. *)
Definition len {A : Type} (l : list A) : Z := Z.of_nat (length l).

(** The body of the [try] block of [_analyze_security]: the amount that
    one file adds to [total_score]. *)
Definition security_of_file `{TextTools} (file : SourceFile) : Outcome Q :=
  content ← file_read file;
  let security_issues :=
    len (List.filter (fun pattern => negb (re_search pattern content))
           security_patterns.*2) in
  let score := 1 - inject_Z security_issues / inject_Z (len security_patterns) in
  Return (py_max 0 score).

(** One round of the loop of [_analyze_security] over the locals
    [(total_score, file_count)]; an exception leaves [total_score] as it
    is. *)
Definition analyze_security_file `{TextTools} (counters : Q * Z)
    (file : SourceFile) : Q * Z :=
  let '(total_score, file_count) := counters in
  if negb (endswith_any [".py"; ".rs"; ".ts"; ".tsx"; ".js"; ".jsx"]
             (file_name file))
  then counters
  else
    let file_count := (file_count + 1)%Z in
    match security_of_file file with
    | Return score => (total_score + score, file_count)
    | Raise _ => (total_score, file_count)
    end.

(** [CodeAnalyzer._analyze_security]; [repo_path] holds the files below
    the path when the path is set. *)
Definition _analyze_security `{TextTools} (repo_path : option (list SourceFile))
  : Q :=
  match repo_path with
  | None => 0.0
  | Some files =>
      let '(total_score, file_count) :=
        fold_left analyze_security_file files (0.0, 0%Z) in
      total_score / inject_Z (Z.max file_count 1)
  end.

(** [sum(1 for pattern in patterns if re.search(pattern, content))] *)
Definition found `{TextTools} (patterns : list string) (content : string) : Z :=
  len (List.filter (fun pattern => re_search pattern content) patterns).

(** [len([l for l in lines if l.strip().startswith('//')
                            or l.strip().startswith('/*')])] *)
Definition comment_lines (lines : list string) : Z :=
  len (List.filter (fun l => String.prefix "//" (strip l)
                             || String.prefix "/*" (strip l)) lines).

(** [len([l for l in lines if l.strip().startswith('///')])] *)
Definition doc_lines (lines : list string) : Z :=
  len (List.filter (fun l => String.prefix "///" (strip l)) lines).

(** [CodeAnalyzer._analyze_rust_quality] *)
Definition _analyze_rust_quality `{TextTools} (file : SourceFile) : Outcome Q :=
  content ← file_read file;
  let lines := split_on newline content in
  let total_lines := len lines in
  let doc_ratio :=
    inject_Z (comment_lines lines + doc_lines lines)
    / inject_Z (Z.max total_lines 1) in
  let doc_score := py_min 1 (doc_ratio * 2) in
  let error_handling_patterns :=
    [ "Result<.*>"; "Option<.*>"; "match .*"; "\.unwrap_or\(";
      "\.unwrap_or_else\("; "\.map_err\(" ] in
  let error_handling_score :=
    inject_Z (found error_handling_patterns content)
    / inject_Z (len error_handling_patterns) in
  let type_patterns :=
    [ "pub struct .*"; "pub enum .*"; "pub trait .*"; "pub fn .*"; "impl .*" ] in
  let type_score :=
    inject_Z (found type_patterns content)
    / inject_Z (Z.max (len type_patterns) 1) in
  Return (doc_score * 0.3 + error_handling_score * 0.4 + type_score * 0.3).

(** [CodeAnalyzer._analyze_typescript_quality] *)
Definition _analyze_typescript_quality `{TextTools} (file : SourceFile)
  : Outcome Q :=
  content ← file_read file;
  let lines := split_on newline content in
  let total_lines := len lines in
  let doc_ratio :=
    inject_Z (comment_lines lines) / inject_Z (Z.max total_lines 1) in
  let doc_score := py_min 1 (doc_ratio * 2) in
  let type_patterns :=
    [ "interface\s+\w+"; "type\s+\w+\s*="; ":\s*(string|number|boolean|any)\b";
      "<\w+\s*extends\s*\w+>"; "as\s+const" ] in
  let type_score :=
    inject_Z (found type_patterns content) / inject_Z (len type_patterns) in
  let react_patterns :=
    [ "export\s+(default\s+)?function\s+\w+";
      "const\s+\w+\s*=\s*\([^)]*\)\s*:"; "useState<"; "useEffect";
      "Props\>" ] in
  let react_score :=
    inject_Z (found react_patterns content) / inject_Z (len react_patterns) in
  let error_patterns :=
    [ "try\s*{"; "catch\s*\("; "throw\s+new\s+Error"; "Promise\.catch";
      "Error\>" ] in
  let error_score :=
    inject_Z (found error_patterns content) / inject_Z (len error_patterns) in
  Return (doc_score * 0.2 + type_score * 0.3 + react_score * 0.3
          + error_score * 0.2).

(** The inner [try] block of [_analyze_python_quality]: the normalised
    maintainability index. *)
Definition mi_normalized `{Radon} (content : string) : Q :=
  match h_visit content with
  | Return mi_result =>
      let mi_score :=
        match mi_result with
        | HalsteadNumber x => x
        | HalsteadReport => 50.0
        end in
      py_max 0 (py_min 1 (mi_score / 100))
  | Raise _ => 0.5
  end.

(** The outer [try] block of [_analyze_python_quality], up to its
    [return]. *)
Definition python_metrics `{Radon} (content : string) : Outcome Q :=
  blocks ← cc_visit content;
  let complexity_score :=
    match blocks with
    | [] => 1.0
    | _ =>
        let complexity_scores := inject_Z <$> blocks in
        let avg_complexity :=
          py_sum complexity_scores / py_len complexity_scores in
        py_max 0 (1 - avg_complexity / 10)
    end in
  let mi_normalized := mi_normalized content in
  raw_metrics ← analyze content;
  let lloc := raw_lloc raw_metrics in
  let comments := raw_comments raw_metrics in
  let doc_ratio :=
    if (0 <? lloc)%Z then inject_Z comments / inject_Z (Z.max lloc 1) else 0 in
  let doc_score := py_min 1 (doc_ratio * 2) in
  Return (complexity_score * 0.4 + mi_normalized * 0.4 + doc_score * 0.2).

(** [CodeAnalyzer._analyze_python_quality]: reading the file is outside
    the [try] block. *)
Definition _analyze_python_quality `{Radon} (file : SourceFile) : Outcome Q :=
  content ← file_read file;
  match python_metrics content with
  | Return score => Return score
  | Raise _ => Return 0.1
  end.

(** One round of the loop of [_analyze_code_quality] over the locals
    [(total_score, file_count)]. *)
Definition analyze_quality_file `{TextTools} `{Radon} (counters : Q * Z)
    (file : SourceFile) : Q * Z :=
  let '(total_score, file_count) := counters in
  if negb (endswith_any [".py"; ".rs"; ".ts"; ".tsx"; ".js"; ".jsx"]
             (file_name file))
  then counters
  else
    let file_count := (file_count + 1)%Z in
    let analysed :=
      if endswith ".py" (file_name file) then _analyze_python_quality file
      else if endswith_any [".ts"; ".tsx"; ".js"; ".jsx"] (file_name file)
           then _analyze_typescript_quality file
           else _analyze_rust_quality file in
    match analysed with
    | Return score => (total_score + score, file_count)
    | Raise _ => (total_score + 0.1, file_count)
    end.

(** [CodeAnalyzer._analyze_code_quality] *)
Definition _analyze_code_quality `{TextTools} `{Radon}
    (repo_path : option (list SourceFile)) : Q :=
  match repo_path with
  | None => 0.0
  | Some files =>
      let '(total_score, file_count) :=
        fold_left analyze_quality_file files (0.0, 0%Z) in
      if (0 <? file_count)%Z
      then py_max 0.1 (total_score / inject_Z (Z.max file_count 1))
      else 0.0
  end.

(** [CodeAnalyzer._collect_issues] *)
Definition _collect_issues : list CodeAnalyzer.Issue := [].

(** [CodeAnalyzer._generate_recommendations] *)
Definition _generate_recommendations : list string := [].

(** [CodeAnalyzer.analyze] on an analyzer whose [gpt_analyzer] and
    [market_analyzer] are [None], which is what [__init__] leaves when
    [GPTAnalyzer()] raises its [ValueError], and whose repository is
    cloned: the two [if] blocks for the services are skipped and the
    market score stays at its default.  As in [analyze_authenticity],
    [None] is the [KeyError] of the detector. *)
Definition analyze_without_enhancement `{TextTools} `{Radon}
    (files : list SourceFile) : Outcome (option CodeAnalyzer.AnalysisResult) :=
  ai_score ← AuthenticityDetector.analyze_authenticity files;
  match ai_score with
  | None => Return None
  | Some ai_score =>
      exec_score ← ExecutionVerifier.verify_execution files;
      let market_score := 0.5 in
      Return (Some (CodeAnalyzer.mkAnalysisResult
                      (_analyze_code_quality (Some files))
                      ai_score
                      exec_score
                      (_analyze_security (Some files))
                      market_score
                      _collect_issues
                      _generate_recommendations))
  end.

End CodeAnalyzerMethods.

(** * The notions used in the statements *)

(** ** Scores *)

Section ScoreNotions.
Import CodeAnalyzer ReportGenerator.

(** The mean of the collected base scores, [sum(base_scores) / len(base_scores)]. *)
Definition normalized_base (r : AnalysisResult) : Q :=
  py_sum (base_scores r) / py_len (base_scores r).

Definition all_base_scores_zero (r : AnalysisResult) : Prop :=
  ai_framework_score r == 0 /\ code_quality_score r == 0 /\
  execution_score r == 0 /\ security_score r == 0.

Definition some_base_score_positive (r : AnalysisResult) : Prop :=
  0 < ai_framework_score r \/ 0 < code_quality_score r \/
  0 < execution_score r \/ 0 < security_score r.

Definition base_scores_in_range (r : AnalysisResult) : Prop :=
  0 <= ai_framework_score r <= 1 /\ 0 <= code_quality_score r <= 1 /\
  0 <= execution_score r <= 1 /\ 0 <= security_score r <= 1.

(** The mean of the positive base scores, in the words of the
    specification and without the list that the code builds: a sub-score
    counts when it is greater than 0, and the mean is the sum of the
    sub-scores that count over their number. *)
Definition counted (score : Q) : Q := if Qlt_le_dec 0 score then score else 0.

Definition counts (score : Q) : Z := if Qlt_le_dec 0 score then 1 else 0.

Definition mean_of_positive_base_scores (r : AnalysisResult) : Q :=
  (counted (ai_framework_score r) + counted (code_quality_score r)
   + counted (execution_score r) + counted (security_score r))
  / inject_Z (counts (ai_framework_score r) + counts (code_quality_score r)
              + counts (execution_score r) + counts (security_score r)).

End ScoreNotions.

(** ** Runs of the analyzer *)

Section RunNotions.
Import PyHash GptAnalyzer.
Context `{JsonRuntime}.
Local Open Scope Z_scope.

(** The counter is a count, and it is within the budget. *)
Definition within_budget (self : GPTAnalyzer) : Prop :=
  0 <= calls_made self <= max_calls self.

(** A call that happens before the window's reset time. *)
Definition in_window (env : Env) (self : GPTAnalyzer) : Prop :=
  (clock_limit env < call_reset_time self)%Q.

(** How many admissions a trace records. *)
Fixpoint admissions (tr : list Event) : Z :=
  match tr with
  | [] => 0
  | RateLimitCheck true :: tr => 1 + admissions tr
  | _ :: tr => admissions tr
  end.

(** The analyzer after a sequence of calls, and the steps of all of
    them. *)
Definition final_self (runs : list Run) (self : GPTAnalyzer) : GPTAnalyzer :=
  fold_left (fun _ run => self_after run) runs self.

Definition whole_trace (runs : list Run) : list Event :=
  concat (List.map trace runs).

(** The external call did not yield a record: the request raised, or
    the inner [try] block did; [msg] is the text handed to
    [_get_fallback_analysis]. *)
Definition call_failure (env : Env) (msg : string) : Prop :=
  (exists e, api env = ApiRaises e /\ msg = exn_msg e)
  \/ (exists content e,
        api env = ApiResponds content
        /\ parse_analysis content = Raise e
        /\ msg = if is_JSONDecodeError e
                 then ("JSON parse error: " ++ exn_msg e)%string
                 else exn_msg e).

(** The five ways a call of [analyze_code_segment] can go. *)
Variant analyze_path (k : HashSecret) (env : Env) (code context : string)
    (self : GPTAnalyzer) (files : gmap string CacheFile) : Run -> Prop :=
| path_cache_hit v tr :
    cache_lookup env self files (analyze_key k code context) = (Hit v, tr) ->
    analyze_path k env code context self files (mkRun (Return v) self files tr)
| path_read_error e tr :
    cache_lookup env self files (analyze_key k code context) = (ReadError e, tr) ->
    analyze_path k env code context self files (mkRun (Raise e) self files tr)
| path_rate_limited tr :
    let self' := reset_window (clock_limit env) self in
    cache_lookup env self files (analyze_key k code context) = (Miss, tr) ->
    max_calls self' < calls_made self' + 1 ->
    analyze_path k env code context self files
      (mkRun (Return (_get_fallback_analysis "Rate limit reached"))
             self' files (tr ++ [RateLimitCheck false]))
| path_call_failed tr msg :
    let self' := reset_window (clock_limit env) self in
    cache_lookup env self files (analyze_key k code context) = (Miss, tr) ->
    calls_made self' + 1 <= max_calls self' ->
    call_failure env msg ->
    analyze_path k env code context self files
      (mkRun (Return (_get_fallback_analysis msg))
             (set_calls_made (calls_made self' + 1) self') files
             (tr ++ [RateLimitCheck true; ExternalCall]))
| path_parsed tr content result :
    let self' := reset_window (clock_limit env) self in
    let self'' := set_calls_made (calls_made self' + 1) self' in
    let stored :=
      cache_store env self'' files (analyze_key k code context) result in
    cache_lookup env self files (analyze_key k code context) = (Miss, tr) ->
    calls_made self' + 1 <= max_calls self' ->
    api env = ApiResponds content ->
    parse_analysis content = Return result ->
    analyze_path k env code context self files
      (mkRun (Return result) self'' stored.1
             ((tr ++ [RateLimitCheck true; ExternalCall]) ++ stored.2)).

(** A call that was turned away by the rate limiter. *)
Definition rate_limited (run : Run) : Prop :=
  RateLimitCheck false ∈ trace run.

(** A call that reached the service and got no record out of it. *)
Definition call_failed (env : Env) (run : Run) : Prop :=
  ExternalCall ∈ trace run /\ exists msg, call_failure env msg.

(** The numeric fields of a record, with their names. *)
Definition numeric_fields (v : JSON) : list (string * Q) :=
  match v with
  | JObj fields =>
      omap (fun field : string * JSON =>
              match field.2 with
              | JFloat x => Some (field.1, x)
              | JInt n => Some (field.1, inject_Z n)
              | _ => None
              end) fields
  | _ => []
  end.

(** The records that the operations build themselves when they give up:
    the return sites at lines 144, 201, 204 and 218; 245 and 309; 372;
    393 and 457. *)
Variant fallback_record : Operation -> JSON -> Prop :=
| fallback_analyze code context msg :
    fallback_record (AnalyzeCodeSegment code context)
      (_get_fallback_analysis msg)
| fallback_verify_limited code :
    fallback_record (VerifyAiImplementation code) verify_rate_limited
| fallback_verify_failed code msg :
    fallback_record (VerifyAiImplementation code) (verify_failed msg)
| fallback_market_failed project_name repo_url msg :
    fallback_record (AnalyzeMarketContext project_name repo_url)
      (market_failed msg)
| fallback_originality_limited code :
    fallback_record (CheckCodeOriginality code) originality_rate_limited
| fallback_originality_failed code :
    fallback_record (CheckCodeOriginality code) originality_failed.

(** What the service produced for an operation, once parsed. *)
Definition service_result (env : Env) (op : Operation) (v : JSON) : Prop :=
  match op with
  | AnalyzeCodeSegment _ _ =>
      exists content,
        api env = ApiResponds content /\ parse_analysis content = Return v
  | _ => request_json env = Return v
  end.

(** The service was reached and gave no record for the operation: for
    [analyze_code_segment] the request or the inner [try] block raised,
    for its siblings the request or [json.loads] did. *)
Definition service_failed (env : Env) (op : Operation) : Prop :=
  match op with
  | AnalyzeCodeSegment _ _ => exists msg, call_failure env msg
  | _ => exists e, request_json env = Raise e
  end.

(** A run that ended in a fallback: the call was turned away by the rate
    limiter, or it reached the service and got no record out of it. *)
Definition gave_up (env : Env) (op : Operation) (run : Run) : Prop :=
  rate_limited run \/ (ExternalCall ∈ trace run /\ service_failed env op).

(** The claim as the specification words it: every numeric field of
    every record that an operation returns when it gives up is 0.5 ... *)
Definition fallbacks_all_neutral : Prop :=
  forall k env op self files v,
    gave_up env op (call k env op self files) ->
    returned (call k env op self files) = Return v ->
    Forall (fun field => (field.2 == 0.5)%Q) (numeric_fields v).

(** ... and a call of [analyze_code_segment] that the rate limiter turns
    away returns a record whose findings are the one-element list
    ["Rate limit reached"]. *)
Definition rate_limited_findings_plain : Prop :=
  forall k env code context self files,
    rate_limited (analyze_code_segment k env code context self files) ->
    exists v,
      returned (analyze_code_segment k env code context self files) = Return v
      /\ dict_get v "findings" JNull
         = Return (JArr [JStr "Rate limit reached"]).

(** The numeric fields that the fallback records of an operation carry. *)
Definition fallback_scores (op : Operation) : list (string * Q) :=
  match op with
  | AnalyzeCodeSegment _ _ =>
      [ ("ai_score", 0.5); ("quality_score", 0.5); ("originality_score", 0.5);
        ("execution_score", 0.5); ("market_value", 0.5) ]
  | VerifyAiImplementation _ => [ ("confidence", 0.0) ]
  | AnalyzeMarketContext _ _ =>
      [ ("popularity_score", 0.5); ("adoption_score", 0.5);
        ("impact_score", 0.5) ]
  | CheckCodeOriginality _ => [ ("originality_score", 0.5) ]
  end%string%Q.

(** The cache files that a trace names. *)
Fixpoint cache_files (tr : list Event) : list string :=
  match tr with
  | [] => []
  | CacheLookup cache_file _ :: tr | CacheWrite cache_file :: tr =>
      cache_file :: cache_files tr
  | _ :: tr => cache_files tr
  end.

(** The claim as the specification words it: whichever process computes
    it, the key of an operation on given inputs is the same. *)
Definition key_agrees_across_processes : Prop :=
  forall (k1 k2 : HashSecret) (op : Operation),
    cache_key k1 op = cache_key k2 op.

End RunNotions.

(** A stand-in for the [json] module, enough to run the operations on
    examples: it parses the empty object and rejects every other text. *)
Definition demo_runtime : JsonRuntime :=
  {| json_loads s :=
       if String.eqb s "{}" then Return (JObj [])
       else Raise (mkExn JSONDecodeError
                     "Expecting value: line 1 column 1 (char 0)");
     float_of_str s :=
       Raise (mkExn ValueError "could not convert string to float") |}.

(** The operations that go through the rate limiter: all but
    [analyze_market_context]. *)
Definition rate_limited_operation (op : GptAnalyzer.Operation) : bool :=
  match op with
  | GptAnalyzer.AnalyzeMarketContext _ _ => false
  | _ => true
  end.

(** The shape of the record that [analyze_code_segment] builds: five
    float scores, then the findings and the recommendations. *)
Definition analysis_record (v : JSON) : Prop :=
  exists ai_score quality_score originality_score execution_score
         market_value findings recommendations,
    v = JObj [ ("ai_score"%string, JFloat ai_score);
               ("quality_score"%string, JFloat quality_score);
               ("originality_score"%string, JFloat originality_score);
               ("execution_score"%string, JFloat execution_score);
               ("market_value"%string, JFloat market_value);
               ("findings"%string, findings);
               ("recommendations"%string, recommendations) ].

(** The record that [analyze_market_value] makes of a failed market
    research: the neutral score, not popular, and the error text of
    [analyze_market_context] as context. *)
Definition degraded_market_record `{JsonRuntime} (msg : string) : JSON :=
  JObj [ ("market_score"%string,
          JFloat (MarketAnalyzer._calculate_market_score
                    (GptAnalyzer.market_failed msg)));
         ("is_popular"%string, JBool false);
         ("popularity_metrics"%string, JObj []);
         ("community_metrics"%string, JObj []);
         ("market_context"%string, JStr ("Analysis failed: " ++ msg));
         ("recommendations"%string,
          JArr [JStr "Enable GPT analysis for market research"]) ].

(** [needle in s] *)
Fixpoint contains (needle s : string) : bool :=
  if String.prefix needle s then true
  else match s with
       | EmptyString => false
       | String _ s' => contains needle s'
       end.

(** A stand-in for [re] and [ast], enough to run the analysers on
    examples: a pattern is searched for as a plain substring, which is
    what [re.search] does with a pattern free of special characters, and
    a text parses unless it holds an unfinished [def]. *)
Definition demo_tools : TextTools :=
  {| re_search pattern content := contains pattern content;
     re_search_mi pattern content := contains pattern content;
     ast_parse content :=
       if contains "def :" content then ParseSyntaxError else ParseOk |}.

(** A repository for the examples: a Rust source with a model, a Python
    file that does not parse and a README. *)
Definition rust_project : list SourceFile :=
  [ mkSourceFile "main.rs" (Return "let agent = Agent::new(model);"%string);
    mkSourceFile "setup.py" (Return "def :"%string);
    mkSourceFile "README.md" (Return "Agent::new"%string) ].

(** A second repository for the examples: a TypeScript file that calls
    the OpenAI client, and a Rust source that names an agent. *)
Definition chat_project : list SourceFile :=
  [ mkSourceFile "bot.ts"
      (Return "import OpenAI from openai; const model = gpt-4;"%string);
    mkSourceFile "main.rs" (Return "let agent = Agent::new(model);"%string) ].

(** The files that [_check_implementation] reads. *)
Definition implementation_file (file : SourceFile) : bool :=
  endswith_any [".py"; ".rs"]%string (file_name file).

(** A text passes at least one of the four checks of
    [_check_implementation]. *)
Definition shows_ai_code `{TextTools} (content : string) : bool :=
  ExecutionVerifier._check_model_init content
  || ExecutionVerifier._check_inference_methods content
  || ExecutionVerifier._check_ai_error_handling content
  || ExecutionVerifier._check_model_config content.

(** Every file that the verifier opens can be read, and [ast.parse]
    raises nothing but [SyntaxError] on the Python files. *)
Definition verifiable `{TextTools} (files : list SourceFile) : Prop :=
  forall file, file ∈ files -> implementation_file file = true ->
    exists content, file_read file = Return content
      /\ (endswith ".py" (file_name file) = true ->
          forall e, ast_parse content <> ParseRaises e).

(** The files that the authenticity detector, the security analysis and
    the quality analysis read. *)
Definition source_file (file : SourceFile) : bool :=
  endswith_any [".py"; ".rs"; ".ts"; ".tsx"; ".js"; ".jsx"]%string
    (file_name file).

(** A name of [KNOWN_AI_FRAMEWORKS]. *)
Definition known_name (f : string) : Prop :=
  is_Some (AuthenticityDetector.known_framework f).

(** What the loops of [_find_framework_implementations] keep true of
    their two locals. *)
Definition find_invariant (found : gset string * gmap string Q) : Prop :=
  (forall f, f ∈ found.1 -> known_name f /\ is_Some (found.2 !! f))
  /\ (forall f v, found.2 !! f = Some v -> known_name f /\ 0.05 <= v <= 1).

(** A stand-in for [radon], enough to run the quality analysis on
    examples: every text is one block of complexity 1 with a Halstead
    report, one logical line and no comment. *)
Definition demo_radon : Radon :=
  {| cc_visit content := Return [1%Z];
     h_visit content := Return HalsteadReport;
     analyze content := Return (mkRawMetrics 1 1 0) |}.

(** The repository has a path and a source file below it. *)
Definition has_source_file (repo_path : option (list SourceFile)) : bool :=
  match repo_path with
  | Some files => existsb source_file files
  | None => false
  end.

(** The file can be read and its text matches every one of the eight
    security patterns. *)
Definition matches_all_security_patterns `{TextTools} (file : SourceFile)
  : Prop :=
  exists content, file_read file = Return content
    /\ forall pattern, pattern ∈ CodeAnalyzerMethods.security_patterns.*2 ->
         re_search pattern content = true.

(** [radon] reports no negative complexity. *)
Definition complexities_nonnegative `{Radon} : Prop :=
  forall content blocks, cc_visit content = Return blocks ->
    Forall (fun complexity => (0 <= complexity)%Z) blocks.

(** The character does not occur in the text. *)
Definition lacks (c : ascii) (s : string) : Prop :=
  forall n, String.get n s <> Some c.

(** * Properties *)

(** ** Comparisons and [max] *)

Section Comparisons.

Lemma Qgtb_true (x y : Q) : Qgtb x y = true <-> y < x.
Proof.
  unfold Qgtb. rewrite negb_true_iff, <- not_true_iff_false, Qle_bool_iff.
  split; [apply Qnot_le_lt | apply Qlt_not_le].
Qed.

Lemma Qgtb_false (x y : Q) : Qgtb x y = false <-> x <= y.
Proof. unfold Qgtb. rewrite negb_false_iff. apply Qle_bool_iff. Qed.

Lemma Qgeb_true (x y : Q) : Qgeb x y = true <-> y <= x.
Proof. apply Qle_bool_iff. Qed.

Lemma Qgeb_false (x y : Q) : Qgeb x y = false <-> x < y.
Proof.
  unfold Qgeb. rewrite <- not_true_iff_false, Qle_bool_iff.
  split; [apply Qnot_le_lt | apply Qlt_not_le].
Qed.

Lemma Qltb_true (x y : Q) : Qltb x y = true <-> x < y.
Proof. apply Qgtb_true. Qed.

Lemma Qltb_false (x y : Q) : Qltb x y = false <-> y <= x.
Proof. apply Qgtb_false. Qed.

Lemma py_max_ge_l (a b : Q) : a <= py_max a b.
Proof.
  unfold py_max. destruct (Qgtb b a) eqn:E.
  - apply Qgtb_true in E. lra.
  - lra.
Qed.

Lemma py_max_ge_r (a b : Q) : b <= py_max a b.
Proof.
  unfold py_max. destruct (Qgtb b a) eqn:E.
  - lra.
  - apply Qgtb_false in E. lra.
Qed.

(** Python's [max] is the mathematical maximum. *)
Lemma py_max_Qmax (a b : Q) : py_max a b == Qmax a b.
Proof.
  unfold py_max. destruct (Qgtb b a) eqn:E.
  - apply Qgtb_true in E. symmetry. apply Q.max_r. lra.
  - apply Qgtb_false in E. symmetry. apply Q.max_l. lra.
Qed.

(** The maximum changes its first argument exactly when the second is
    strictly greater. *)
Lemma py_max_changed (a b : Q) : ~ py_max a b == a <-> a < b.
Proof.
  unfold py_max. destruct (Qgtb b a) eqn:E.
  - apply Qgtb_true in E. split; [intros _; exact E | lra].
  - apply Qgtb_false in E. split; [intros N; destruct N; reflexivity | lra].
Qed.

End Comparisons.

(** ** The weighted aggregation: [calculate_overall_score] and [generate_summary] *)

Section Aggregation.
Import CodeAnalyzer ReportGenerator.

Lemma base_scores_nonempty (r : AnalysisResult) :
  some_base_score_positive r <-> base_scores r <> [].
Proof.
  unfold some_base_score_positive, base_scores. cbn [List.filter].
  destruct (Qgtb (ai_framework_score r) 0) eqn:E1;
    destruct (Qgtb (code_quality_score r) 0) eqn:E2;
    destruct (Qgtb (execution_score r) 0) eqn:E3;
    destruct (Qgtb (security_score r) 0) eqn:E4;
    rewrite ?Qgtb_true, ?Qgtb_false in *;
    (split; [ intros P; try discriminate | intros N; try tauto ]).
  destruct P as [P | [P | [P | P]]]; lra.
Qed.

Lemma base_scores_empty (r : AnalysisResult) :
  all_base_scores_zero r -> base_scores r = [].
Proof.
  unfold all_base_scores_zero. intros (H1 & H2 & H3 & H4).
  unfold base_scores. cbn [List.filter].
  assert (G : forall x, x == 0 -> Qgtb x 0 = false)
    by (intros x Hx; apply Qgtb_false; lra).
  rewrite !G by assumption. reflexivity.
Qed.

(** The overall score, by cases on the two tests of the source. *)
Lemma calculate_overall_score_cases (r : AnalysisResult) :
  calculate_overall_score r =
    match base_scores r with
    | [] => 0.0 + market_value_score r * 0.3
    | _ :: _ =>
        if Qgeb (market_value_score r) 0.8
        then py_max (normalized_base r * 0.7)
                    (0.5 - market_value_score r * 0.3)
             + market_value_score r * 0.3
        else normalized_base r * 0.7 + market_value_score r * 0.3
    end.
Proof.
  unfold calculate_overall_score, normalized_base.
  destruct (base_scores r); [reflexivity |].
  destruct (Qgeb (market_value_score r) 0.8); reflexivity.
Qed.

(** The flag of the report, as a test on the inputs. *)
Lemma score_override_cases (r : AnalysisResult) :
  score_override r =
    match base_scores r with
    | [] => false
    | _ :: _ => Qgeb (market_value_score r) 0.8
    end.
Proof.
  unfold score_override, summary_locals. fold (base_scores r).
  destruct (base_scores r); [reflexivity |].
  destruct (Qgeb (market_value_score r) 0.8); reflexivity.
Qed.

Lemma score_override_true (r : AnalysisResult) :
  score_override r = true <->
  some_base_score_positive r /\ 0.8 <= market_value_score r.
Proof.
  rewrite score_override_cases, base_scores_nonempty, <- Qgeb_true.
  destruct (base_scores r); [ | split; [ intros ->; split; [discriminate | reflexivity] | tauto ] ].
  split; [discriminate | intros [N _]; destruct N; reflexivity].
Qed.

(** The report's recommendations: the note goes first when the flag is
    set, the rest follows in its order. *)
Lemma generate_summary_recommendations (r : AnalysisResult) :
  report_recommendations (generate_summary r) =
    if score_override r then override_note :: recommendations r
    else recommendations r.
Proof.
  unfold generate_summary, score_override.
  destruct (summary_locals r) as [[b m] o]. reflexivity.
Qed.

Lemma generate_summary_overall (r : AnalysisResult) :
  overall_score (generate_summary r) =
    fst (fst (summary_locals r)) + snd (fst (summary_locals r)).
Proof.
  unfold generate_summary.
  destruct (summary_locals r) as [[b m] o]. reflexivity.
Qed.

(** The two copies of the formula compute the same sum: the base score
    and the market contribution of [generate_summary] add up to what
    [calculate_overall_score] returns. *)
Lemma summary_locals_score (r : AnalysisResult) :
  (summary_locals r).1.1 + (summary_locals r).1.2 = calculate_overall_score r.
Proof.
  unfold summary_locals, calculate_overall_score. fold (base_scores r).
  destruct (base_scores r) as [| s l]; [reflexivity |].
  destruct (Qgeb (market_value_score r) 0.8); reflexivity.
Qed.

Lemma generate_summary_score (r : AnalysisResult) :
  overall_score (generate_summary r) == calculate_overall_score r.
Proof. rewrite generate_summary_overall, summary_locals_score. reflexivity. Qed.

(** C4.  For every [AnalysisResult], the [overall_score] field of the
    report built by [generate_summary] is the value that
    [calculate_overall_score] returns on the same result. *)
Theorem report_score_matches_analysis (r : AnalysisResult) :
  overall_score (generate_summary r) = calculate_overall_score r.
Proof.
  rewrite generate_summary_overall.
  destruct (summary_locals r) as [[base_score market_contribution] flag] eqn:E.
  pose proof (summary_locals_score r) as S. rewrite E in S. exact S.
Qed.

(** The mean of the collected scores stays within the range of the
    scores. *)
Lemma normalized_base_range (r : AnalysisResult) :
  base_scores_in_range r -> some_base_score_positive r ->
  0 < normalized_base r <= 1.
Proof.
  unfold base_scores_in_range. intros (Ha & Hq & He & Hs) Hpos.
  apply base_scores_nonempty in Hpos. revert Hpos.
  unfold normalized_base, base_scores. cbn [List.filter].
  destruct (Qgtb (ai_framework_score r) 0) eqn:E1;
    destruct (Qgtb (code_quality_score r) 0) eqn:E2;
    destruct (Qgtb (execution_score r) 0) eqn:E3;
    destruct (Qgtb (security_score r) 0) eqn:E4;
    rewrite ?Qgtb_true, ?Qgtb_false in *;
    intros Hne; try (destruct Hne; reflexivity);
    cbv [py_sum py_len inject_Z fold_left length];
    match goal with
    | |- context [Z.of_nat ?n] =>
        let v := eval vm_compute in (Z.of_nat n) in
        change (Z.of_nat n) with v
    end;
    (split; [ apply Qlt_shift_div_l | apply Qle_shift_div_r ]; lra).
Qed.

(** With a collected base score and a market value of at least 0.8 the
    score is the floored sum, whatever the ranges. *)
Lemma floored_score (r : AnalysisResult) :
  some_base_score_positive r -> 0.8 <= market_value_score r ->
  calculate_overall_score r =
    py_max (normalized_base r * 0.7) (0.5 - market_value_score r * 0.3)
    + market_value_score r * 0.3.
Proof.
  intros Hpos Hm. rewrite calculate_overall_score_cases.
  apply base_scores_nonempty in Hpos.
  destruct (base_scores r); [destruct Hpos; reflexivity |].
  apply Qgeb_true in Hm. rewrite Hm. reflexivity.
Qed.

(** The mean that the code takes over its list of collected scores is
    the mean of the positive base scores. *)
Lemma normalized_base_mean (r : AnalysisResult) :
  normalized_base r == mean_of_positive_base_scores r.
Proof.
  unfold normalized_base, mean_of_positive_base_scores, base_scores,
    counted, counts.
  cbn [List.filter].
  destruct (Qgtb (ai_framework_score r) 0) eqn:E1;
    destruct (Qgtb (code_quality_score r) 0) eqn:E2;
    destruct (Qgtb (execution_score r) 0) eqn:E3;
    destruct (Qgtb (security_score r) 0) eqn:E4;
    rewrite ?Qgtb_true, ?Qgtb_false in *;
    destruct (Qlt_le_dec 0 (ai_framework_score r));
    destruct (Qlt_le_dec 0 (code_quality_score r));
    destruct (Qlt_le_dec 0 (execution_score r));
    destruct (Qlt_le_dec 0 (security_score r));
    try lra;
    cbv [py_sum py_len fold_left length];
    match goal with
    | |- context [Z.of_nat ?n] =>
        let v := eval vm_compute in (Z.of_nat n) in
        change (Z.of_nat n) with v
    end;
    repeat match goal with
      | |- context [inject_Z ?z] =>
          let v := eval vm_compute in (inject_Z z) in
          change (inject_Z z) with v
      end;
    unfold Qdiv;
    repeat match goal with
      | |- context [/ ?q] =>
          let v := eval vm_compute in (/ q) in
          change (/ q) with v
      end;
    ring.
Qed.

(** C1.  Floor guarantee: when the four base sub-scores lie in [0,1],
    at least one of them is positive and the market value lies in
    [0.8,1], the base contribution is the maximum of
    mean(positive base scores) * 0.7 and 0.5 - market * 0.3, the market
    contribution market * 0.3 is added to it, and the overall score,
    in the analysis result and in the report, is at least 0.5 (and at
    most 1).  The mean is the one of the specification,
    [mean_of_positive_base_scores], not the code's own list. *)
Theorem floor_guarantee (r : AnalysisResult) :
  base_scores_in_range r ->
  some_base_score_positive r ->
  0.8 <= market_value_score r <= 1 ->
  calculate_overall_score r ==
    Qmax (mean_of_positive_base_scores r * 0.7)
         (0.5 - market_value_score r * 0.3)
    + market_value_score r * 0.3
  /\ overall_score (generate_summary r) ==
     Qmax (mean_of_positive_base_scores r * 0.7)
          (0.5 - market_value_score r * 0.3)
     + market_value_score r * 0.3
  /\ 0.5 <= calculate_overall_score r <= 1
  /\ 0.5 <= overall_score (generate_summary r) <= 1.
Proof.
  intros Hrange Hpos [Hm Hm1].
  rewrite generate_summary_score, (floored_score r Hpos Hm).
  pose proof (normalized_base_range r Hrange Hpos) as [_ Hn].
  pose proof (normalized_base_mean r) as Hmean.
  set (a := normalized_base r * 0.7) in *.
  set (b := 0.5 - market_value_score r * 0.3) in *.
  pose proof (py_max_ge_r a b) as Hb.
  assert (Hu : py_max a b <= 0.7).
  { unfold py_max. destruct (Qgtb b a); subst a b; lra. }
  assert (Hformula : py_max a b + market_value_score r * 0.3 ==
                     Qmax (mean_of_positive_base_scores r * 0.7) b
                     + market_value_score r * 0.3).
  { rewrite py_max_Qmax, <- Hmean. reflexivity. }
  split; [exact Hformula |]. split; [exact Hformula |].
  subst b. split; split; lra.
Qed.

Lemma floor_guarantee_witness :
  let r := mkAnalysisResult 0.3 0.4 0.3 0.3 0.9 [] [] in
  0.5 <= calculate_overall_score r <= 1.
Proof.
  intros r. refine (proj1 (proj2 (proj2 (floor_guarantee r _ _ _)))).
  - unfold base_scores_in_range; cbn; lra.
  - left; cbn; lra.
  - cbn; lra.
Defined.

(** C2.  Zero-base case: when the four base sub-scores are all 0 and
    the market value m lies in [0,1], the overall score is 0.3 * m in
    the analysis result and in the report, the override flag is false
    and no note is added; the floor is not applied, so the score stays
    below 0.5 also when m >= 0.8. *)
Theorem zero_base_case (r : AnalysisResult) :
  all_base_scores_zero r ->
  0 <= market_value_score r <= 1 ->
  calculate_overall_score r == 0.3 * market_value_score r
  /\ overall_score (generate_summary r) == 0.3 * market_value_score r
  /\ score_override r = false
  /\ report_recommendations (generate_summary r) = recommendations r
  /\ calculate_overall_score r < 0.5.
Proof.
  intros Hz [Hm0 Hm1]. apply base_scores_empty in Hz.
  rewrite generate_summary_score, generate_summary_recommendations,
    score_override_cases, calculate_overall_score_cases, Hz.
  repeat split; try reflexivity; lra.
Qed.

Lemma zero_base_case_witness :
  let r := mkAnalysisResult 0 0 0 0 1 [] ["Add tests"%string] in
  calculate_overall_score r == 0.3 /\ score_override r = false.
Proof.
  intros r.
  assert (Hz : all_base_scores_zero r) by (repeat split; reflexivity).
  assert (Hm : 0 <= market_value_score r <= 1) by (cbn; lra).
  destruct (zero_base_case r Hz Hm) as (H1 & _ & H3 & _).
  split; [ rewrite H1; reflexivity | exact H3 ].
Defined.

(** C3.  The override flag is meant to say that the floor changed the
    base contribution, and the note goes first in the report exactly
    when the flag is set.  The second half holds
    ([generate_summary_recommendations]); the first does not: with all
    five scores at 1 the maximum leaves the base contribution at 0.7
    (0.7 is not below 0.5 - 0.3), the overall score is 1, and yet the
    flag is set and the report opens with the note that the score was
    adjusted to the minimum. *)
Theorem override_flag_set_without_adjustment :
  let r := mkAnalysisResult 1 1 1 1 1 [] ["Add tests"%string] in
  score_override r = true
  /\ py_max (normalized_base r * 0.7) (0.5 - market_value_score r * 0.3)
     = normalized_base r * 0.7
  /\ ~ normalized_base r * 0.7 < 0.5 - market_value_score r * 0.3
  /\ overall_score (generate_summary r) == 1
  /\ report_recommendations (generate_summary r)
     = [override_note; "Add tests"%string].
Proof.
  intros r. repeat split; try reflexivity.
  intros N. vm_compute in N. discriminate N.
Qed.

End Aggregation.

(** ** The rate limiter of [GPTAnalyzer] *)

Section RateLimiter.
Import PyHash GptAnalyzer.
Context `{JsonRuntime}.
Local Open Scope Z_scope.

Lemma admissions_app (tr1 tr2 : list Event) :
  admissions (tr1 ++ tr2) = admissions tr1 + admissions tr2.
Proof.
  induction tr1 as [| [f b | [|] | | f] tr1 IH]; cbn [app admissions]; lia.
Qed.

Lemma admissions_cache_lookup env self files key :
  admissions (snd (cache_lookup env self files key)) = 0.
Proof. unfold cache_lookup. repeat case_match; reflexivity. Qed.

Lemma admissions_cache_store env self files key result :
  admissions (snd (cache_store env self files key result)) = 0.
Proof. unfold cache_store. repeat case_match; reflexivity. Qed.

Lemma reset_window_in_window (env : Env) (self : GPTAnalyzer) :
  in_window env self -> reset_window (clock_limit env) self = self.
Proof.
  unfold in_window, reset_window. intros Hw.
  apply Qgeb_false in Hw. rewrite Hw. reflexivity.
Qed.

Lemma reset_window_elapsed (env : Env) (self : GPTAnalyzer) :
  (call_reset_time self <= clock_limit env)%Q ->
  reset_window (clock_limit env) self =
    set_call_reset_time (clock_limit env + 3600)%Q (set_calls_made 0 self).
Proof.
  unfold reset_window. intros Hw.
  apply Qgeb_true in Hw. rewrite Hw. reflexivity.
Qed.

Lemma reset_window_budget (t : Q) (self : GPTAnalyzer) :
  within_budget self ->
  within_budget (reset_window t self)
  /\ max_calls (reset_window t self) = max_calls self.
Proof.
  unfold within_budget, reset_window.
  destruct (Qgeb t (call_reset_time self)); cbn; lia.
Qed.

(** A freshly constructed analyzer has made no call, and its window
    closes one hour after construction; with a budget that is not
    negative it is within the budget. *)
Lemma init_within_budget (environ : Environ) (now : Q) (self : GPTAnalyzer) :
  init environ now = Return self ->
  calls_made self = 0
  /\ call_reset_time self = (now + 3600)%Q
  /\ max_calls self = default 5 (MAX_GPT_CALLS environ)
  /\ (0 <= default 5 (MAX_GPT_CALLS environ) -> within_budget self).
Proof.
  unfold init, within_budget.
  destruct (negb (truthy (OPENAI_API_KEY environ))); [discriminate |].
  intros [= <-]. cbn [calls_made call_reset_time max_calls].
  repeat split; try reflexivity; lia.
Qed.

(** The two spellings of the admission test agree:
    [calls_made + 1 > max_calls] in [analyze_code_segment],
    [calls_made >= max_calls] in its siblings. *)
Lemma admission_tests_agree (self : GPTAnalyzer) :
  (calls_made self + 1 >? max_calls self) = (calls_made self >=? max_calls self).
Proof.
  destruct (Z.gtb_spec (calls_made self + 1) (max_calls self));
    destruct (Z.geb_spec (calls_made self) (max_calls self)); lia || reflexivity.
Qed.

(** Every operation keeps the counter within the budget and leaves the
    configuration alone. *)
Lemma call_budget k env op self files :
  within_budget self ->
  within_budget (self_after (call k env op self files))
  /\ max_calls (self_after (call k env op self files)) = max_calls self
  /\ cache_dir (self_after (call k env op self files)) = cache_dir self
  /\ cache_ttl (self_after (call k env op self files)) = cache_ttl self.
Proof.
  intros Hb.
  destruct (reset_window_budget (clock_limit env) self Hb) as [Hr Hm].
  assert (Hd : cache_dir (reset_window (clock_limit env) self) = cache_dir self
               /\ cache_ttl (reset_window (clock_limit env) self) = cache_ttl self)
    by (unfold reset_window; case_match; split; reflexivity).
  destruct Hd as [Hd Ht].
  unfold within_budget in *.
  destruct op; cbn [call];
    unfold analyze_code_segment, verify_ai_implementation,
      analyze_market_context, check_code_originality;
    repeat case_match; cbn [self_after set_calls_made max_calls calls_made cache_dir cache_ttl];
    repeat split; try assumption; try lia.
Qed.

Lemma calls_budget k script : forall self files,
  within_budget self ->
  Forall (fun run => within_budget (self_after run)
                     /\ max_calls (self_after run) = max_calls self)
         (calls k script self files).
Proof.
  induction script as [| [env op] script IH]; intros self files Hb;
    cbn [calls]; constructor.
  - destruct (call_budget k env op self files Hb) as (Hb' & Hm & _).
    split; assumption.
  - destruct (call_budget k env op self files Hb) as (Hb' & Hm & _).
    specialize (IH _ (files_after (call k env op self files)) Hb').
    rewrite Hm in IH. exact IH.
Qed.

(** Inside a window the counter grows by exactly the admissions, and
    the reset time stays. *)
Lemma call_in_window k env op self files :
  in_window env self ->
  calls_made (self_after (call k env op self files))
    = calls_made self + admissions (trace (call k env op self files))
  /\ call_reset_time (self_after (call k env op self files))
     = call_reset_time self.
Proof.
  intros Hw.
  pose proof (reset_window_in_window env self Hw) as Hr.
  destruct op; cbn [call];
    unfold analyze_code_segment, verify_ai_implementation,
      analyze_market_context, check_code_originality;
    rewrite ?Hr;
    repeat match goal with
      | |- context [cache_lookup ?e ?s ?f ?key] =>
          pose proof (admissions_cache_lookup e s f key);
          destruct (cache_lookup e s f key) as [[] ?]
      | |- context [cache_store ?e ?s ?f ?key ?r] =>
          pose proof (admissions_cache_store e s f key r);
          destruct (cache_store e s f key r)
      | _ => case_match
      end;
    cbn [self_after trace set_calls_made calls_made call_reset_time snd] in *;
    rewrite ?admissions_app; cbn [admissions];
    rewrite ?admissions_app; cbn [admissions];
    split; try reflexivity; lia.
Qed.

Lemma calls_in_window k script : forall self files,
  Forall (fun step => in_window (fst step) self) script ->
  calls_made (final_self (calls k script self files) self)
    = calls_made self + admissions (whole_trace (calls k script self files)).
Proof.
  unfold final_self, whole_trace.
  induction script as [| [env op] script IH]; intros self files Hs;
    cbn [calls fold_left List.map concat].
  - cbn. lia.
  - inversion Hs as [| ? ? Hw Hs']; subst. cbn [fst] in Hw.
    destruct (call_in_window k env op self files Hw) as [Hc Ht].
    rewrite admissions_app, IH.
    + lia.
    + eapply Forall_impl; [exact Hs' |].
      intros step. unfold in_window. rewrite Ht. tauto.
Qed.

(** [analyze_code_segment] after a cache miss, when the budget is used
    up: the fallback, and nothing else happens. *)
Lemma analyze_rejected k env code context self files :
  (cache_lookup env self files (analyze_key k code context)).1 = Miss ->
  max_calls (reset_window (clock_limit env) self)
    < calls_made (reset_window (clock_limit env) self) + 1 ->
  let run := analyze_code_segment k env code context self files in
  returned run = Return (_get_fallback_analysis "Rate limit reached")
  /\ self_after run = reset_window (clock_limit env) self
  /\ files_after run = files
  /\ trace run = (cache_lookup env self files (analyze_key k code context)).2
                   ++ [RateLimitCheck false].
Proof.
  intros Hmiss Hfull run. subst run. unfold analyze_code_segment.
  destruct (cache_lookup env self files (analyze_key k code context))
    as [l tr]. cbn [fst snd] in *. subst l.
  destruct (Z.gtb_spec
              (calls_made (reset_window (clock_limit env) self) + 1)
              (max_calls (reset_window (clock_limit env) self))); [| lia].
  repeat split.
Qed.

(** [analyze_code_segment] after a cache miss, when the budget allows
    one more call: the counter goes up by one and the service is
    called. *)
Lemma analyze_admitted k env code context self files :
  (cache_lookup env self files (analyze_key k code context)).1 = Miss ->
  calls_made (reset_window (clock_limit env) self) + 1
    <= max_calls (reset_window (clock_limit env) self) ->
  let run := analyze_code_segment k env code context self files in
  self_after run
    = set_calls_made (calls_made (reset_window (clock_limit env) self) + 1)
        (reset_window (clock_limit env) self)
  /\ (exists tr',
        trace run = (cache_lookup env self files (analyze_key k code context)).2
                    ++ [RateLimitCheck true; ExternalCall] ++ tr').
Proof.
  intros Hmiss Hroom run. subst run. unfold analyze_code_segment.
  destruct (cache_lookup env self files (analyze_key k code context))
    as [l tr]. cbn [fst snd] in *. subst l.
  destruct (Z.gtb_spec
              (calls_made (reset_window (clock_limit env) self) + 1)
              (max_calls (reset_window (clock_limit env) self))); [lia |].
  repeat case_match; cbn [self_after trace]; (split; [reflexivity |]);
    try (exists []; rewrite app_nil_r; reflexivity).
  eexists. rewrite <- app_assoc. reflexivity.
Qed.

(** C5.  The rate limiter.  Starting from a counter within the budget:
    (1) after any sequence of the four operations the counter is still
    within the budget, and the budget itself is unchanged;
    (2) as long as no call reaches the reset time, the counter is the
    number of admissions so far, so after exactly [max_calls]
    admissions it equals [max_calls];
    (3) with the counter at [max_calls] and the window still open, an
    admission attempt of [analyze_code_segment] returns the
    rate-limited fallback, calls nothing and leaves the analyzer as it
    was;
    (4) once the clock has reached the reset time, the window is reset
    (new reset time one hour later) before the admission test, and a
    call that is admitted leaves the counter at 1. *)
Theorem rate_limiter_contract (k : HashSecret) (self : GPTAnalyzer)
    (files : gmap string CacheFile) :
  within_budget self ->
  (forall script,
      Forall (fun run => calls_made (self_after run) <= max_calls self
                         /\ max_calls (self_after run) = max_calls self)
             (calls k script self files))
  /\ (forall script,
        Forall (fun step => in_window (fst step) self) script ->
        calls_made (final_self (calls k script self files) self)
          = calls_made self
            + admissions (whole_trace (calls k script self files)))
  /\ (forall env code context,
        calls_made self = max_calls self ->
        in_window env self ->
        (cache_lookup env self files (analyze_key k code context)).1 = Miss ->
        let run := analyze_code_segment k env code context self files in
        returned run = Return (_get_fallback_analysis "Rate limit reached")
        /\ self_after run = self
        /\ calls_made (self_after run) = max_calls self
        /\ ExternalCall ∉ trace run)
  /\ (forall env code context,
        (call_reset_time self <= clock_limit env)%Q ->
        (cache_lookup env self files (analyze_key k code context)).1 = Miss ->
        let run := analyze_code_segment k env code context self files in
        call_reset_time (self_after run) = (clock_limit env + 3600)%Q
        /\ (1 <= max_calls self ->
            calls_made (self_after run) = 1
            /\ RateLimitCheck true ∈ trace run)).
Proof.
  intros Hb. split; [| split; [| split]].
  - intros script. eapply Forall_impl; [apply calls_budget; exact Hb |].
    unfold within_budget. intros run [Hr Hm]. rewrite Hm in Hr. lia.
  - intros script Hs. apply calls_in_window. exact Hs.
  - intros env code context Hfull Hw Hmiss run.
    pose proof (reset_window_in_window env self Hw) as Hr.
    destruct (analyze_rejected k env code context self files Hmiss)
      as (R1 & R2 & R3 & R4); [rewrite Hr; lia |].
    fold run in R1, R2, R3, R4. rewrite Hr in R2.
    repeat split; try assumption.
    + rewrite R2. exact Hfull.
    + rewrite R4. intros Hin. apply elem_of_app in Hin as [Hin | Hin].
      * revert Hin. unfold cache_lookup. repeat case_match; cbn [snd];
          intros Hin; repeat (apply elem_of_cons in Hin as [Hin | Hin]; [discriminate Hin |]);
          apply elem_of_nil in Hin; exact Hin.
      * apply elem_of_cons in Hin as [Hin | Hin]; [discriminate Hin |].
        apply elem_of_nil in Hin; exact Hin.
  - intros env code context Hw Hmiss run.
    pose proof (reset_window_elapsed env self Hw) as Hr.
    destruct (Z.le_gt_cases 1 (max_calls self)) as [Hone | Hnone].
    + destruct (analyze_admitted k env code context self files Hmiss)
        as (A1 & tr' & A2); [rewrite Hr; cbn; lia |].
      fold run in A1, A2. rewrite Hr in A1.
      split; [rewrite A1; reflexivity |]. intros _.
      split; [rewrite A1; reflexivity |].
      rewrite A2. apply elem_of_app. right. apply elem_of_cons. left. reflexivity.
    + destruct (analyze_rejected k env code context self files Hmiss)
        as (R1 & R2 & R3 & R4); [rewrite Hr; cbn; lia |].
      fold run in R2. rewrite Hr in R2.
      split; [rewrite R2; reflexivity | lia].
Qed.

End RateLimiter.

Section RateLimiterExamples.
Import PyHash GptAnalyzer.
Local Open Scope Z_scope.
Local Existing Instance demo_runtime.

Lemma rate_limiter_contract_witness :
  let self := mkGPTAnalyzer 2 2 3600 None 86400 in
  let env := mkEnv 10 10 10 (ApiResponds (Return "{}"%string)) WriteOk in
  let run :=
    analyze_code_segment (secret_of_seed 0) env "def test3(): pass" "" self ∅ in
  returned run = Return (_get_fallback_analysis "Rate limit reached")
  /\ calls_made (self_after run) = 2.
Proof.
  intros self env run.
  assert (Hb : within_budget self) by (unfold within_budget; cbn; lia).
  destruct (rate_limiter_contract (secret_of_seed 0) self ∅ Hb)
    as (_ & _ & H3 & _).
  assert (Hw : in_window env self) by (unfold in_window; cbn; lra).
  destruct (H3 env "def test3(): pass"%string ""%string eq_refl Hw eq_refl)
    as (R1 & _ & R3 & _).
  split; assumption.
Defined.

(** The scenario of [test_rate_limit]: a budget of two and three calls
    on distinct inputs, with caching on.  The first two calls reach the
    service and are cached, the third gets the fallback and the counter
    stays at 2. *)
Example three_calls_with_budget_two :
  let self := mkGPTAnalyzer 2 0 3600 (Some "/tmp/cache"%string) 86400 in
  let env t := mkEnv t t t (ApiResponds (Return "{}"%string)) WriteOk in
  let runs :=
    calls (secret_of_seed 0)
      [ (env 1%Q, AnalyzeCodeSegment "def test1(): pass" "");
        (env 2%Q, AnalyzeCodeSegment "def test2(): pass" "");
        (env 3%Q, AnalyzeCodeSegment "def test3(): pass" "") ] self ∅ in
  List.map (fun run => calls_made (self_after run)) runs = [1; 2; 2]
  /\ List.map (fun run => admissions (trace run)) runs = [1; 1; 0]
  /\ List.map (fun run => size (files_after run)) runs = [1; 2; 2]%nat
  /\ (returned <$> last runs)
     = Some (Return (_get_fallback_analysis "Rate limit reached")).
Proof. vm_compute. repeat split. Qed.

End RateLimiterExamples.

(** ** The paths through [analyze_code_segment] *)

Section AnalyzeCodeSegment.
Import PyHash GptAnalyzer.
Context `{JsonRuntime}.
Local Open Scope Z_scope.

Lemma analyze_code_segment_path k env code context self files :
  analyze_path k env code context self files
    (analyze_code_segment k env code context self files).
Proof.
  unfold analyze_code_segment.
  destruct (cache_lookup env self files (analyze_key k code context))
    as [[v | | e] tr] eqn:Hl.
  - apply path_cache_hit. exact Hl.
  - destruct (Z.gtb_spec
                (calls_made (reset_window (clock_limit env) self) + 1)
                (max_calls (reset_window (clock_limit env) self))) as [Hfull | Hroom].
    + apply path_rate_limited; assumption.
    + destruct (api env) as [e | content] eqn:Ha.
      * apply path_call_failed; [assumption .. |].
        left. exists e. split; [exact Ha | reflexivity].
      * destruct (parse_analysis content) as [result | e] eqn:Hp.
        -- destruct (cache_store env _ files (analyze_key k code context) result)
             as [files' tr'] eqn:Hs.
           pose proof (path_parsed k env code context self files tr content
                         result Hl Hroom Ha Hp) as P.
           cbv zeta in P. rewrite Hs in P. exact P.
        -- destruct (is_JSONDecodeError e) eqn:Hj;
             (apply path_call_failed; [assumption .. |]);
             right; exists content, e; rewrite Hj; repeat split; assumption.
  - apply path_read_error. exact Hl.
Qed.

(** The cache check records only lookups, the cache write only writes. *)
Lemma cache_lookup_events env self files key (ev : Event) :
  ev ∈ (cache_lookup env self files key).2 ->
  exists cache_file fresh, ev = CacheLookup cache_file fresh.
Proof.
  unfold cache_lookup. repeat case_match; cbn [snd]; intros Hin;
    repeat (apply elem_of_cons in Hin as [-> | Hin]; [eauto |]);
    apply elem_of_nil in Hin; destruct Hin.
Qed.

Lemma cache_store_events env self files key result (ev : Event) :
  ev ∈ (cache_store env self files key result).2 ->
  exists cache_file, ev = CacheWrite cache_file.
Proof.
  unfold cache_store. repeat case_match; cbn [snd]; intros Hin;
    repeat (apply elem_of_cons in Hin as [-> | Hin]; [eauto |]);
    apply elem_of_nil in Hin; destruct Hin.
Qed.

Lemma cache_store_result_events env self files key result files' tr ev :
  cache_store env self files key result = (files', tr) ->
  ev ∈ tr -> exists cache_file, ev = CacheWrite cache_file.
Proof.
  intros Hs Hin. apply (cache_store_events env self files key result).
  rewrite Hs. exact Hin.
Qed.

(** A miss stays a miss as the clock advances: an absent file stays
    absent, an expired one stays expired, one that is not JSON stays so. *)
Lemma cache_miss_later env env' self self' files key :
  (cache_lookup env self files key).1 = Miss ->
  (clock_cache env <= clock_cache env')%Q ->
  cache_dir self' = cache_dir self ->
  cache_ttl self' = cache_ttl self ->
  (cache_lookup env' self' files key).1 = Miss.
Proof.
  unfold cache_lookup. intros Hmiss Hclock -> ->.
  destruct (cache_dir self) as [dir |]; [| reflexivity].
  destruct (files !! path_join dir (key ++ ".json")) as [f |]; [| reflexivity].
  destruct (Qltb (clock_cache env' - st_mtime f) (inject_Z (cache_ttl self)))
    eqn:Hfresh'; [| reflexivity].
  assert (Hfresh : Qltb (clock_cache env - st_mtime f)
                        (inject_Z (cache_ttl self)) = true).
  { apply Qltb_true. apply Qltb_true in Hfresh'. lra. }
  rewrite Hfresh in Hmiss.
  destruct (on_read f) as [v | e]; [discriminate Hmiss |].
  destruct (is_JSONDecodeError e); [reflexivity | discriminate Hmiss].
Qed.

End AnalyzeCodeSegment.

(** Closes a goal from a hypothesis that puts an event into a trace that
    cannot hold it. *)
Ltac absurd_event Hin Hlookup :=
  repeat first
    [ apply elem_of_app in Hin as [Hin | Hin]
    | apply elem_of_cons in Hin as [Hin | Hin]; [discriminate Hin |]
    | apply elem_of_nil in Hin; destruct Hin
    | apply Hlookup in Hin as (? & ? & Hin); discriminate Hin
    | apply cache_store_events in Hin as (? & Hin); discriminate Hin ].

Ltac absurd_stored_event Hin Hlookup Hstore :=
  repeat first
    [ apply elem_of_app in Hin as [Hin | Hin]
    | apply elem_of_cons in Hin as [Hin | Hin]; [discriminate Hin |]
    | apply elem_of_nil in Hin; destruct Hin
    | apply Hlookup in Hin as (? & ? & Hin); discriminate Hin
    | apply (cache_store_result_events _ _ _ _ _ _ _ _ Hstore) in Hin
        as (? & Hin); discriminate Hin ].

(** An event that a written-out trace lists. *)
Ltac event_listed :=
  rewrite ?elem_of_app, ?elem_of_cons; intuition reflexivity.

(** The four cases of the counting rule on a run whose trace is
    written out; [refute] closes an impossible membership. *)
Ltac settle_counts refute :=
  cbn [snd GptAnalyzer.trace GptAnalyzer.self_after
       GptAnalyzer.set_calls_made GptAnalyzer.calls_made] in *;
  (split;
   [ intros Hin; try solve [exfalso; refute Hin];
     (split; [reflexivity | event_listed]) |]);
  (split; [intros Hin; try solve [exfalso; refute Hin]; reflexivity |]);
  (split;
   [ intros Hin; try solve [exfalso; refute Hin];
     (split; [reflexivity | intros Hin'; refute Hin']) |]);
  (intros Hno; try reflexivity; exfalso;
   first [ apply (Hno true); event_listed | apply (Hno false); event_listed ]).

Section CacheDiscipline.
Import PyHash GptAnalyzer.
Context `{JsonRuntime}.
Local Open Scope Z_scope.

(** The window reset and the counter update leave the configuration
    alone. *)
Lemma reset_window_config (t : Q) (self : GPTAnalyzer) :
  max_calls (reset_window t self) = max_calls self
  /\ cache_dir (reset_window t self) = cache_dir self
  /\ cache_ttl (reset_window t self) = cache_ttl self.
Proof. unfold reset_window. case_match; repeat split. Qed.

Lemma analyze_config k env code context self files :
  let run := analyze_code_segment k env code context self files in
  max_calls (self_after run) = max_calls self
  /\ cache_dir (self_after run) = cache_dir self
  /\ cache_ttl (self_after run) = cache_ttl self.
Proof.
  intros run. subst run.
  destruct (reset_window_config (clock_limit env) self) as (Hm & Hd & Ht).
  destruct (analyze_code_segment_path k env code context self files);
    cbn [self_after set_calls_made max_calls cache_dir cache_ttl];
    repeat split; assumption.
Qed.

(** C10.  Fallback results are never cached.  [analyze_code_segment]
    changes the cache directory only on the path where the external call
    was made and its response parsed; a call that is rate-limited or
    that fails returns a fallback record and leaves the cache directory
    as it was, so a later call with the same inputs that has budget left
    finds no fresh entry, is admitted and performs the external call. *)
Theorem fallback_results_not_cached k env code context self files :
  let run := analyze_code_segment k env code context self files in
  (files_after run <> files ->
   exists content result,
     ExternalCall ∈ trace run
     /\ api env = ApiResponds content
     /\ parse_analysis content = Return result
     /\ returned run = Return result)
  /\ (rate_limited run \/ call_failed env run ->
      files_after run = files
      /\ (exists msg, returned run = Return (_get_fallback_analysis msg))
      /\ forall env',
          (clock_cache env <= clock_cache env')%Q ->
          calls_made (reset_window (clock_limit env') (self_after run)) + 1
            <= max_calls (self_after run) ->
          let run' :=
            analyze_code_segment k env' code context
              (self_after run) (files_after run) in
          (cache_lookup env' (self_after run) (files_after run)
             (analyze_key k code context)).1 = Miss
          /\ RateLimitCheck true ∈ trace run'
          /\ ExternalCall ∈ trace run').
Proof.
  intros run.
  pose proof (analyze_config k env code context self files) as Hcfg.
  pose proof (cache_lookup_events env self files (analyze_key k code context))
    as Hev.
  fold run in Hcfg. subst run.
  assert (Later : forall tr self1,
    cache_lookup env self files (analyze_key k code context) = (Miss, tr) ->
    max_calls self1 = max_calls self ->
    cache_dir self1 = cache_dir self ->
    cache_ttl self1 = cache_ttl self ->
    forall env',
      (clock_cache env <= clock_cache env')%Q ->
      calls_made (reset_window (clock_limit env') self1) + 1 <= max_calls self1 ->
      let run' := analyze_code_segment k env' code context self1 files in
      (cache_lookup env' self1 files (analyze_key k code context)).1 = Miss
      /\ RateLimitCheck true ∈ trace run' /\ ExternalCall ∈ trace run').
  { intros tr self1 Hl Hm Hd Ht env' Hclock Hroom run'.
    assert (Hmiss : (cache_lookup env' self1 files
                       (analyze_key k code context)).1 = Miss).
    { apply (cache_miss_later env env' self self1); try assumption.
      rewrite Hl. reflexivity. }
    destruct (reset_window_config (clock_limit env') self1) as (Hm' & _).
    destruct (analyze_admitted k env' code context self1 files Hmiss)
      as (_ & tr' & Htr); [rewrite Hm'; exact Hroom |].
    fold run' in Htr. rewrite Htr.
    split; [exact Hmiss |].
    split; apply elem_of_app; right; cbn [app]; repeat constructor. }
  destruct (analyze_code_segment_path k env code context self files)
    as [v tr Hl | e tr Hl | tr self' Hl Hfull
        | tr msg self' Hl Hroom Hfail
        | tr content result self' self'' stored Hl Hroom Ha Hp];
    rewrite Hl in Hev; cbn [snd files_after trace returned self_after] in *;
    destruct Hcfg as (Hm & Hd & Ht).
  - split; [intros N; destruct N; reflexivity |].
    intros [Hin | [Hin _]]; exfalso; absurd_event Hin Hev.
  - split; [intros N; destruct N; reflexivity |].
    intros [Hin | [Hin _]]; exfalso; absurd_event Hin Hev.
  - split; [intros N; destruct N; reflexivity |].
    intros _. split; [reflexivity |]. split; [eauto |].
    apply (Later tr); assumption.
  - split; [intros N; destruct N; reflexivity |].
    intros _. split; [reflexivity |]. split; [eauto |].
    apply (Later tr); assumption.
  - split.
    + intros _. exists content, result. repeat split; try assumption.
      apply elem_of_app; left; apply elem_of_app; right; repeat constructor.
    + intros [Hin | [_ [msg Hfail]]]; exfalso.
      * unfold rate_limited in Hin. cbn [trace] in Hin.
        absurd_event Hin Hev.
      * destruct Hfail as [(e & Ha' & _) | (content' & e & Ha' & Hp' & _)];
          congruence.
Qed.

(** *** When [analyze_code_segment] raises *)

(** The cache check lets an exception through exactly for a file that
    exists, is younger than the TTL, and whose reading raises something
    other than [JSONDecodeError]. *)
Lemma cache_lookup_read_error env self files key e :
  (cache_lookup env self files key).1 = ReadError e <->
  exists dir f,
    cache_dir self = Some dir
    /\ files !! path_join dir (key ++ ".json") = Some f
    /\ (clock_cache env - st_mtime f < inject_Z (cache_ttl self))%Q
    /\ on_read f = ReadRaises e
    /\ is_JSONDecodeError e = false.
Proof.
  unfold cache_lookup. split.
  - destruct (cache_dir self) as [dir |]; [| discriminate].
    destruct (files !! path_join dir (key ++ ".json")) as [f |] eqn:Hf;
      [| discriminate].
    destruct (Qltb _ _) eqn:Hfresh; [| discriminate].
    destruct (on_read f) as [v | e'] eqn:Hr; [discriminate |].
    destruct (is_JSONDecodeError e') eqn:Hj; [discriminate |].
    cbn [fst]. intros [= ->]. exists dir, f.
    apply Qltb_true in Hfresh. repeat split; assumption.
  - intros (dir & f & -> & -> & Hfresh & -> & ->).
    apply Qltb_true in Hfresh. rewrite Hfresh. reflexivity.
Qed.

(** A cached file that is not JSON is a miss. *)
Lemma cache_lookup_invalid_json env self files key dir f e :
  cache_dir self = Some dir ->
  files !! path_join dir (key ++ ".json") = Some f ->
  on_read f = ReadRaises e ->
  is_JSONDecodeError e = true ->
  (cache_lookup env self files key).1 = Miss.
Proof.
  unfold cache_lookup. intros -> -> -> ->. case_match; reflexivity.
Qed.

(** [analyze_code_segment] raises exactly when its cache check does:
    rate-limit exhaustion, a failing request and an unparseable response
    all end in a returned record. *)
Lemma analyze_raises_iff k env code context self files e :
  returned (analyze_code_segment k env code context self files) = Raise e
  <-> (cache_lookup env self files (analyze_key k code context)).1
      = ReadError e.
Proof.
  destruct (analyze_code_segment_path k env code context self files)
    as [v tr Hl | e' tr Hl | tr self' Hl Hfull
        | tr msg self' Hl Hroom Hfail
        | tr content result self' self'' stored Hl Hroom Ha Hp];
    rewrite Hl; cbn [returned fst]; split; intros E;
    try discriminate E; congruence.
Qed.

End CacheDiscipline.

Section FailureExamples.
Import PyHash GptAnalyzer.
Local Open Scope Z_scope.
Local Existing Instance demo_runtime.

Lemma fallback_results_not_cached_witness :
  let k := secret_of_seed 0 in
  let self := mkGPTAnalyzer 1 1 3600 (Some "/tmp/cache"%string) 86400 in
  let env t := mkEnv t t t (ApiResponds (Return "{}"%string)) WriteOk in
  let run := analyze_code_segment k (env 10%Q) "def test(): pass" "" self ∅ in
  files_after run = ∅
  /\ ExternalCall ∈
       trace (analyze_code_segment k (env 4000%Q) "def test(): pass" ""
                (self_after run) (files_after run)).
Proof.
  intros k self env run.
  destruct (fallback_results_not_cached k (env 10%Q) "def test(): pass"%string
              ""%string self ∅) as [_ P].
  fold run in P.
  assert (Hlimited : rate_limited run)
    by (unfold rate_limited; vm_compute; repeat constructor).
  destruct (P (or_introl Hlimited)) as (Hfiles & _ & Hlater).
  split; [exact Hfiles |].
  refine (proj2 (proj2 (Hlater (env 4000%Q) _ _))).
  - cbn. lra.
  - vm_compute. discriminate.
Defined.

(** C7.  [analyze_code_segment] is meant never to raise, whatever
    fails, and to treat a cache file that cannot be used as a miss.
    That holds for a rate limit that is used up, a failing request, an
    unparseable response and a cache file that is not JSON
    ([analyze_raises_iff], [cache_lookup_invalid_json]); it does not
    hold for a cache file that cannot be read: the cache check catches
    [JSONDecodeError] only, so with a fresh cache file whose opening
    raises [PermissionError] the call raises that error to its caller,
    without reaching the rate limiter or the service. *)
Theorem unreadable_cache_file_raises :
  let k := secret_of_seed 0 in
  let self := mkGPTAnalyzer 5 0 3600 (Some "/tmp/cache"%string) 86400 in
  let denied := mkExn PermissionError "[Errno 13] Permission denied" in
  let cache_file :=
    path_join "/tmp/cache" (analyze_key k "def test(): pass" "" ++ ".json") in
  let files : gmap string CacheFile :=
    {[ cache_file := mkCacheFile 0 (ReadRaises denied) ]} in
  let env := mkEnv 10 10 10 (ApiResponds (Return "{}"%string)) WriteOk in
  let run := analyze_code_segment k env "def test(): pass" "" self files in
  returned run = Raise denied
  /\ trace run = [CacheLookup cache_file false]
  /\ self_after run = self.
Proof. vm_compute. repeat split. Qed.

End FailureExamples.

(** ** The order of cache check, admission and external call *)

Section Skeleton.
Import PyHash GptAnalyzer.
Context `{JsonRuntime}.
Local Open Scope Z_scope.

(** [analyze_code_segment] checks the cache first: a fresh entry is
    returned as it is, the counter is not touched and neither the rate
    limiter nor the service is reached. *)
Lemma analyze_fresh_hit k env code context self files v :
  (cache_lookup env self files (analyze_key k code context)).1 = Hit v ->
  let run := analyze_code_segment k env code context self files in
  returned run = Return v
  /\ self_after run = self
  /\ files_after run = files
  /\ (forall admitted, RateLimitCheck admitted ∉ trace run)
  /\ ExternalCall ∉ trace run.
Proof.
  intros Hhit run. subst run.
  pose proof (cache_lookup_events env self files (analyze_key k code context))
    as Hev.
  destruct (analyze_code_segment_path k env code context self files)
    as [v' tr Hl | e' tr Hl | tr self' Hl Hfull
        | tr msg self' Hl Hroom Hfail
        | tr content result self' self'' stored Hl Hroom Ha Hp];
    rewrite Hl in Hhit, Hev; cbn [fst snd] in *; try discriminate Hhit.
  injection Hhit as ->. cbn [returned self_after files_after trace].
  split; [reflexivity |]. split; [reflexivity |]. split; [reflexivity |].
  split; [intros admitted |]; intros Hin; absurd_event Hin Hev.
Qed.

(** [verify_ai_implementation] and [check_code_originality] test the
    rate limit before they look at the cache: with budget left the
    counter goes up whether or not the cache answers, and without budget
    the cache is not consulted. *)
Lemma verify_admission_first k env code self files :
  let self' := reset_window (clock_limit env) self in
  let run := verify_ai_implementation k env code self files in
  (calls_made self' < max_calls self' ->
   calls_made (self_after run) = calls_made self' + 1
   /\ exists tr, trace run = RateLimitCheck true :: tr)
  /\ (max_calls self' <= calls_made self' ->
      returned run = Return verify_rate_limited
      /\ trace run = [RateLimitCheck false]).
Proof.
  intros self' run. subst self' run. unfold verify_ai_implementation.
  destruct (Z.geb_spec (calls_made (reset_window (clock_limit env) self))
                       (max_calls (reset_window (clock_limit env) self)));
    (split; [intros Hlt | intros Hge]); try lia.
  - split; reflexivity.
  - repeat case_match; cbn [self_after trace set_calls_made calls_made];
      (split; [reflexivity | eexists; reflexivity]).
Qed.

Lemma originality_admission_first k env code self files :
  let self' := reset_window (clock_limit env) self in
  let run := check_code_originality k env code self files in
  (calls_made self' < max_calls self' ->
   calls_made (self_after run) = calls_made self' + 1
   /\ exists tr, trace run = RateLimitCheck true :: tr)
  /\ (max_calls self' <= calls_made self' ->
      returned run = Return originality_rate_limited
      /\ trace run = [RateLimitCheck false]).
Proof.
  intros self' run. subst self' run. unfold check_code_originality.
  destruct (Z.geb_spec (calls_made (reset_window (clock_limit env) self))
                       (max_calls (reset_window (clock_limit env) self)));
    (split; [intros Hlt | intros Hge]); try lia.
  - split; reflexivity.
  - repeat case_match; cbn [self_after trace set_calls_made calls_made];
      (split; [reflexivity | eexists; reflexivity]).
Qed.

(** [analyze_market_context] never reaches the rate limiter: it leaves
    the analyzer as it is, and on a cache miss it calls the service
    whatever the counter says. *)
Lemma market_context_unlimited k env project_name repo_url self files :
  let run := analyze_market_context k env project_name repo_url self files in
  self_after run = self
  /\ (forall admitted, RateLimitCheck admitted ∉ trace run)
  /\ ((cache_lookup env self files
         (market_key k project_name repo_url)).1 = Miss ->
      ExternalCall ∈ trace run).
Proof.
  intros run. subst run. unfold analyze_market_context.
  pose proof (cache_lookup_events env self files
                (market_key k project_name repo_url)) as Hev.
  destruct (cache_lookup env self files (market_key k project_name repo_url))
    as [[v | | e] tr]; cbn [fst snd] in *.
  - repeat split; try discriminate.
    intros admitted Hin. absurd_event Hin Hev.
  - destruct (request_json env) as [result | e].
    + destruct (cache_store env self files _ result) as [files' tr'] eqn:Hs.
      pose proof (cache_store_events env self files
                    (market_key k project_name repo_url) result) as Hev'.
      rewrite Hs in Hev'. cbn [snd self_after trace] in *.
      repeat split.
      * intros admitted Hin.
        apply elem_of_app in Hin as [Hin | Hin]; [absurd_event Hin Hev |].
        apply Hev' in Hin as (? & Hin). discriminate Hin.
      * intros _. apply elem_of_app; left. apply elem_of_app; right.
        repeat constructor.
    + cbn [self_after trace]. repeat split.
      * intros admitted Hin. absurd_event Hin Hev.
      * intros _. apply elem_of_app; right. repeat constructor.
  - repeat split; try discriminate.
    intros admitted Hin. absurd_event Hin Hev.
Qed.

End Skeleton.

Section SkeletonExamples.
Import PyHash GptAnalyzer.
Local Open Scope Z_scope.
Local Existing Instance demo_runtime.

(** C6.  The four operations are meant to share one skeleton: cache
    check first (a fresh hit costs no budget and makes no call), then
    admission through the shared window, then the external call.
    [analyze_code_segment] does that ([analyze_fresh_hit]).  Its
    siblings do not:
    (1) [verify_ai_implementation] with a fresh cache entry and budget
        left returns the cached record but counts a call;
    (2) with the budget used up it returns its rate-limit record although
        a fresh cache entry exists, and never looks at the cache;
    (3) [check_code_originality] behaves like (1);
    (4) [analyze_market_context] with the budget used up and no cache
        entry calls the service all the same, is not checked by the rate
        limiter and leaves the counter as it was. *)
Theorem siblings_depart_from_skeleton :
  let k := secret_of_seed 0 in
  let unspent := mkGPTAnalyzer 5 0 3600 (Some "/tmp/cache"%string) 86400 in
  let spent := mkGPTAnalyzer 5 5 3600 (Some "/tmp/cache"%string) 86400 in
  let env := mkEnv 10 10 10 (ApiResponds (Return "{}"%string)) WriteOk in
  let cached := JObj [("is_real_ai"%string, JBool true)] in
  let file_of key := path_join "/tmp/cache" (key ++ ".json") in
  let verify_file := file_of (verify_key k "import torch") in
  let originality_file := file_of (originality_key k "import torch") in
  let market_file := file_of (market_key k "rig" "https://github.com/0xPlaygrounds/rig") in
  let files : gmap string CacheFile :=
    {[ verify_file := mkCacheFile 0 (ReadJson cached);
       originality_file := mkCacheFile 0 (ReadJson cached) ]} in
  let run1 := verify_ai_implementation k env "import torch" unspent files in
  let run2 := verify_ai_implementation k env "import torch" spent files in
  let run3 := check_code_originality k env "import torch" unspent files in
  let run4 :=
    analyze_market_context k env "rig" "https://github.com/0xPlaygrounds/rig"
      spent files in
  (returned run1 = Return cached
   /\ trace run1 = [RateLimitCheck true; CacheLookup verify_file true]
   /\ calls_made (self_after run1) = 1)
  /\ (returned run2 = Return verify_rate_limited
      /\ trace run2 = [RateLimitCheck false])
  /\ (returned run3 = Return cached
      /\ trace run3 = [RateLimitCheck true; CacheLookup originality_file true]
      /\ calls_made (self_after run3) = 1)
  /\ (trace run4
        = [CacheLookup market_file false; ExternalCall; CacheWrite market_file]
      /\ calls_made (self_after run4) = 5
      /\ max_calls (self_after run4) = 5).
Proof. vm_compute. repeat split. Qed.

End SkeletonExamples.

(** ** Fallback records *)

Section Fallbacks.
Import PyHash GptAnalyzer.
Context `{JsonRuntime}.
Local Open Scope Z_scope.

(** Whatever an operation returns is a fresh cache entry, the parsed
    answer of the service, or one of the fallback records. *)
Lemma call_returns k env op self files v :
  returned (call k env op self files) = Return v ->
  (exists self', (cache_lookup env self' files (cache_key k op)).1 = Hit v)
  \/ service_result env op v
  \/ fallback_record op v.
Proof.
  destruct op as [code context | code | project_name repo_url | code];
    cbn [call cache_key service_result].
  - destruct (analyze_code_segment_path k env code context self files)
      as [v' tr Hl | e' tr Hl | tr self' Hl Hfull
          | tr msg self' Hl Hroom Hfail
          | tr content result self' self'' stored Hl Hroom Ha Hp];
      cbn [returned]; intros [= <-].
    + left. exists self. rewrite Hl. reflexivity.
    + right; right. constructor.
    + right; right. constructor.
    + right; left. exists content. split; assumption.
  - unfold verify_ai_implementation. case_match.
    + cbn [returned]. intros [= <-]. right; right. constructor.
    + destruct (cache_lookup env _ files (verify_key k code))
        as [[v' | | e] tr] eqn:Hl.
      * cbn [returned]. intros [= <-]. left. eexists. rewrite Hl. reflexivity.
      * destruct (request_json env) as [result | e] eqn:Hq.
        -- case_match. cbn [returned]. intros [= <-]. right; left. reflexivity.
        -- cbn [returned]. intros [= <-]. right; right. constructor.
      * cbn [returned]. discriminate.
  - unfold analyze_market_context.
    destruct (cache_lookup env self files (market_key k project_name repo_url))
      as [[v' | | e] tr] eqn:Hl.
    + cbn [returned]. intros [= <-]. left. exists self. rewrite Hl. reflexivity.
    + destruct (request_json env) as [result | e] eqn:Hq.
      * case_match. cbn [returned]. intros [= <-]. right; left. reflexivity.
      * cbn [returned]. intros [= <-]. right; right. constructor.
    + cbn [returned]. discriminate.
  - unfold check_code_originality. case_match.
    + cbn [returned]. intros [= <-]. right; right. constructor.
    + destruct (cache_lookup env _ files (originality_key k code))
        as [[v' | | e] tr] eqn:Hl.
      * cbn [returned]. intros [= <-]. left. eexists. rewrite Hl. reflexivity.
      * destruct (request_json env) as [result | e] eqn:Hq.
        -- case_match. cbn [returned]. intros [= <-]. right; left. reflexivity.
        -- cbn [returned]. intros [= <-]. right; right. constructor.
      * cbn [returned]. discriminate.
Qed.

(** C8 (amended).  Whenever one of the four operations gives up, being
    turned away by the rate limiter or getting no record out of the
    service, it returns a record whose numeric fields are those of
    [fallback_scores]: exactly 0.5 in every numeric score field for
    [analyze_code_segment], [analyze_market_context] and
    [check_code_originality], and for [verify_ai_implementation] the one
    numeric field [confidence] with 0.0, beside [is_real_ai] false; and
    a call of [analyze_code_segment] that the rate limiter turns away
    returns the findings
    ["GPT analysis failed: Rate limit reached"]. *)
Theorem fallback_values k env (op : Operation) self files :
  gave_up env op (call k env op self files) ->
  exists v,
    returned (call k env op self files) = Return v
    /\ numeric_fields v = fallback_scores op
    /\ match op with
       | VerifyAiImplementation _ =>
           dict_get v "is_real_ai" JNull = Return (JBool false)
           /\ dict_get v "confidence" JNull = Return (JFloat 0.0)
       | _ => Forall (fun field => field.2 = 0.5%Q) (numeric_fields v)
       end
    /\ match op with
       | AnalyzeCodeSegment _ _ =>
           rate_limited (call k env op self files) ->
           dict_get v "findings" JNull
           = Return (JArr [JStr "GPT analysis failed: Rate limit reached"])
       | _ => True
       end.
Proof.
  unfold gave_up, rate_limited.
  destruct op as [code context | code | project_name repo_url | code];
    cbn [call service_failed fallback_scores].
  - pose proof (cache_lookup_events env self files (analyze_key k code context))
      as Hev.
    destruct (analyze_code_segment_path k env code context self files)
      as [v' tr Hl | e' tr Hl | tr self' Hl Hfull
          | tr msg self' Hl Hroom Hfail
          | tr content result self' self'' stored Hl Hroom Ha Hp];
      rewrite Hl in Hev;
      repeat match goal with x := _ |- _ => subst x end;
      cbn [snd trace returned] in *.
    + intros [Hin | [Hin _]]; exfalso; absurd_event Hin Hev.
    + intros [Hin | [Hin _]]; exfalso; absurd_event Hin Hev.
    + intros _. eexists. split; [reflexivity |].
      split; [reflexivity |]. split; [repeat constructor |].
      intros _. reflexivity.
    + intros _. eexists. split; [reflexivity |].
      split; [destruct msg; reflexivity |].
      split; [destruct msg; repeat constructor |].
      intros Hin. exfalso. absurd_event Hin Hev.
    + intros [Hin | [_ (msg & Hfail)]]; exfalso.
      * absurd_event Hin Hev.
      * destruct Hfail as [(e & Ha' & _) | (content' & e & Ha' & Hp' & _)];
          congruence.
  - unfold verify_ai_implementation.
    destruct (calls_made _ >=? max_calls _).
    { intros _. eexists. cbn [returned]. repeat split. }
    pose proof (cache_lookup_events env
                  (set_calls_made
                     (calls_made (reset_window (clock_limit env) self) + 1)
                     (reset_window (clock_limit env) self))
                  files (verify_key k code)) as Hev.
    destruct (cache_lookup env _ files (verify_key k code)) as [[v | | e] tr];
      cbn [snd] in Hev.
    + cbn [trace]. intros [Hin | [Hin _]]; exfalso; absurd_event Hin Hev.
    + destruct (request_json env) as [result | e] eqn:Hq.
      * destruct (cache_store env _ files (verify_key k code) result)
          as [files' tr'] eqn:Hs.
        cbn [trace]. intros [Hin | [_ (e & He)]]; [| discriminate He].
        exfalso.
        absurd_stored_event Hin Hev Hs.
      * intros _. eexists. cbn [returned]. repeat split.
    + cbn [trace]. intros [Hin | [Hin _]]; exfalso; absurd_event Hin Hev.
  - unfold analyze_market_context.
    pose proof (cache_lookup_events env self files
                  (market_key k project_name repo_url)) as Hev.
    destruct (cache_lookup env self files (market_key k project_name repo_url))
      as [[v | | e] tr]; cbn [snd] in Hev.
    + cbn [trace]. intros [Hin | [Hin _]]; exfalso; absurd_event Hin Hev.
    + destruct (request_json env) as [result | e] eqn:Hq.
      * destruct (cache_store env _ files (market_key k project_name repo_url)
                    result) as [files' tr'] eqn:Hs.
        cbn [trace]. intros [Hin | [_ (e & He)]]; [| discriminate He].
        exfalso.
        absurd_stored_event Hin Hev Hs.
      * intros _. eexists. cbn [returned].
        split; [reflexivity |]. split; [reflexivity |].
        split; [repeat constructor | exact I].
    + cbn [trace]. intros [Hin | [Hin _]]; exfalso; absurd_event Hin Hev.
  - unfold check_code_originality.
    destruct (calls_made _ >=? max_calls _).
    { intros _. eexists. cbn [returned].
      split; [reflexivity |]. split; [reflexivity |].
      split; [repeat constructor | exact I]. }
    pose proof (cache_lookup_events env
                  (set_calls_made
                     (calls_made (reset_window (clock_limit env) self) + 1)
                     (reset_window (clock_limit env) self))
                  files (originality_key k code)) as Hev.
    destruct (cache_lookup env _ files (originality_key k code))
      as [[v | | e] tr]; cbn [snd] in Hev.
    + cbn [trace]. intros [Hin | [Hin _]]; exfalso; absurd_event Hin Hev.
    + destruct (request_json env) as [result | e] eqn:Hq.
      * destruct (cache_store env _ files (originality_key k code) result)
          as [files' tr'] eqn:Hs.
        cbn [trace]. intros [Hin | [_ (e & He)]]; [| discriminate He].
        exfalso.
        absurd_stored_event Hin Hev Hs.
      * intros _. eexists. cbn [returned].
        split; [reflexivity |]. split; [reflexivity |].
        split; [repeat constructor | exact I].
    + cbn [trace]. intros [Hin | [Hin _]]; exfalso; absurd_event Hin Hev.
Qed.

End Fallbacks.

Section FallbackExamples.
Import PyHash GptAnalyzer.
Local Open Scope Z_scope.
Local Existing Instance demo_runtime.

(** Neither half of the claim as worded holds: the record that
    [verify_ai_implementation] returns when the budget is used up has
    [confidence] 0.0, and the record that [analyze_code_segment] returns
    then has the findings ["GPT analysis failed: Rate limit reached"]. *)
Lemma fallback_neutrality_counterexample :
  ~ fallbacks_all_neutral /\ ~ rate_limited_findings_plain.
Proof.
  split.
  - intros N.
    specialize (N (secret_of_seed 0)
                  (mkEnv 10 10 10 (ApiResponds (Return "{}"%string)) WriteOk)
                  (VerifyAiImplementation "import torch")
                  (mkGPTAnalyzer 2 2 3600 None 86400) ∅ verify_rate_limited).
    assert (Hfields : Forall (fun field : string * Q => (field.2 == 0.5)%Q)
                        (numeric_fields verify_rate_limited)).
    { apply N; [| reflexivity].
      left. unfold rate_limited. vm_compute. repeat constructor. }
    apply Forall_cons in Hfields as [Hconfidence _].
    vm_compute in Hconfidence. discriminate Hconfidence.
  - intros N.
    destruct (N (secret_of_seed 0)
                (mkEnv 10 10 10 (ApiResponds (Return "{}"%string)) WriteOk)
                "def test3(): pass"%string ""%string
                (mkGPTAnalyzer 2 2 3600 None 86400) ∅) as (v & Hv & Hfind).
    + unfold rate_limited. vm_compute. repeat constructor.
    + vm_compute in Hv. injection Hv as <-.
      vm_compute in Hfind. discriminate Hfind.
Qed.

Lemma fallback_values_witness :
  let run :=
    call (secret_of_seed 0)
      (mkEnv 10 10 10 (ApiResponds (Return "{}"%string)) WriteOk)
      (VerifyAiImplementation "import torch")
      (mkGPTAnalyzer 2 2 3600 None 86400) ∅ in
  exists v,
    returned run = Return v
    /\ numeric_fields v = [("confidence"%string, 0.0%Q)]
    /\ dict_get v "is_real_ai" JNull = Return (JBool false).
Proof.
  intros run.
  destruct (fallback_values (secret_of_seed 0)
              (mkEnv 10 10 10 (ApiResponds (Return "{}"%string)) WriteOk)
              (VerifyAiImplementation "import torch")
              (mkGPTAnalyzer 2 2 3600 None 86400) ∅)
    as (v & Hv & Hfields & [Hreal _] & _).
  { left. unfold rate_limited. vm_compute. repeat constructor. }
  exists v. split; [exact Hv |]. split; [exact Hfields | exact Hreal].
Defined.

End FallbackExamples.

(** ** Cache keys *)

Section CacheKeys.
Import PyHash GptAnalyzer.
Context `{JsonRuntime}.
Local Open Scope Z_scope.

Lemma cache_files_app (tr1 tr2 : list Event) :
  cache_files (tr1 ++ tr2) = cache_files tr1 ++ cache_files tr2.
Proof.
  induction tr1 as [| [f b | b | | f] tr1 IH]; cbn [app cache_files];
    rewrite ?IH; reflexivity.
Qed.

Lemma cache_lookup_files env self files key f :
  f ∈ cache_files (cache_lookup env self files key).2 ->
  exists dir, cache_dir self = Some dir /\ f = path_join dir (key ++ ".json").
Proof.
  unfold cache_lookup. destruct (cache_dir self) as [dir |].
  - repeat case_match; cbn; intros Hin;
      apply list_elem_of_singleton in Hin; eauto.
  - cbn. intros Hin. apply elem_of_nil in Hin. destruct Hin.
Qed.

Lemma cache_store_files env self files key result f :
  f ∈ cache_files (cache_store env self files key result).2 ->
  exists dir, cache_dir self = Some dir /\ f = path_join dir (key ++ ".json").
Proof.
  unfold cache_store. destruct (cache_dir self) as [dir |].
  - repeat case_match; cbn; intros Hin;
      try (apply list_elem_of_singleton in Hin; eauto);
      apply elem_of_nil in Hin; destruct Hin.
  - cbn. intros Hin. apply elem_of_nil in Hin. destruct Hin.
Qed.

(** Every cache file that a call reads or writes is named by the cache
    directory and the key of the operation, and by nothing else. *)
Lemma call_cache_file k env op self files f :
  f ∈ cache_files (trace (call k env op self files)) ->
  exists dir,
    cache_dir self = Some dir
    /\ f = path_join dir (cache_key k op ++ ".json").
Proof.
  destruct (reset_window_config (clock_limit env) self) as (_ & Hd & _).
  destruct op as [code context | code | project_name repo_url | code];
    cbn [call cache_key];
    unfold analyze_code_segment, verify_ai_implementation,
      analyze_market_context, check_code_originality;
    repeat match goal with
      | |- context [cache_lookup ?e ?s ?fs ?key] =>
          pose proof (cache_lookup_files e s fs key f);
          destruct (cache_lookup e s fs key) as [[] ?]
      | |- context [cache_store ?e ?s ?fs ?key ?r] =>
          pose proof (cache_store_files e s fs key r f);
          destruct (cache_store e s fs key r)
      | |- context [if ?b then _ else _] => destruct b
      | |- context [match ?x with _ => _ end] => destruct x
      end;
    cbn [trace snd cache_dir set_calls_made] in *;
    rewrite ?Hd in *;
    repeat first [rewrite cache_files_app | progress cbn [cache_files app]];
    intros Hin;
    repeat first
      [ apply elem_of_app in Hin as [Hin | Hin]
      | apply elem_of_nil in Hin; destruct Hin
      | progress auto ].
Qed.

(** The key of [analyze_code_segment] hashes the concatenation of its
    two inputs, so it cannot tell where the code ends and the context
    begins. *)
Lemma analyze_key_concatenation k code context :
  analyze_key k (code ++ context) "" = analyze_key k code context.
Proof.
  assert (E : forall s : string, (s ++ "")%string = s)
    by (induction s as [| c s IH];
        [reflexivity | change (String c (s ++ "") = String c s); congruence]).
  unfold analyze_key. rewrite E. reflexivity.
Qed.

(** Inside one process, that is, under one hash secret, two calls of the
    same operation on the same inputs use the same cache file, named by
    the cache directory and the key of the operation, whatever the order
    of the calls, the state of the analyzer, the clock, the service and
    the content of the cache directory. *)
Lemma cache_key_stable_within_process k op
    env1 env2 self1 self2 files1 files2 f1 f2 :
  cache_dir self1 = cache_dir self2 ->
  f1 ∈ cache_files (trace (call k env1 op self1 files1)) ->
  f2 ∈ cache_files (trace (call k env2 op self2 files2)) ->
  f1 = f2
  /\ exists dir,
       cache_dir self1 = Some dir
       /\ f1 = path_join dir (cache_key k op ++ ".json").
Proof.
  intros Hdir H1 H2.
  apply call_cache_file in H1 as (dir1 & Hd1 & ->).
  apply call_cache_file in H2 as (dir2 & Hd2 & ->).
  assert (dir1 = dir2) as -> by congruence.
  split; [reflexivity | eauto].
Qed.

End CacheKeys.

Section CacheKeyExamples.
Import PyHash GptAnalyzer.
Local Open Scope Z_scope.
Local Existing Instance demo_runtime.

(** The same call in two processes, started with [PYTHONHASHSEED=1] and
    [PYTHONHASHSEED=2]: the keys differ. *)
Lemma cache_key_differs_across_processes : ~ key_agrees_across_processes.
Proof.
  intros N.
  specialize (N (secret_of_seed 1) (secret_of_seed 2)
                (AnalyzeCodeSegment "def test(): pass" "")).
  vm_compute in N. discriminate N.
Qed.

(** C9.  The cache key is meant to be a stable digest of the operation
    and its inputs, the same in whichever process it is computed, so
    that the entries kept on disk for the TTL of a day serve later runs.
    The key is built with the built-in [hash], which is salted per
    process: under [PYTHONHASHSEED=1] and [PYTHONHASHSEED=2] the same
    call of [analyze_code_segment] gets two different keys, so the entry
    that the first process writes is not found by the second, which
    calls the service again and writes a second file for the same
    inputs; a later call in the first process does find the entry. *)
Theorem cache_entry_lost_across_processes :
  let env t := mkEnv t t t (ApiResponds (Return "{}"%string)) WriteOk in
  let self := mkGPTAnalyzer 5 0 3600 (Some "/tmp/cache"%string) 86400 in
  let file1 := "/tmp/cache/analyze_4481387352237297417.json"%string in
  let file2 := "/tmp/cache/analyze_-1318240507437003334.json"%string in
  let run1 :=
    analyze_code_segment (secret_of_seed 1) (env 10%Q)
      "def test(): pass" "" self ∅ in
  let run2 :=
    analyze_code_segment (secret_of_seed 2) (env 20%Q)
      "def test(): pass" "" self (files_after run1) in
  let run3 :=
    analyze_code_segment (secret_of_seed 1) (env 20%Q)
      "def test(): pass" "" self (files_after run1) in
  analyze_key (secret_of_seed 1) "def test(): pass" ""
    = "analyze_4481387352237297417"%string
  /\ analyze_key (secret_of_seed 2) "def test(): pass" ""
     = "analyze_-1318240507437003334"%string
  /\ trace run1 = [ CacheLookup file1 false; RateLimitCheck true; ExternalCall;
                    CacheWrite file1 ]
  /\ trace run2 = [ CacheLookup file2 false; RateLimitCheck true; ExternalCall;
                    CacheWrite file2 ]
  /\ trace run3 = [ CacheLookup file1 true ]
  /\ size (files_after run2) = 2%nat.
Proof. vm_compute. repeat split. Qed.

(** The lemma on two calls of one process. *)
Example same_process_same_cache_file :
  let k := secret_of_seed 1 in
  let op := AnalyzeCodeSegment "def test(): pass" "" in
  let env t := mkEnv t t t (ApiResponds (Return "{}"%string)) WriteOk in
  let self1 := mkGPTAnalyzer 5 0 3600 (Some "/tmp/cache"%string) 86400 in
  let self2 := mkGPTAnalyzer 5 5 3600 (Some "/tmp/cache"%string) 86400 in
  let run1 := call k (env 10%Q) op self1 ∅ in
  let run2 := call k (env 20%Q) op self2 (files_after run1) in
  let file := "/tmp/cache/analyze_4481387352237297417.json"%string in
  file ∈ cache_files (trace run1)
  /\ file ∈ cache_files (trace run2)
  /\ exists dir,
       cache_dir self1 = Some dir
       /\ file = path_join dir (cache_key k op ++ ".json").
Proof.
  intros k op env self1 self2 run1 run2 file.
  assert (H1 : file ∈ cache_files (trace run1))
    by (vm_compute; repeat constructor).
  assert (H2 : file ∈ cache_files (trace run2))
    by (vm_compute; repeat constructor).
  pose proof (cache_key_stable_within_process k op (env 10%Q) (env 20%Q)
                self1 self2 ∅ (files_after run1) _ _ eq_refl H1 H2)
    as [_ Hname].
  split; [exact H1 | split; [exact H2 | exact Hname]].
Qed.

End CacheKeyExamples.

(** ** The scenarios of [tests/test_gpt_integration.py] and [tests/test_market_analyzer.py] *)

Section TestScenarios.
Import CodeAnalyzer ReportGenerator PyHash GptAnalyzer.
Local Open Scope Z_scope.
Local Existing Instance demo_runtime.

(** [test_cache_hit]: the first call reaches the service, the second is
    answered from the cache with the same record and the counter stays
    at 1. *)
Example cache_hit_scenario :
  let self := mkGPTAnalyzer 5 0 3600 (Some "/tmp/cache"%string) 86400 in
  let env t := mkEnv t t t (ApiResponds (Return "{}"%string)) WriteOk in
  let runs :=
    calls (secret_of_seed 0)
      [ (env 1%Q, AnalyzeCodeSegment "def test(): pass" "");
        (env 2%Q, AnalyzeCodeSegment "def test(): pass" "") ] self ∅ in
  List.map (fun run => calls_made (self_after run)) runs = [1; 1]
  /\ List.map (fun run => admissions (trace run)) runs = [1; 0]
  /\ (exists v, List.map returned runs = [Return v; Return v]).
Proof. vm_compute. repeat split. eexists. reflexivity. Qed.

(** [test_cache_ttl]: with a TTL of one second, a second call two
    seconds later reaches the service again. *)
Example cache_ttl_scenario :
  let self := mkGPTAnalyzer 5 0 3600 (Some "/tmp/cache"%string) 1 in
  let env t := mkEnv t t t (ApiResponds (Return "{}"%string)) WriteOk in
  let runs :=
    calls (secret_of_seed 0)
      [ (env 1%Q, AnalyzeCodeSegment "def test(): pass" "");
        (env 3%Q, AnalyzeCodeSegment "def test(): pass" "") ] self ∅ in
  List.map (fun run => calls_made (self_after run)) runs = [1; 2]
  /\ List.map (fun run => admissions (trace run)) runs = [1; 1].
Proof. vm_compute. repeat split. Qed.

(** [test_rate_limit_reset]: a budget of one is used up, the reset time
    is forced to 0, and the next call is admitted with the counter back
    at 1. *)
Example rate_limit_reset_scenario :
  let k := secret_of_seed 0 in
  let self := mkGPTAnalyzer 1 0 3600 (Some "/tmp/cache"%string) 86400 in
  let env t := mkEnv t t t (ApiResponds (Return "{}"%string)) WriteOk in
  let run1 := analyze_code_segment k (env 1%Q) "def test1(): pass" "" self ∅ in
  let forced := set_call_reset_time 0 (self_after run1) in
  let run2 :=
    analyze_code_segment k (env 2%Q) "def test2(): pass" "" forced
      (files_after run1) in
  calls_made (self_after run1) = 1
  /\ calls_made (self_after run2) = 1
  /\ call_reset_time (self_after run2) = (2 + 3600)%Q
  /\ admissions (trace run2) = 1.
Proof. vm_compute. repeat split. Qed.

(** [test_gpt_error_handling], with the request itself failing: the
    fallback record, whose first finding starts with
    "GPT analysis failed". *)
Example error_handling_scenario :
  let self := mkGPTAnalyzer 5 0 3600 (Some "/tmp/cache"%string) 86400 in
  let env := mkEnv 1 1 1 (ApiRaises (mkExn APIError "API Error")) WriteOk in
  let run :=
    analyze_code_segment (secret_of_seed 0) env "def test(): pass" "" self ∅ in
  returned run = Return (_get_fallback_analysis "API Error")
  /\ dict_get (_get_fallback_analysis "API Error") "findings" JNull
     = Return (JArr [JStr "GPT analysis failed: API Error"])
  /\ files_after run = ∅.
Proof. vm_compute. repeat split. Qed.

(** [test_market_score_integration]: base scores around 0.3 and a market
    value of 0.9 give exactly the floor, with the note in front. *)
Example market_score_integration_scenario :
  let r := mkAnalysisResult 0.3 0.4 0.3 0.3 0.9 [] [] in
  (overall_score (generate_summary r) == 0.5)%Q
  /\ report_recommendations (generate_summary r) = [override_note]
  /\ detailed_scores (generate_summary r) !! 3%nat
     = Some ("Market Success"%string, 0.9%Q).
Proof. vm_compute. repeat split. Qed.

(** [test_market_score_weights]: perfect scores give 1, and a perfect
    market value alone gives 0.3. *)
Example market_score_weights_scenario :
  (overall_score (generate_summary (mkAnalysisResult 1 1 1 1 1 [] [])) == 1)%Q
  /\ (overall_score (generate_summary (mkAnalysisResult 0 0 0 0 1 [] []))
      == 0.3)%Q.
Proof. vm_compute. repeat split. Qed.

End TestScenarios.

(** * Further properties of the code *)

(** ** The private score of the report *)

Section PrivateScore.
Import CodeAnalyzer ReportGenerator ReportGeneratorPrivate.

(** With four collected scores the mean is the equally weighted sum. *)
Lemma normalized_base_all_positive (r : AnalysisResult) :
  0 < ai_framework_score r -> 0 < code_quality_score r ->
  0 < execution_score r -> 0 < security_score r ->
  normalized_base r ==
    0.25 * ai_framework_score r + 0.25 * code_quality_score r
    + 0.25 * execution_score r + 0.25 * security_score r.
Proof.
  intros Ha Hq He Hs. unfold normalized_base, base_scores. cbn [List.filter].
  apply Qgtb_true in Ha, Hq, He, Hs. rewrite Ha, Hq, He, Hs.
  cbv [py_sum py_len inject_Z fold_left length].
  change (Z.of_nat 4) with 4%Z. field.
Qed.



(** X2.  The private score and the score of the report are two formulas.
    With four positive base scores and a market value below 0.8 the
    report's score is 0.7 times the private score plus 0.3 times the
    market value; with no base score and a market value from 0.8 on the
    private score is 0.5 while the report's score stays below it. *)
Theorem private_score_against_report (r : AnalysisResult) :
  0 <= market_value_score r <= 1 ->
  (0 < ai_framework_score r -> 0 < code_quality_score r ->
   0 < execution_score r -> 0 < security_score r ->
   market_value_score r < 0.8 ->
   overall_score (generate_summary r) ==
     0.7 * _calculate_overall_score r + 0.3 * market_value_score r)
  /\ (all_base_scores_zero r -> 0.8 <= market_value_score r ->
      _calculate_overall_score r == 0.5
      /\ overall_score (generate_summary r) < _calculate_overall_score r).
Proof.
  intros [Hm0 Hm1]. split.
  - intros Ha Hq He Hs Hm.
    rewrite generate_summary_score, calculate_overall_score_cases.
    pose proof (normalized_base_all_positive r Ha Hq He Hs) as Hn.
    assert (Hne : base_scores r <> [])
      by (apply base_scores_nonempty; left; exact Ha).
    destruct (base_scores r) as [| s l]; [destruct Hne; reflexivity |].
    unfold _calculate_overall_score.
    apply Qgeb_false in Hm. rewrite Hm, Hn. ring.
  - intros Hz Hm.
    assert (Hp : _calculate_overall_score r == 0.5).
    { unfold _calculate_overall_score. destruct Hz as (Ha & Hq & He & Hs).
      apply Qgeb_true in Hm. rewrite Hm. unfold py_max.
      destruct (Qgtb 0.5 _) eqn:E; [reflexivity |].
      apply Qgtb_false in E. lra. }
    split; [exact Hp |].
    rewrite Hp, generate_summary_score, calculate_overall_score_cases,
      (base_scores_empty r Hz). lra.
Qed.

Lemma private_score_against_report_witness :
  let r := mkAnalysisResult 0.5 0.5 0.5 0.5 0.5 [] [] in
  overall_score (generate_summary r) ==
    0.7 * _calculate_overall_score r + 0.3 * market_value_score r.
Proof.
  intros r.
  assert (Hm : 0 <= market_value_score r <= 1) by (cbn; lra).
  destruct (private_score_against_report r Hm) as [Hrel _].
  apply Hrel; cbn; lra.
Defined.

End PrivateScore.

(** ** More on the rate limiter and the cache of [GPTAnalyzer] *)

Section BudgetAndCache.
Import PyHash GptAnalyzer.
Context `{JsonRuntime}.
Local Open Scope Z_scope.

Lemma cache_lookup_off env self files key :
  cache_dir self = None -> cache_lookup env self files key = (Miss, []).
Proof. unfold cache_lookup. intros ->. reflexivity. Qed.

Lemma cache_store_off env self files key result :
  cache_dir self = None -> cache_store env self files key result = (files, []).
Proof. unfold cache_store. intros ->. reflexivity. Qed.

(** A call made with room in the budget is not turned away, and it
    takes at most one unit. *)
Lemma call_with_room k env op self files :
  within_budget self ->
  calls_made self < max_calls self ->
  ~ rate_limited (call k env op self files)
  /\ calls_made (self_after (call k env op self files)) <= calls_made self + 1.
Proof.
  unfold within_budget, rate_limited. intros Hb Hroom.
  assert (Hr : calls_made (reset_window (clock_limit env) self)
               <= calls_made self
               /\ max_calls (reset_window (clock_limit env) self)
                  = max_calls self
               /\ 0 <= calls_made (reset_window (clock_limit env) self)).
  { unfold reset_window. case_match; cbn; lia. }
  destruct Hr as (Hr1 & Hr2 & Hr3).
  destruct op as [code context | code | project_name repo_url | code];
    cbn [call].
  - pose proof (cache_lookup_events env self files (analyze_key k code context))
      as Hev.
    destruct (analyze_code_segment_path k env code context self files)
      as [v tr Hl | e tr Hl | tr self' Hl Hfull
          | tr msg self' Hl Hroom' Hfail
          | tr content result self' self'' stored Hl Hroom' Ha Hp];
      rewrite Hl in Hev;
      repeat match goal with x := _ |- _ => subst x end;
      cbn [snd trace self_after set_calls_made calls_made] in *;
      try lia;
      (split; [intros Hin; absurd_event Hin Hev | lia]).
  - unfold verify_ai_implementation.
    destruct (Z.geb_spec (calls_made (reset_window (clock_limit env) self))
                (max_calls (reset_window (clock_limit env) self))); [lia |].
    pose proof (cache_lookup_events env
                  (set_calls_made
                     (calls_made (reset_window (clock_limit env) self) + 1)
                     (reset_window (clock_limit env) self))
                  files (verify_key k code)) as Hev.
    destruct (cache_lookup env _ files (verify_key k code)) as [[v | | e] tr];
      cbn [snd] in Hev;
      repeat case_match;
      cbn [trace self_after set_calls_made calls_made];
      (split; [intros Hin; absurd_event Hin Hev | lia]);
      match goal with
      | Hs : cache_store _ _ _ _ _ = _ |- _ =>
          apply (cache_store_result_events _ _ _ _ _ _ _ _ Hs) in Hin
            as (? & Hin); discriminate Hin
      end.
  - pose proof (market_context_unlimited k env project_name repo_url self files)
      as (Hs & Hno & _).
    rewrite Hs. split; [apply Hno | lia].
  - unfold check_code_originality.
    destruct (Z.geb_spec (calls_made (reset_window (clock_limit env) self))
                (max_calls (reset_window (clock_limit env) self))); [lia |].
    pose proof (cache_lookup_events env
                  (set_calls_made
                     (calls_made (reset_window (clock_limit env) self) + 1)
                     (reset_window (clock_limit env) self))
                  files (originality_key k code)) as Hev.
    destruct (cache_lookup env _ files (originality_key k code))
      as [[v | | e] tr];
      cbn [snd] in Hev;
      repeat case_match;
      cbn [trace self_after set_calls_made calls_made];
      (split; [intros Hin; absurd_event Hin Hev | lia]);
      match goal with
      | Hs : cache_store _ _ _ _ _ = _ |- _ =>
          apply (cache_store_result_events _ _ _ _ _ _ _ _ Hs) in Hin
            as (? & Hin); discriminate Hin
      end.
Qed.

(** X3.  A sequence of calls that is no longer than the budget that is left
    is never turned away by the rate limiter, whichever operations it
    mixes and whether or not the window is reset on the way: this is
    why the sampling loop of [CodeAnalyzer.analyze], which calls
    [analyze_code_segment] for at most [MAX_GPT_CALLS] files, gets no
    rate-limit fallback from a new analyzer. *)
Theorem calls_within_budget_admitted k script : forall self files,
  within_budget self ->
  Z.of_nat (length script) <= max_calls self - calls_made self ->
  Forall (fun run => ~ rate_limited run) (calls k script self files).
Proof.
  induction script as [| [env op] script IH]; intros self files Hb Hlen;
    cbn [calls]; constructor.
  - apply call_with_room; [exact Hb |].
    cbn [length] in Hlen. lia.
  - cbn [length] in Hlen.
    destruct (call_with_room k env op self files Hb) as [_ Hone]; [lia |].
    destruct (call_budget k env op self files Hb) as (Hb' & Hm & _).
    apply IH; [exact Hb' | lia].
Qed.

(** X4.  How the three operations behind the rate limiter count.  With
    [before] the counter as the window reset leaves it: a call that
    reaches the service was admitted and leaves the counter at
    [before + 1], whether the service answers, fails or answers with
    text that does not parse; every admitted call leaves it at
    [before + 1], also one that is then answered from the cache and
    never reaches the service; a call that is turned away leaves it at
    [before] and does not reach the service; and a call that meets no
    admission test leaves the analyzer as it was. *)
Theorem external_call_counts k env op self files :
  rate_limited_operation op = true ->
  let run := call k env op self files in
  let before := calls_made (reset_window (clock_limit env) self) in
  (ExternalCall ∈ trace run ->
   calls_made (self_after run) = before + 1
   /\ RateLimitCheck true ∈ trace run)
  /\ (RateLimitCheck true ∈ trace run ->
      calls_made (self_after run) = before + 1)
  /\ (RateLimitCheck false ∈ trace run ->
      calls_made (self_after run) = before /\ ExternalCall ∉ trace run)
  /\ ((forall admitted, RateLimitCheck admitted ∉ trace run) ->
      self_after run = self).
Proof.
  intros Hop. cbv zeta.
  destruct op as [code context | code | project_name repo_url | code];
    cbn [call rate_limited_operation] in *; try discriminate Hop.
  - pose proof (cache_lookup_events env self files (analyze_key k code context))
      as Hev.
    destruct (analyze_code_segment_path k env code context self files)
      as [v tr Hl | e tr Hl | tr self' Hl Hfull
          | tr msg self' Hl Hroom' Hfail
          | tr content result self' self'' stored Hl Hroom' Ha Hp];
      rewrite Hl in Hev;
      repeat match goal with x := _ |- _ => subst x end;
      settle_counts ltac:(fun Hin => absurd_event Hin Hev).
  - unfold verify_ai_implementation.
    destruct (calls_made _ >=? max_calls _);
      [settle_counts ltac:(fun Hin => absurd_event Hin Hop) |].
    pose proof (cache_lookup_events env
                  (set_calls_made
                     (calls_made (reset_window (clock_limit env) self) + 1)
                     (reset_window (clock_limit env) self))
                  files (verify_key k code)) as Hev.
    destruct (cache_lookup env _ files (verify_key k code)) as [[v | | e] tr];
      cbn [snd] in Hev;
      [ | destruct (request_json env) as [result | e];
          [destruct (cache_store env _ files (verify_key k code) result)
             as [files' tr'] eqn:Hs |] | ];
      first [ settle_counts ltac:(fun Hin => absurd_stored_event Hin Hev Hs)
            | settle_counts ltac:(fun Hin => absurd_event Hin Hev) ].
  - unfold check_code_originality.
    destruct (calls_made _ >=? max_calls _);
      [settle_counts ltac:(fun Hin => absurd_event Hin Hop) |].
    pose proof (cache_lookup_events env
                  (set_calls_made
                     (calls_made (reset_window (clock_limit env) self) + 1)
                     (reset_window (clock_limit env) self))
                  files (originality_key k code)) as Hev.
    destruct (cache_lookup env _ files (originality_key k code))
      as [[v | | e] tr];
      cbn [snd] in Hev;
      [ | destruct (request_json env) as [result | e];
          [destruct (cache_store env _ files (originality_key k code) result)
             as [files' tr'] eqn:Hs |] | ];
      first [ settle_counts ltac:(fun Hin => absurd_stored_event Hin Hev Hs)
            | settle_counts ltac:(fun Hin => absurd_event Hin Hev) ].
Qed.

(** X5.  Without a cache directory the cache is out of the way: no operation
    reads or writes a file, the files are left as they are, and what is
    returned is the answer of the service or a fallback record. *)
Theorem cache_disabled_is_noop k env op self files :
  cache_dir self = None ->
  files_after (call k env op self files) = files
  /\ cache_files (trace (call k env op self files)) = []
  /\ (exists v,
        returned (call k env op self files) = Return v
        /\ (service_result env op v \/ fallback_record op v)).
Proof.
  intros Hoff.
  destruct (reset_window_config (clock_limit env) self) as (_ & Hd & _).
  assert (Hoff' : cache_dir (reset_window (clock_limit env) self) = None)
    by congruence.
  destruct op as [code context | code | project_name repo_url | code];
    cbn [call service_result];
    unfold analyze_code_segment, verify_ai_implementation,
      analyze_market_context, check_code_originality;
    rewrite ?cache_lookup_off, ?cache_store_off by (cbn; assumption);
    repeat case_match;
    rewrite ?cache_store_off in * by (cbn; assumption);
    simplify_eq;
    cbn [files_after trace returned app cache_files];
    (split; [reflexivity |]); (split; [reflexivity |]);
    eexists; (split; [reflexivity |]);
    first [ right; constructor | left; eauto ].
Qed.

(** What was stored under a key is found under that key while it is
    younger than the TTL, and is ignored from then on. *)
Lemma cache_store_then_lookup env env' self self' files key result dir :
  cache_dir self = Some dir ->
  cache_dir self' = Some dir ->
  cache_write env = WriteOk ->
  let files' := (cache_store env self files key result).1 in
  let cache_file := path_join dir (key ++ ".json") in
  ((clock_cache env' - clock_write env < inject_Z (cache_ttl self'))%Q ->
   cache_lookup env' self' files' key
     = (Hit result, [CacheLookup cache_file true]))
  /\ ((inject_Z (cache_ttl self') <= clock_cache env' - clock_write env)%Q ->
      cache_lookup env' self' files' key
        = (Miss, [CacheLookup cache_file false])).
Proof.
  intros Hd Hd' Hw files' cache_file. subst files' cache_file.
  unfold cache_store, cache_lookup. rewrite Hd, Hd', Hw. cbn [fst].
  rewrite lookup_insert_eq. cbn [st_mtime on_read].
  split; intros Hage.
  - apply Qltb_true in Hage. rewrite Hage. reflexivity.
  - apply Qltb_false in Hage. rewrite Hage. reflexivity.
Qed.

(** X6.  The cache round trip of [analyze_code_segment].  After a call that
    reached the service, parsed its answer and wrote it to the cache, a
    second call with the same inputs returns the same record from the
    cache as long as the entry is younger than the TTL, without an
    admission test and without touching the counter, the files or the
    service; once the entry has reached the TTL the second call finds no
    fresh entry.  (An answer with an integer score that [float] cannot
    convert does not parse, so it is not among the answers meant
    here.) *)
Theorem analyze_cache_round_trip k env env' code context self files
    dir content result :
  cache_dir self = Some dir ->
  (cache_lookup env self files (analyze_key k code context)).1 = Miss ->
  calls_made (reset_window (clock_limit env) self) + 1 <= max_calls self ->
  api env = ApiResponds content ->
  parse_analysis content = Return result ->
  cache_write env = WriteOk ->
  let run := analyze_code_segment k env code context self files in
  let run' :=
    analyze_code_segment k env' code context
      (self_after run) (files_after run) in
  returned run = Return result
  /\ ((clock_cache env' - clock_write env < inject_Z (cache_ttl self))%Q ->
      returned run' = Return result
      /\ self_after run' = self_after run
      /\ files_after run' = files_after run
      /\ (forall admitted, RateLimitCheck admitted ∉ trace run')
      /\ ExternalCall ∉ trace run')
  /\ ((inject_Z (cache_ttl self) <= clock_cache env' - clock_write env)%Q ->
      (cache_lookup env' (self_after run) (files_after run)
         (analyze_key k code context)).1 = Miss).
Proof.
  intros Hd Hmiss Hroom Ha Hp Hw run run'. subst run'.
  destruct (analyze_config k env code context self files) as (Hcm & Hcd & Hct).
  fold run in Hcm, Hcd, Hct.
  destruct (reset_window_config (clock_limit env) self) as (Hm & Hd' & _).
  assert (Hrun : returned run = Return result
                 /\ files_after run
                    = (cache_store env
                         (set_calls_made
                            (calls_made (reset_window (clock_limit env) self) + 1)
                            (reset_window (clock_limit env) self))
                         files (analyze_key k code context) result).1).
  { subst run.
    destruct (analyze_code_segment_path k env code context self files)
      as [v tr Hl | e tr Hl | tr self' Hl Hfull
          | tr msg self' Hl Hroom' Hfail
          | tr content' result' self' self'' stored Hl Hroom' Ha' Hp'];
      rewrite Hl in Hmiss; cbn [fst] in Hmiss; try discriminate Hmiss;
      repeat match goal with x := _ |- _ => subst x end.
    - rewrite Hm in Hfull. lia.
    - destruct Hfail as [(e & Ha' & _) | (content' & e & Ha' & Hp' & _)];
        congruence.
    - assert (content' = content) as -> by congruence.
      assert (result' = result) as -> by congruence.
      cbn [returned files_after]. split; reflexivity. }
  destruct Hrun as [Hret Hfiles].
  split; [exact Hret |].
  destruct (cache_store_then_lookup env env'
              (set_calls_made
                 (calls_made (reset_window (clock_limit env) self) + 1)
                 (reset_window (clock_limit env) self))
              (self_after run) files (analyze_key k code context) result dir)
    as [Hfresh Hstale]; try congruence.
  { cbn [cache_dir set_calls_made]. congruence. }
  rewrite <- Hfiles, Hct in Hfresh, Hstale.
  split.
  - intros Hage. specialize (Hfresh Hage).
    destruct (analyze_fresh_hit k env' code context (self_after run)
                (files_after run) result) as (R1 & R2 & R3 & R4 & R5).
    { rewrite Hfresh. reflexivity. }
    repeat split; assumption.
  - intros Hage. rewrite (Hstale Hage). reflexivity.
Qed.

(** What [build_result] returns has the shape of an analysis record. *)
Lemma build_result_record analysis v :
  build_result analysis = Return v -> analysis_record v.
Proof.
  unfold build_result, analysis_record, mbind, Outcome_bind, mret, Outcome_ret.
  repeat case_match; try discriminate. intros [= <-].
  do 7 eexists. reflexivity.
Qed.

(** An integer score that [float] cannot convert ends the inner [try]
    block with the [OverflowError]: no record is built, so the call
    takes the fallback of its handler and nothing is cached. *)
Lemma build_result_overflow (analysis : JSON) (n : Z) :
  dict_get analysis "ai_score" (JFloat 0.5) = Return (JInt n) ->
  float_overflow <= Z.abs n ->
  build_result analysis
  = Raise (mkExn OverflowError "int too large to convert to float").
Proof.
  intros Hget Hbig. unfold build_result. rewrite Hget.
  cbn [mbind Outcome_bind py_float].
  apply Z.leb_le in Hbig. rewrite Hbig. reflexivity.
Qed.

(** X7.  Every record that [analyze_code_segment] does not take from the
    cache has the shape of an analysis record, be it built from the
    answer of the service or a fallback: five float scores under the
    names [ai_score], [quality_score], [originality_score],
    [execution_score] and [market_value], then the findings and the
    recommendations. *)
Theorem fresh_analysis_is_record k env code context self files v :
  (cache_lookup env self files (analyze_key k code context)).1 = Miss ->
  returned (analyze_code_segment k env code context self files) = Return v ->
  analysis_record v.
Proof.
  intros Hmiss.
  destruct (analyze_code_segment_path k env code context self files)
    as [v' tr Hl | e tr Hl | tr self' Hl Hfull
        | tr msg self' Hl Hroom' Hfail
        | tr content result self' self'' stored Hl Hroom' Ha Hp];
    rewrite Hl in Hmiss; cbn [fst returned] in *; try discriminate Hmiss;
    intros [= <-].
  - unfold analysis_record, _get_fallback_analysis. do 7 eexists. reflexivity.
  - unfold analysis_record, _get_fallback_analysis. do 7 eexists. reflexivity.
  - unfold parse_analysis, mbind, Outcome_bind in Hp.
    repeat case_match; try discriminate Hp.
    eapply build_result_record. exact Hp.
Qed.

End BudgetAndCache.

Section BudgetAndCacheExamples.
Import PyHash GptAnalyzer.
Local Open Scope Z_scope.
Local Existing Instance demo_runtime.

Lemma calls_within_budget_admitted_witness :
  let self := mkGPTAnalyzer 2 0 3600 None 86400 in
  let env := mkEnv 10 10 10 (ApiRaises (mkExn APIError "API Error")) WriteOk in
  Forall (fun run => ~ rate_limited run)
    (calls (secret_of_seed 0)
       [ (env, AnalyzeCodeSegment "a" ""); (env, VerifyAiImplementation "b") ]
       self ∅).
Proof.
  intros self env.
  apply calls_within_budget_admitted.
  - unfold within_budget. cbn. lia.
  - cbn. lia.
Defined.

Lemma external_call_counts_witness :
  let self := mkGPTAnalyzer 5 2 3600 None 86400 in
  let env := mkEnv 10 10 10 (ApiRaises (mkExn APIError "API Error")) WriteOk in
  calls_made
    (self_after (call (secret_of_seed 0) env (AnalyzeCodeSegment "a" "") self ∅))
  = 3.
Proof.
  intros self env.
  pose proof (external_call_counts (secret_of_seed 0) env
                (AnalyzeCodeSegment "a" "") self ∅ eq_refl) as Hcounts.
  cbv zeta in Hcounts. destruct Hcounts as (Hcalled & _).
  refine (proj1 (Hcalled _)).
  vm_compute. repeat constructor.
Defined.

Lemma cache_disabled_is_noop_witness :
  let self := mkGPTAnalyzer 5 0 3600 None 86400 in
  let env := mkEnv 10 10 10 (ApiResponds (Return "{}"%string)) WriteOk in
  files_after (call (secret_of_seed 0) env (VerifyAiImplementation "a") self ∅)
  = ∅.
Proof.
  intros self env.
  exact (proj1 (cache_disabled_is_noop (secret_of_seed 0) env
                  (VerifyAiImplementation "a") self ∅ eq_refl)).
Defined.

Lemma analyze_cache_round_trip_witness :
  let k := secret_of_seed 0 in
  let self := mkGPTAnalyzer 5 0 3600 (Some "/tmp/cache"%string) 86400 in
  let env t := mkEnv t t t (ApiResponds (Return "{}"%string)) WriteOk in
  let run := analyze_code_segment k (env 10%Q) "def test(): pass" "" self ∅ in
  let run' :=
    analyze_code_segment k (env 20%Q) "def test(): pass" ""
      (self_after run) (files_after run) in
  returned run' = returned run /\ self_after run' = self_after run.
Proof.
  intros k self env run run'.
  destruct (analyze_cache_round_trip k (env 10%Q) (env 20%Q)
              "def test(): pass"%string ""%string self ∅
              "/tmp/cache"%string (Return "{}"%string)
              (JObj [ ("ai_score"%string, JFloat 0.5);
                      ("quality_score"%string, JFloat 0.5);
                      ("originality_score"%string, JFloat 0.5);
                      ("execution_score"%string, JFloat 0.5);
                      ("market_value"%string, JFloat 0.5);
                      ("findings"%string,
                       JArr [JStr "No findings available"]);
                      ("recommendations"%string,
                       JArr [JStr "No recommendations available"]) ]))
    as (R1 & Rfresh & _); try reflexivity.
  - vm_compute. discriminate.
  - fold run in R1, Rfresh. fold run' in Rfresh.
    destruct Rfresh as (F1 & F2 & _); [vm_compute; reflexivity |].
    split; [congruence | exact F2].
Defined.

Lemma fresh_analysis_is_record_witness :
  let self := mkGPTAnalyzer 5 5 3600 None 86400 in
  let env := mkEnv 10 10 10 (ApiResponds (Return "{}"%string)) WriteOk in
  analysis_record (_get_fallback_analysis "Rate limit reached").
Proof.
  intros self env.
  apply (fresh_analysis_is_record (secret_of_seed 0) env "a"%string ""%string
           self ∅); reflexivity.
Defined.

End BudgetAndCacheExamples.

(** ** The text that [analyze_code_segment] hands to the JSON parser *)

Section ExtractObject.
Import GptAnalyzer.
Local Open Scope Z_scope.

Lemma find_get (c : ascii) (s : string) :
  0 <= find c s -> String.get (Z.to_nat (find c s)) s = Some c.
Proof.
  induction s as [| a s IH]; cbn [find]; [lia |].
  destruct (Ascii.eqb_spec a c) as [-> | Hne]; [reflexivity |].
  destruct (Z.ltb_spec (find c s) 0) as [Hneg | Hpos]; [lia |].
  intros _. rewrite Z2Nat.inj_add, Nat.add_comm by lia.
  cbn. apply IH. exact Hpos.
Qed.

Lemma rfind_get (c : ascii) (s : string) :
  0 <= rfind c s -> String.get (Z.to_nat (rfind c s)) s = Some c.
Proof.
  induction s as [| a s IH]; cbn [rfind]; [lia |].
  destruct (Z.leb_spec 0 (rfind c s)) as [Hpos | Hneg].
  - intros _. rewrite Z2Nat.inj_add, Nat.add_comm by lia.
    cbn. apply IH. exact Hpos.
  - destruct (Ascii.eqb_spec a c) as [-> | Hne]; [reflexivity | lia].
Qed.

Lemma startswith_get (c : ascii) (s : string) :
  startswith c s = true <-> String.get 0 s = Some c.
Proof.
  destruct s as [| a s]; cbn; [split; discriminate |].
  destruct (Ascii.eqb_spec a c) as [-> | Hne]; split; congruence.
Qed.

Lemma append_cons (a : ascii) (s t : string) :
  (String a s ++ t = String a (s ++ t))%string.
Proof. reflexivity. Qed.

Lemma append_last (s : string) (c : ascii) (t : string) :
  ((s ++ String c "") ++ t = s ++ String c t)%string.
Proof.
  induction s as [| a s IH]; [reflexivity |].
  rewrite !append_cons, IH. reflexivity.
Qed.

Lemma length_append (s t : string) :
  String.length (s ++ t) = (String.length s + String.length t)%nat.
Proof.
  induction s as [| a s IH]; [reflexivity |].
  rewrite append_cons. cbn [String.length]. rewrite IH. reflexivity.
Qed.

Lemma get_append_at (s : string) (c : ascii) (t : string) :
  String.get (String.length s) (s ++ String c t) = Some c.
Proof.
  induction s as [| a s IH]; [reflexivity |].
  rewrite append_cons. cbn [String.length String.get]. exact IH.
Qed.

(** An occurrence bounds the two searches. *)
Lemma get_find (c : ascii) (s : string) :
  forall n, String.get n s = Some c -> 0 <= find c s <= Z.of_nat n.
Proof.
  induction s as [| a s IH]; intros n Hget; [discriminate Hget |].
  cbn [find]. destruct (Ascii.eqb_spec a c) as [-> | Hne]; [lia |].
  destruct n as [| n]; cbn [String.get] in Hget; [congruence |].
  specialize (IH n Hget).
  destruct (Z.ltb_spec (find c s) 0); lia.
Qed.

Lemma get_rfind (c : ascii) (s : string) :
  forall n, String.get n s = Some c -> Z.of_nat n <= rfind c s.
Proof.
  induction s as [| a s IH]; intros n Hget; [discriminate Hget |].
  cbn [rfind]. destruct n as [| n]; cbn [String.get] in Hget.
  - injection Hget as ->.
    destruct (Z.leb_spec 0 (rfind c s)); [lia |].
    rewrite (proj2 (Ascii.eqb_eq c c) eq_refl). lia.
  - specialize (IH n Hget).
    destruct (Z.leb_spec 0 (rfind c s)); lia.
Qed.

(** [find] gives the first occurrence: nothing before it is the
    character. *)
Lemma find_split (c : ascii) (s : string) :
  0 <= find c s ->
  exists before rest,
    s = (before ++ String c rest)%string
    /\ Z.of_nat (String.length before) = find c s
    /\ lacks c before.
Proof.
  induction s as [| a s IH]; cbn [find]; [lia |].
  destruct (Ascii.eqb_spec a c) as [-> | Hne].
  - intros _. exists ""%string, s.
    repeat split. intros n Hget. destruct n; discriminate Hget.
  - destruct (Z.ltb_spec (find c s) 0) as [Hneg | Hpos]; [lia |].
    intros _. destruct (IH Hpos) as (before & rest & -> & Hlen & Hlacks).
    exists (String a before), rest.
    split; [reflexivity |]. split; [cbn [String.length]; lia |].
    intros [| n] Hget; cbn [String.get] in Hget;
      [congruence | exact (Hlacks n Hget)].
Qed.

(** [rfind] gives the last occurrence: nothing after it is the
    character. *)
Lemma rfind_split (c : ascii) (s : string) :
  0 <= rfind c s ->
  exists front after,
    s = (front ++ String c after)%string
    /\ Z.of_nat (String.length front) = rfind c s
    /\ lacks c after.
Proof.
  induction s as [| a s IH]; cbn [rfind]; [lia |].
  destruct (Z.leb_spec 0 (rfind c s)) as [Hpos | Hneg].
  - intros _. destruct (IH Hpos) as (front & after & -> & Hlen & Hlacks).
    exists (String a front), after.
    split; [reflexivity |]. split; [cbn [String.length]; lia | exact Hlacks].
  - destruct (Ascii.eqb_spec a c) as [-> | Hne]; [| lia].
    intros _. exists ""%string, s.
    repeat split. intros n Hget. apply get_rfind in Hget. lia.
Qed.

(** Of two ways to cut the same text, the later cut extends the
    earlier one. *)
Lemma append_prefix (a : string) :
  forall b c d : string,
    (a ++ b = c ++ d)%string ->
    (String.length a <= String.length c)%nat ->
    exists m, c = (a ++ m)%string /\ b = (m ++ d)%string.
Proof.
  induction a as [| x a IH]; intros b c d Heq Hlen.
  - exists c. split; [reflexivity | exact Heq].
  - destruct c as [| y c]; [cbn in Hlen; lia |].
    rewrite !append_cons in Heq. injection Heq as -> Heq.
    cbn [String.length] in Hlen.
    destruct (IH b c d Heq ltac:(lia)) as (m & -> & ->).
    exists m. split; reflexivity.
Qed.

Lemma substring_middle (before text after : string) :
  String.substring (String.length before) (String.length text)
    (before ++ text ++ after) = text.
Proof.
  induction before as [| a before IH]; [| exact IH].
  change ("" ++ text ++ after)%string with (text ++ after)%string.
  cbn [String.length].
  induction text as [| a text IH].
  - destruct after; reflexivity.
  - rewrite append_cons. cbn [String.length String.substring].
    rewrite IH. reflexivity.
Qed.

(** The cut that [extract_object] makes, on a text with an opening
    brace before its last closing brace. *)
Lemma slice_braces (s : string) :
  0 <= find "{" s -> find "{" s < rfind "}" s ->
  exists before middle after,
    s = (before ++ String "{" (middle ++ "}") ++ after)%string
    /\ slice s (find "{" s) (rfind "}" s + 1)
       = String "{" (middle ++ "}")
    /\ lacks "{" before /\ lacks "}" after.
Proof.
  intros Hfind Horder.
  destruct (find_split "{" s Hfind) as (before & rest & Hs & Hstart & Hbefore).
  destruct (rfind_split "}" s ltac:(lia))
    as (front & after & Hs' & Hend & Hafter).
  assert (Hcut : (before ++ String "{" rest = front ++ String "}" after)%string)
    by congruence.
  destruct (append_prefix before _ front _ Hcut ltac:(lia))
    as (m & Hfront & Hrest).
  destruct m as [| y middle].
  { rewrite Hfront, length_append in Hend. cbn [String.length] in Hend. lia. }
  rewrite append_cons in Hrest. injection Hrest as <- Hrest.
  exists before, middle, after.
  assert (Hshape : s = (before ++ String "{" (middle ++ "}") ++ after)%string).
  { rewrite Hs, Hrest, append_cons, append_last. reflexivity. }
  split; [exact Hshape |]. split; [| split; assumption].
  unfold slice.
  replace (Z.to_nat (find "{" s)) with (String.length before) by lia.
  replace (Z.to_nat (rfind "}" s + 1 - find "{" s))
    with (String.length (String "{" (middle ++ "}"))).
  - rewrite Hshape at 1. apply substring_middle.
  - rewrite Hfront, length_append in Hend.
    cbn [String.length] in *. rewrite length_append. cbn [String.length]. lia.
Qed.

Lemma get_append_skip (s t : string) (n : nat) :
  String.get (String.length s + n) (s ++ t) = String.get n t.
Proof.
  induction s as [| a s IH]; [reflexivity |].
  rewrite append_cons. cbn [String.length Nat.add String.get]. exact IH.
Qed.

(** A text with an opening brace that a closing brace follows passes
    the test of [extract_object]. *)
Lemma ordered_braces (s before middle after : string) :
  s = (before ++ String "{" (middle ++ String "}" after))%string ->
  0 <= find "{" s /\ find "{" s < rfind "}" s.
Proof.
  intros ->.
  pose proof (get_append_at before "{" (middle ++ String "}" after)) as Hopen.
  pose proof (get_append_skip before
                (String "{" (middle ++ String "}" after))
                (S (String.length middle))) as Hclose.
  cbn [String.get] in Hclose. rewrite get_append_at in Hclose.
  apply get_find in Hopen. apply get_rfind in Hclose. lia.
Qed.

(** X8.  When [extract_object] returns, the text opens with a brace: it is
    the stripped response itself if that opens with one, and otherwise
    the part of it from the first opening brace to the last closing
    brace, so that no opening brace comes before it and no closing brace
    after it.  When it raises, the error is the [ValueError] of the
    source, and the stripped response does not open with a brace and has
    no opening brace that a closing brace follows. *)
Theorem extract_object_braces (content : string) :
  match extract_object content with
  | Return text =>
      String.get 0 text = Some "{"%char
      /\ (startswith "{" (strip content) = true -> text = strip content)
      /\ (startswith "{" (strip content) = false ->
          (exists n, String.get n text = Some "}"%char
                     /\ String.get (S n) text = None)
          /\ exists before middle after,
               strip content = (before ++ text ++ after)%string
               /\ text = String "{" (middle ++ "}")
               /\ lacks "{" before /\ lacks "}" after)
  | Raise e =>
      e = mkExn ValueError "No valid JSON object found in response"
      /\ startswith "{" (strip content) = false
      /\ (find "{" (strip content) < 0
          \/ rfind "}" (strip content) <= find "{" (strip content))
      /\ (forall before middle after,
            strip content
            <> (before ++ String "{" (middle ++ String "}" after))%string)
  end.
Proof.
  unfold extract_object.
  destruct (startswith "{" (strip content)) eqn:Hstart; cbn [negb].
  - split; [apply startswith_get; exact Hstart |].
    split; [reflexivity | discriminate].
  - destruct (Z.leb_spec 0 (find "{" (strip content))) as [Hf | Hf];
      destruct (Z.ltb_spec (find "{" (strip content))
                           (rfind "}" (strip content))) as [Hr | Hr];
      cbn [andb].
    + destruct (slice_braces (strip content) Hf Hr)
        as (before & middle & after & Hshape & Hslice & Hbefore & Hafter).
      rewrite Hslice. split; [reflexivity |]. split; [discriminate |].
      intros _. split.
      * exists (S (String.length middle)). cbn [String.get].
        split; [apply get_append_at |].
        clear. induction middle as [| a middle IH]; [reflexivity | exact IH].
      * exists before, middle, after. repeat split; assumption.
    + repeat split; try lia.
      intros before middle after Hs.
      destruct (ordered_braces _ _ _ _ Hs). lia.
    + repeat split; try lia.
      intros before middle after Hs.
      destruct (ordered_braces _ _ _ _ Hs). lia.
    + repeat split; try lia.
      intros before middle after Hs.
      destruct (ordered_braces _ _ _ _ Hs). lia.
Qed.

End ExtractObject.

Section ExtractObjectExamples.
Import GptAnalyzer.

Lemma extract_object_braces_witness :
  extract_object "  Here is the analysis: {} Thanks. " = Return "{}"%string
  /\ extract_object "no object here"
     = Raise (mkExn ValueError "No valid JSON object found in response").
Proof.
  split.
  - pose proof (extract_object_braces "  Here is the analysis: {} Thanks. ")
      as P.
    destruct (extract_object "  Here is the analysis: {} Thanks. ")
      as [text | e] eqn:E; vm_compute in E; [congruence | discriminate E].
  - pose proof (extract_object_braces "no object here") as P.
    destruct (extract_object "no object here") as [text | e] eqn:E;
      vm_compute in E; [discriminate E |].
    destruct P as (-> & _). reflexivity.
Defined.

End ExtractObjectExamples.

(** ** [MarketAnalyzer] *)

Section MarketValue.
Import PyHash GptAnalyzer MarketAnalyzer.
Context `{JsonRuntime}.
Local Open Scope Z_scope.

Lemma py_min_le_l (a b : Q) : (py_min a b <= a)%Q.
Proof.
  unfold py_min. destruct (Qltb b a) eqn:E.
  - apply Qltb_true in E. lra.
  - lra.
Qed.

Lemma py_min_le_r (a b : Q) : (py_min a b <= b)%Q.
Proof.
  unfold py_min. destruct (Qltb b a) eqn:E.
  - lra.
  - apply Qltb_false in E. lra.
Qed.

Lemma py_min_id (a b : Q) : (b <= a)%Q -> (py_min a b == b)%Q.
Proof.
  unfold py_min. destruct (Qltb b a) eqn:E; intros Hle.
  - reflexivity.
  - apply Qltb_false in E. lra.
Qed.

(** X9.  [_calculate_market_score] never exceeds 1 and gives 0.5 for
    anything that is not a dictionary; for three float scores in [0,1]
    (a missing one counts 0.5) it is their weighted sum
    0.4 popularity + 0.4 adoption + 0.2 impact, within [0,1]. *)
Theorem market_score_bounds (market_data : JSON) :
  (_calculate_market_score market_data <= 1)%Q
  /\ ((forall fields, market_data <> JObj fields) ->
      _calculate_market_score market_data = 0.5%Q)
  /\ (forall popularity adoption impact,
        dict_get market_data "popularity_score" (JFloat 0.5)
          = Return (JFloat popularity) ->
        dict_get market_data "adoption_score" (JFloat 0.5)
          = Return (JFloat adoption) ->
        dict_get market_data "impact_score" (JFloat 0.5)
          = Return (JFloat impact) ->
        (0 <= popularity <= 1)%Q -> (0 <= adoption <= 1)%Q ->
        (0 <= impact <= 1)%Q ->
        (_calculate_market_score market_data
           == 0.4 * popularity + 0.4 * adoption + 0.2 * impact)%Q
        /\ (0 <= _calculate_market_score market_data <= 1)%Q).
Proof.
  split; [| split].
  - unfold _calculate_market_score, mbind, Outcome_bind, mret, Outcome_ret.
    repeat case_match; simplify_eq; try lra.
    match goal with
    | |- (py_min ?a ?b <= _)%Q => pose proof (py_min_le_l a b); lra
    end.
  - intros Hnot. unfold _calculate_market_score, mbind, Outcome_bind.
    destruct market_data; try reflexivity.
    destruct (Hnot fields). reflexivity.
  - intros p a i Hp Ha Hi Rp Ra Ri.
    unfold _calculate_market_score, mbind, Outcome_bind, mret, Outcome_ret.
    rewrite Hp, Ha, Hi. cbn [py_float].
    assert (Hw : (p * 0.4 + a * 0.4 + i * 0.2 <= 1.0)%Q) by lra.
    rewrite (py_min_id 1.0 _ Hw). split; lra.
Qed.

Lemma market_cache_lookup_events menv self files key (ev : Event) :
  ev ∈ (market_cache_lookup menv self files key).2 ->
  exists cache_file fresh, ev = CacheLookup cache_file fresh.
Proof.
  unfold market_cache_lookup. repeat case_match; cbn [snd]; intros Hin;
    repeat (apply elem_of_cons in Hin as [-> | Hin]; [eauto |]);
    apply elem_of_nil in Hin; destruct Hin.
Qed.

Lemma market_cache_store_events menv self files key result (ev : Event) :
  ev ∈ (market_cache_store menv self files key result).2 ->
  exists cache_file, ev = CacheWrite cache_file.
Proof.
  unfold market_cache_store. repeat case_match; cbn [snd]; intros Hin;
    repeat (apply elem_of_cons in Hin as [-> | Hin]; [eauto |]);
    apply elem_of_nil in Hin; destruct Hin.
Qed.

Lemma set_gpt_analyzer_same (self : MarketAnalyzer) :
  set_gpt_analyzer (gpt_analyzer self) self = self.
Proof. destruct self. reflexivity. Qed.

(** [analyze_market_value] after a miss in its own cache, spelled out
    with what [analyze_market_context] leaves unchanged. *)
Lemma analyze_market_value_miss k menv project_name repo_url self files tr :
  market_cache_lookup menv self files (market_key k project_name repo_url)
    = (Miss, tr) ->
  let run :=
    analyze_market_context k (gpt_env menv) project_name repo_url
      (gpt_analyzer self) files in
  analyze_market_value k menv project_name repo_url self files =
    match returned run ≫= build_market_result with
    | Return result =>
        let stored :=
          market_cache_store menv self (files_after run)
            (market_key k project_name repo_url) result in
        mkMarketRun (Return result) self stored.1
          ((tr ++ trace run) ++ stored.2)
    | Raise e =>
        mkMarketRun (Return MarketAnalyzer._get_fallback_analysis) self
          (files_after run) (tr ++ trace run)
    end.
Proof.
  intros Hl run. unfold analyze_market_value. rewrite Hl. fold run.
  destruct (market_context_unlimited k (gpt_env menv) project_name repo_url
              (gpt_analyzer self) files) as (Hself & _).
  fold run in Hself. rewrite Hself, set_gpt_analyzer_same.
  destruct (returned run ≫= build_market_result); [| reflexivity].
  cbv zeta. destruct (market_cache_store _ _ _ _ _). reflexivity.
Qed.

(** X10.  [analyze_market_value] never touches the rate limiter: whatever it
    does, the analyzer and its [GPTAnalyzer] are afterwards as they were,
    no admission test is made, and when neither cache has a fresh entry
    the service is called, whatever the counter says. *)
Theorem market_value_ignores_budget k menv project_name repo_url self files :
  let run := analyze_market_value k menv project_name repo_url self files in
  market_self_after run = self
  /\ (forall admitted, RateLimitCheck admitted ∉ market_trace run)
  /\ ((market_cache_lookup menv self files
         (market_key k project_name repo_url)).1 = Miss ->
      (cache_lookup (gpt_env menv) (gpt_analyzer self) files
         (market_key k project_name repo_url)).1 = Miss ->
      ExternalCall ∈ market_trace run).
Proof.
  intros run. subst run.
  pose proof (market_cache_lookup_events menv self files
                (market_key k project_name repo_url)) as Hev.
  destruct (market_context_unlimited k (gpt_env menv) project_name repo_url
              (gpt_analyzer self) files) as (_ & Hno & Hcall).
  destruct (market_cache_lookup menv self files
              (market_key k project_name repo_url)) as [[v | | e] tr] eqn:Hl.
  - unfold analyze_market_value. rewrite Hl. cbn.
    repeat split; try discriminate.
    intros admitted Hin. absurd_event Hin Hev.
  - rewrite (analyze_market_value_miss _ _ _ _ _ _ _ Hl). cbn [fst snd] in *.
    destruct (returned _ ≫= build_market_result) as [result | e];
      cbn [market_self_after market_trace].
    + pose proof (market_cache_store_events menv self
                    (files_after
                       (analyze_market_context k (gpt_env menv) project_name
                          repo_url (gpt_analyzer self) files))
                    (market_key k project_name repo_url) result) as Hst.
      split; [reflexivity |]. split.
      * intros admitted Hin.
        apply elem_of_app in Hin as [Hin | Hin].
        -- apply elem_of_app in Hin as [Hin | Hin];
             [absurd_event Hin Hev | exact (Hno admitted Hin)].
        -- apply Hst in Hin as (? & Hin). discriminate Hin.
      * intros _ Hmiss. apply elem_of_app; left. apply elem_of_app; right.
        apply Hcall. exact Hmiss.
    + split; [reflexivity |]. split.
      * intros admitted Hin.
        apply elem_of_app in Hin as [Hin | Hin];
          [absurd_event Hin Hev | exact (Hno admitted Hin)].
      * intros _ Hmiss. apply elem_of_app; right. apply Hcall. exact Hmiss.
  - unfold analyze_market_value. rewrite Hl. cbn.
    repeat split; try discriminate.
    intros admitted Hin. absurd_event Hin Hev.
Qed.

(** X11.  [analyze_market_value] raises exactly when the reading of its own
    cache file does: a failure inside [analyze_market_context], also an
    unreadable cache file of the [GPTAnalyzer], ends in the fallback
    record. *)
Theorem market_value_raises_iff k menv project_name repo_url self files e :
  market_returned (analyze_market_value k menv project_name repo_url self files)
    = Raise e
  <-> (market_cache_lookup menv self files
         (market_key k project_name repo_url)).1 = ReadError e.
Proof.
  destruct (market_cache_lookup menv self files
              (market_key k project_name repo_url)) as [[v | | e'] tr] eqn:Hl.
  - unfold analyze_market_value. rewrite Hl. cbn. split; discriminate.
  - rewrite (analyze_market_value_miss _ _ _ _ _ _ _ Hl).
    destruct (returned _ ≫= build_market_result); cbn; split; discriminate.
  - unfold analyze_market_value. rewrite Hl. cbn. split; congruence.
Qed.

(** X12.  Every record that [analyze_market_value] does not take from its own
    cache carries a market score of at most 1 and an [is_popular] flag
    that is true exactly from a score of 0.8 on, which is the test of
    [should_boost_score]; this holds for the fallback record too. *)
Theorem market_value_record k menv project_name repo_url self files v :
  (market_cache_lookup menv self files
     (market_key k project_name repo_url)).1 = Miss ->
  market_returned (analyze_market_value k menv project_name repo_url self files)
    = Return v ->
  exists market_score,
    dict_get v "market_score" JNull = Return (JFloat market_score)
    /\ (market_score <= 1)%Q
    /\ dict_get v "is_popular" JNull
       = Return (JBool (should_boost_score market_score)).
Proof.
  destruct (market_cache_lookup menv self files
              (market_key k project_name repo_url)) as [l tr] eqn:Hl.
  cbn [fst]. intros ->.
  rewrite (analyze_market_value_miss _ _ _ _ _ _ _ Hl).
  destruct (returned _ ≫= build_market_result) as [result | e] eqn:Hb;
    cbn [market_returned]; intros [= <-].
  - unfold mbind, Outcome_bind in Hb.
    destruct (returned _) as [market_data | e]; [| discriminate Hb].
    unfold build_market_result, mbind, Outcome_bind, mret, Outcome_ret in Hb.
    repeat case_match; try discriminate Hb. injection Hb as <-.
    exists (_calculate_market_score market_data).
    split; [reflexivity |]. split; [| reflexivity].
    apply market_score_bounds.
  - exists 0.5%Q. split; [reflexivity |]. split; [lra | reflexivity].
Qed.

(** The score that [_calculate_market_score] gives to the fallback
    record of [analyze_market_context]. *)
Lemma market_failed_score (msg : string) :
  _calculate_market_score (market_failed msg)
  = py_min 1.0 (0.5 * 0.4 + 0.5 * 0.4 + 0.5 * 0.2)%Q.
Proof. reflexivity. Qed.

Lemma build_market_result_failed (msg : string) :
  build_market_result (market_failed msg) = Return (degraded_market_record msg).
Proof.
  unfold build_market_result, degraded_market_record.
  rewrite market_failed_score. reflexivity.
Qed.

(** X13.  A failed market research is cached.  When neither cache has a fresh
    entry and the request of [analyze_market_context] fails,
    [analyze_market_value] turns the fallback record of the GPT layer
    into a record with the neutral market score 0.5 and writes it to its
    own cache; until the TTL has passed, a later call returns that
    record from the cache and does not call the service again. *)
Theorem market_failure_is_cached k menv menv' project_name repo_url
    self files dir e :
  market_cache_dir self = Some dir ->
  (market_cache_lookup menv self files
     (market_key k project_name repo_url)).1 = Miss ->
  (cache_lookup (gpt_env menv) (gpt_analyzer self) files
     (market_key k project_name repo_url)).1 = Miss ->
  request_json (gpt_env menv) = Raise e ->
  market_cache_write menv = WriteOk ->
  let run := analyze_market_value k menv project_name repo_url self files in
  let run' :=
    analyze_market_value k menv' project_name repo_url
      (market_self_after run) (market_files_after run) in
  let cache_file :=
    path_join dir (market_key k project_name repo_url ++ ".json") in
  market_returned run = Return (degraded_market_record (exn_msg e))
  /\ (_calculate_market_score (market_failed (exn_msg e)) == 0.5)%Q
  /\ market_files_after run !! cache_file
     = Some (mkCacheFile (market_clock_write menv)
               (ReadJson (degraded_market_record (exn_msg e))))
  /\ ((market_clock menv' - market_clock_write menv
        < inject_Z (market_cache_ttl self))%Q ->
      market_returned run' = Return (degraded_market_record (exn_msg e))
      /\ ExternalCall ∉ market_trace run').
Proof.
  intros Hdir Hmiss Hgmiss Hreq Hw run run' cache_file.
  destruct (market_cache_lookup menv self files
              (market_key k project_name repo_url)) as [l tr] eqn:Hl.
  cbn [fst] in Hmiss. subst l.
  assert (Hgpt : analyze_market_context k (gpt_env menv) project_name repo_url
                   (gpt_analyzer self) files
                 = mkRun (Return (market_failed (exn_msg e)))
                     (gpt_analyzer self) files
                     ((cache_lookup (gpt_env menv) (gpt_analyzer self) files
                         (market_key k project_name repo_url)).2
                      ++ [ExternalCall])).
  { unfold analyze_market_context.
    destruct (cache_lookup (gpt_env menv) (gpt_analyzer self) files
                (market_key k project_name repo_url)) as [l' tr'].
    cbn [fst snd] in *. subst l'. rewrite Hreq. reflexivity. }
  assert (Hrun : run = mkMarketRun
                   (Return (degraded_market_record (exn_msg e))) self
                   (<[cache_file :=
                        mkCacheFile (market_clock_write menv)
                          (ReadJson (degraded_market_record (exn_msg e)))]>
                      files)
                   ((tr ++ (cache_lookup (gpt_env menv) (gpt_analyzer self)
                              files (market_key k project_name repo_url)).2
                        ++ [ExternalCall]) ++ [CacheWrite cache_file])).
  { subst run. rewrite (analyze_market_value_miss _ _ _ _ _ _ _ Hl), Hgpt.
    cbn [returned files_after trace mbind Outcome_bind].
    rewrite build_market_result_failed.
    unfold market_cache_store. rewrite Hdir, Hw. reflexivity. }
  subst run'. rewrite Hrun.
  cbn [market_returned market_files_after market_self_after].
  split; [reflexivity |].
  split; [rewrite market_failed_score; vm_compute; reflexivity |].
  split; [apply lookup_insert_eq |].
  intros Hage.
  unfold analyze_market_value, market_cache_lookup. rewrite Hdir.
  fold cache_file. rewrite lookup_insert_eq. cbn [st_mtime on_read].
  apply Qltb_true in Hage. rewrite Hage. cbn [market_returned market_trace].
  split; [reflexivity |].
  intros Hin. apply list_elem_of_singleton in Hin. discriminate Hin.
Qed.


End MarketValue.

Section MarketValueExamples.
Import PyHash GptAnalyzer MarketAnalyzer.
Local Open Scope Z_scope.
Local Existing Instance demo_runtime.

Lemma market_score_bounds_witness :
  let market_data :=
    JObj [ ("popularity_score"%string, JFloat 0.9);
           ("adoption_score"%string, JFloat 0.8) ] in
  (_calculate_market_score market_data == 0.78)%Q.
Proof.
  intros market_data.
  destruct (market_score_bounds market_data) as (_ & _ & Hsum).
  assert (Hp : (0 <= 0.9 <= 1)%Q) by lra.
  assert (Ha : (0 <= 0.8 <= 1)%Q) by lra.
  assert (Hi : (0 <= 0.5 <= 1)%Q) by lra.
  destruct (Hsum 0.9%Q 0.8%Q 0.5%Q eq_refl eq_refl eq_refl Hp Ha Hi)
    as [Heq _].
  rewrite Heq. reflexivity.
Defined.

Lemma market_value_ignores_budget_witness :
  let gpt := mkGPTAnalyzer 5 5 3600 None 86400 in
  let self := mkMarketAnalyzer gpt None 86400 1000 0.5 in
  let env := mkEnv 10 10 10 (ApiResponds (Return "{}"%string)) WriteOk in
  let menv := mkMarketEnv 10 10 WriteOk env in
  ExternalCall ∈
    market_trace (analyze_market_value (secret_of_seed 0) menv "rig"
                    "https://github.com/0xPlaygrounds/rig" self ∅).
Proof.
  intros gpt self env menv.
  refine (proj2 (proj2 (market_value_ignores_budget (secret_of_seed 0) menv
                          "rig"%string
                          "https://github.com/0xPlaygrounds/rig"%string
                          self ∅)) _ _); reflexivity.
Defined.

Lemma market_value_record_witness :
  let gpt := mkGPTAnalyzer 5 0 3600 None 86400 in
  let self := mkMarketAnalyzer gpt None 86400 1000 0.5 in
  let env := mkEnv 10 10 10 (ApiResponds (Return "{}"%string)) WriteOk in
  let menv := mkMarketEnv 10 10 WriteOk env in
  exists v market_score,
    market_returned (analyze_market_value (secret_of_seed 0) menv "rig"
                       "https://github.com/0xPlaygrounds/rig" self ∅)
      = Return v
    /\ dict_get v "market_score" JNull = Return (JFloat market_score)
    /\ (market_score <= 1)%Q.
Proof.
  intros gpt self env menv.
  destruct (market_returned
              (analyze_market_value (secret_of_seed 0) menv "rig"
                 "https://github.com/0xPlaygrounds/rig" self ∅))
    as [v | e] eqn:Hret; [| vm_compute in Hret; discriminate Hret].
  destruct (market_value_record (secret_of_seed 0) menv "rig"%string
              "https://github.com/0xPlaygrounds/rig"%string self ∅ v
              eq_refl Hret) as (score & Hs & Hle & _).
  exists v, score. repeat split; assumption.
Defined.

Lemma market_failure_is_cached_witness :
  let k := secret_of_seed 0 in
  let gpt := mkGPTAnalyzer 5 0 3600 (Some "/tmp/cache"%string) 86400 in
  let self :=
    mkMarketAnalyzer gpt (Some "/tmp/cache/market"%string) 86400 1000 0.5 in
  let env := mkEnv 10 10 10 (ApiRaises (mkExn APIError "API Error")) WriteOk in
  let menv t := mkMarketEnv t t WriteOk env in
  let run :=
    analyze_market_value k (menv 10%Q) "rig"
      "https://github.com/0xPlaygrounds/rig" self ∅ in
  let run' :=
    analyze_market_value k (menv 3600%Q) "rig"
      "https://github.com/0xPlaygrounds/rig"
      (market_self_after run) (market_files_after run) in
  market_returned run' = Return (degraded_market_record "API Error")
  /\ ExternalCall ∉ market_trace run'.
Proof.
  intros k gpt self env menv run run'.
  destruct (market_failure_is_cached k (menv 10%Q) (menv 3600%Q) "rig"%string
              "https://github.com/0xPlaygrounds/rig"%string self ∅
              "/tmp/cache/market"%string (mkExn APIError "API Error"))
    as (_ & _ & _ & Hlater); try reflexivity.
  apply Hlater. vm_compute. reflexivity.
Defined.


End MarketValueExamples.

(** ** The execution verifier *)

Section ExecutionScore.
Context `{TextTools}.
Import ExecutionVerifier.

Lemma for_each_cons {A B : Type} (body : A -> B -> Outcome A) (acc : A)
    (item : B) (items : list B) :
  for_each body acc (item :: items)
  = match body acc item with
    | Return acc => for_each body acc items
    | Raise e => Raise e
    end.
Proof. reflexivity. Qed.

Lemma Qdiv_max_unit (v t : Z) :
  (0 <= v <= t)%Z -> 0 <= inject_Z v / inject_Z (Z.max t 1) <= 1.
Proof.
  intros Hv.
  assert (Hm : (1 <= Z.max t 1)%Z) by lia.
  assert (Hvm : (v <= Z.max t 1)%Z) by lia.
  destruct (Z.max t 1) as [| p | p]; try lia.
  unfold Qdiv, Qinv, Qmult, Qle, inject_Z; cbn. lia.
Qed.

Lemma Qdiv_self_max (s : Q) (t : Z) :
  (0 <= t)%Z -> s == inject_Z t ->
  s / inject_Z (Z.max t 1) == (if (0 <? t)%Z then 1 else 0).
Proof.
  intros Ht Hs. rewrite Hs.
  destruct (0 <? t)%Z eqn:E.
  - apply Z.ltb_lt in E. replace (Z.max t 1) with t by lia.
    apply Qmult_inv_r. unfold Qeq, inject_Z; cbn. lia.
  - apply Z.ltb_ge in E. replace t with 0%Z by lia. reflexivity.
Qed.

Lemma count_check_step (b : bool) (s : Q) (t : Z) :
  s == inject_Z t ->
  (count_check b (s, t)).1 == inject_Z (count_check b (s, t)).2
  /\ (count_check b (s, t)).2 = (if b then t + 1 else t)%Z.
Proof.
  intros Hs. destruct b; cbn; split; try reflexivity; try assumption.
  rewrite inject_Z_plus, Hs. reflexivity.
Qed.

Lemma check_implementation_file_step (file : SourceFile) (s : Q) (t : Z)
    (s' : Q) (t' : Z) :
  check_implementation_file (s, t) file = Return (s', t') ->
  s == inject_Z t ->
  s' == inject_Z t' /\ (t <= t')%Z
  /\ ((t < t')%Z ->
      exists content, implementation_file file = true
        /\ file_read file = Return content /\ shows_ai_code content = true)
  /\ (t' = t -> forall content, implementation_file file = true ->
        file_read file = Return content -> shows_ai_code content = false).
Proof.
  unfold check_implementation_file, implementation_file.
  intros Hstep Hs.
  destruct (endswith_any _ (file_name file)) eqn:Hext;
    cbv beta iota delta [negb] in Hstep.
  2:{ injection Hstep as <- <-. repeat split; try assumption; try lia;
        intros _ content Hfalse; discriminate Hfalse. }
  destruct (file_read file) as [content | e] eqn:Hread;
    cbv beta iota delta [mbind Outcome_bind] in Hstep; [| discriminate Hstep].
  unfold shows_ai_code.
  destruct (_check_model_init content) eqn:E1,
    (_check_inference_methods content) eqn:E2,
    (_check_ai_error_handling content) eqn:E3,
    (_check_model_config content) eqn:E4;
    cbn in Hstep; injection Hstep as <- <-;
    (split; [rewrite ?inject_Z_plus, Hs; cbn; ring |]);
    (split; [lia |]);
    (split; [intros Hlt; try lia; exists content;
             rewrite E1, E2, E3, E4; repeat split; reflexivity
            | intros Heq; try lia; intros c _ Hc; injection Hc as <-;
              rewrite E1, E2, E3, E4; reflexivity]).
Qed.

Lemma check_implementation_loop (files : list SourceFile) :
  forall (s : Q) (t : Z) (s' : Q) (t' : Z),
    for_each check_implementation_file (s, t) files = Return (s', t') ->
    s == inject_Z t ->
    s' == inject_Z t' /\ (t <= t')%Z
    /\ ((t < t')%Z ->
        exists file content, file ∈ files /\ implementation_file file = true
          /\ file_read file = Return content
          /\ shows_ai_code content = true)
    /\ (t' = t -> forall file content, file ∈ files ->
          implementation_file file = true ->
          file_read file = Return content -> shows_ai_code content = false).
Proof.
  induction files as [| file files IH]; intros s t s' t' Hloop Hs.
  - cbn in Hloop. injection Hloop as <- <-.
    repeat split; try assumption; try lia.
    intros _ file content Hin. inversion Hin.
  - rewrite for_each_cons in Hloop.
    destruct (check_implementation_file (s, t) file) as [[s1 t1] | e]
      eqn:Hstep; [| discriminate Hloop].
    destruct (check_implementation_file_step _ _ _ _ _ Hstep Hs)
      as (Hs1 & Hle1 & Hsome1 & Hnone1).
    destruct (IH _ _ _ _ Hloop Hs1) as (Hs' & Hle & Hsome & Hnone).
    split; [exact Hs' |]. split; [lia |]. split.
    + intros Hlt.
      destruct (Z.eq_dec t1 t) as [-> | Hne].
      * destruct (Hsome Hlt) as (f & c & Hin & Hrest).
        exists f, c. split; [right; exact Hin | exact Hrest].
      * destruct Hsome1 as (c & Hrest); [lia |].
        exists file, c. split; [left | exact Hrest].
    + intros -> f c Hin Hext Hread.
      assert (t1 = t) as -> by lia.
      apply elem_of_cons in Hin as [-> | Hin].
      * exact (Hnone1 eq_refl c Hext Hread).
      * exact (Hnone eq_refl f c Hin Hext Hread).
Qed.

Lemma check_implementation_counters (files : list SourceFile) (x : Q) :
  _check_implementation files = Return x ->
  exists (s : Q) (t : Z),
    for_each check_implementation_file (0.0, 0%Z) files = Return (s, t)
    /\ x == (if (0 <? t)%Z then 1 else 0).
Proof.
  unfold _check_implementation. intros Hret.
  destruct (for_each check_implementation_file (0.0, 0%Z) files)
    as [[s t] | e] eqn:Hloop; cbn in Hret; [| discriminate Hret].
  injection Hret as <-. exists s, t. split; [reflexivity |].
  assert (H0 : 0.0 == inject_Z 0) by reflexivity.
  destruct (check_implementation_loop files _ _ _ _ Hloop H0)
    as (Hs & Hle & _).
  apply Qdiv_self_max; assumption.
Qed.

Lemma check_implementation_values (files : list SourceFile) (x : Q) :
  _check_implementation files = Return x -> x == 1 \/ x == 0.
Proof.
  intros Hret.
  destruct (check_implementation_counters files x Hret) as (s & t & _ & Hx).
  destruct (0 <? t)%Z; [left | right]; exact Hx.
Qed.

(** X15: the implementation score of the execution verifier is all or
    nothing.  Whenever [_check_implementation] returns, the value is 1 or
    0: it is 1 as soon as one Python or Rust file passes one of the four
    checks, however many files and checks fail, and 0 only when no such
    file passes any check. *)
Theorem implementation_score_all_or_nothing (files : list SourceFile)
    (x : Q) :
  _check_implementation files = Return x ->
  (x == 1
   /\ exists file content, file ∈ files /\ implementation_file file = true
        /\ file_read file = Return content /\ shows_ai_code content = true)
  \/ (x == 0
      /\ forall file content, file ∈ files ->
           implementation_file file = true ->
           file_read file = Return content -> shows_ai_code content = false).
Proof.
  intros Hret.
  destruct (check_implementation_counters files x Hret)
    as (s & t & Hloop & Hx).
  assert (H0 : 0.0 == inject_Z 0) by reflexivity.
  destruct (check_implementation_loop files _ _ _ _ Hloop H0)
    as (_ & Hle & Hsome & Hnone).
  destruct (0 <? t)%Z eqn:E.
  - left. split; [exact Hx |]. apply Hsome. apply Z.ltb_lt. exact E.
  - right. split; [exact Hx |]. apply Hnone. apply Z.ltb_ge in E. lia.
Qed.

Lemma check_syntax_loop (files : list SourceFile) :
  forall (v t v' t' : Z),
    for_each check_syntax_file (v, t) files = Return (v', t') ->
    (0 <= v <= t)%Z ->
    (0 <= v' <= t')%Z
    /\ ((forall file, file ∈ files -> endswith ".py" (file_name file) = false)
        -> v' = v /\ t' = t).
Proof.
  induction files as [| file files IH]; intros v t v' t' Hloop Hv.
  - cbn in Hloop. injection Hloop as <- <-. split; [lia | intros _; split; reflexivity].
  - rewrite for_each_cons in Hloop.
    destruct (check_syntax_file (v, t) file) as [[v1 t1] | e] eqn:Hstep;
      [| discriminate Hloop].
    assert (Hstep1 : (0 <= v1 <= t1)%Z
              /\ (endswith ".py" (file_name file) = false -> v1 = v /\ t1 = t)).
    { unfold check_syntax_file in Hstep.
      destruct (endswith ".py" (file_name file)); cbn in Hstep.
      - destruct (file_read file) as [content | e]; [| discriminate Hstep].
        destruct (ast_parse content); try discriminate Hstep;
          injection Hstep as <- <-; (split; [lia | intros Hext; discriminate Hext]).
      - injection Hstep as <- <-. split; [lia | intros _; split; reflexivity]. }
    destruct Hstep1 as [Hv1 Hsame1].
    destruct (IH _ _ _ _ Hloop Hv1) as [Hv' Hsame].
    split; [exact Hv' |]. intros Hnone.
    destruct Hsame1 as [-> ->]; [apply Hnone; left |].
    apply Hsame. intros f Hin. apply Hnone. right. exact Hin.
Qed.

Lemma check_syntax_range (files : list SourceFile) (x : Q) :
  _check_syntax files = Return x ->
  0 <= x <= 1
  /\ ((forall file, file ∈ files -> endswith ".py" (file_name file) = false)
      -> x == 0).
Proof.
  unfold _check_syntax. intros Hret.
  destruct (for_each check_syntax_file (0%Z, 0%Z) files) as [[v t] | e]
    eqn:Hloop; cbn in Hret; [| discriminate Hret].
  injection Hret as <-.
  destruct (check_syntax_loop files _ _ _ _ Hloop ltac:(lia)) as [Hv Hsame].
  split; [apply Qdiv_max_unit; exact Hv |].
  intros Hnone. destruct (Hsame Hnone) as [-> ->]. reflexivity.
Qed.

Lemma verify_execution_parts (files : list SourceFile) (x : Q) :
  verify_execution files = Return x ->
  exists syntax_score implementation_score,
    _check_syntax files = Return syntax_score
    /\ _check_implementation files = Return implementation_score
    /\ x = syntax_score * 0.25 + implementation_score * 0.65
           + _check_dependencies * 0.1.
Proof.
  unfold verify_execution. intros Hret.
  destruct (_check_syntax files) as [s | e]; cbn in Hret;
    [| discriminate Hret].
  destruct (_check_implementation files) as [i | e]; cbn in Hret;
    [| discriminate Hret].
  injection Hret as <-. exists s, i. repeat split.
Qed.

(** X16: the execution score is never zero and never in the middle.
    Whenever [verify_execution] returns, the score lies between 0.05 and
    1, and outside the open interval from 0.3 to 0.7: the constant
    dependency score keeps it off zero, and the all-or-nothing
    implementation score leaves the gap. *)
Theorem execution_score_range (files : list SourceFile) (x : Q) :
  verify_execution files = Return x ->
  0.05 <= x <= 1 /\ (x <= 0.3 \/ 0.7 <= x).
Proof.
  intros Hret.
  destruct (verify_execution_parts files x Hret) as (s & i & Hs & Hi & ->).
  destruct (check_syntax_range files s Hs) as [Hrange _].
  unfold _check_dependencies.
  destruct (check_implementation_values files i Hi) as [Hi1 | Hi0].
  - rewrite Hi1. split; [lra | right; lra].
  - rewrite Hi0. split; [lra | left; lra].
Qed.

(** X17: a repository without Python files is capped.  The syntax score
    only counts [.py] files, so when no file name ends in [.py] it is 0
    and the execution score is the implementation score, which is 0 or
    1, times 0.65 plus the dependency term 0.5 * 0.1, whatever the Rust
    sources contain; it never exceeds 0.75. *)
Theorem execution_score_without_python (files : list SourceFile) (x : Q) :
  (forall file, file ∈ files -> endswith ".py" (file_name file) = false) ->
  verify_execution files = Return x ->
  exists syntax_score implementation_score,
    _check_syntax files = Return syntax_score
    /\ syntax_score == 0
    /\ _check_implementation files = Return implementation_score
    /\ (implementation_score == 0 \/ implementation_score == 1)
    /\ x == implementation_score * 0.65 + 0.5 * 0.1
    /\ x <= 0.75.
Proof.
  intros Hnone Hret.
  destruct (verify_execution_parts files x Hret) as (s & i & Hs & Hi & ->).
  destruct (check_syntax_range files s Hs) as [_ Hzero].
  specialize (Hzero Hnone).
  exists s, i. split; [exact Hs |]. split; [exact Hzero |].
  split; [exact Hi |]. unfold _check_dependencies. rewrite Hzero.
  destruct (check_implementation_values files i Hi) as [Hi1 | Hi0].
  - split; [right; exact Hi1 |]. rewrite Hi1. split; [ring | lra].
  - split; [left; exact Hi0 |]. rewrite Hi0. split; [ring | lra].
Qed.

Lemma for_each_returns {A B : Type} (ok : B -> Prop)
    (body : A -> B -> Outcome A) (items : list B) :
  (forall acc item, item ∈ items ->
     (exists acc', body acc item = Return acc') <-> ok item) ->
  forall acc,
    (exists r, for_each body acc items = Return r)
    <-> (forall item, item ∈ items -> ok item).
Proof.
  induction items as [| item items IH]; intros Hbody acc.
  - split; [intros _ item Hin; inversion Hin | intros _; exists acc; reflexivity].
  - rewrite for_each_cons.
    assert (Htail : forall acc item, item ∈ items ->
              (exists acc', body acc item = Return acc') <-> ok item).
    { intros a i Hin. apply Hbody. right. exact Hin. }
    specialize (IH Htail).
    pose proof (Hbody acc item ltac:(left)) as Hhead.
    destruct (body acc item) as [acc1 | e].
    + rewrite IH. split.
      * intros Hall i Hin. apply elem_of_cons in Hin as [-> | Hin];
          [apply Hhead; exists acc1; reflexivity | apply Hall; exact Hin].
      * intros Hall i Hin. apply Hall. right. exact Hin.
    + split.
      * intros [r Hr]. discriminate Hr.
      * intros Hall. destruct Hhead as [_ Hhead].
        destruct (Hhead (Hall item ltac:(left))) as [acc' Hacc'].
        discriminate Hacc'.
Qed.

Lemma python_file_is_implementation_file (file : SourceFile) :
  endswith ".py" (file_name file) = true -> implementation_file file = true.
Proof.
  unfold implementation_file, endswith_any. cbn [existsb].
  intros ->. reflexivity.
Qed.

Lemma check_syntax_returns (files : list SourceFile) :
  (exists x, _check_syntax files = Return x)
  <-> (forall file, file ∈ files -> endswith ".py" (file_name file) = true ->
         exists content, file_read file = Return content
           /\ forall e, ast_parse content <> ParseRaises e).
Proof.
  unfold _check_syntax.
  rewrite <- (for_each_returns
                (fun file => endswith ".py" (file_name file) = true ->
                   exists content, file_read file = Return content
                     /\ forall e, ast_parse content <> ParseRaises e)
                check_syntax_file files) with (acc := (0%Z, 0%Z)).
  - split.
    + intros [x Hx].
      destruct (for_each check_syntax_file (0%Z, 0%Z) files) as [r | e];
        [exists r; reflexivity | discriminate Hx].
    + intros [[v t] ->]. eexists. reflexivity.
  - intros [v t] file _. unfold check_syntax_file.
    destruct (endswith ".py" (file_name file)); cbn [negb].
    2:{ split; [intros _ Hext; discriminate Hext | intros _; eexists; reflexivity]. }
    destruct (file_read file) as [content | e].
    2:{ split; [intros [a Ha]; discriminate Ha |].
        intros Hok. destruct (Hok eq_refl) as (c & Hc & _). discriminate Hc. }
    destruct (ast_parse content) as [| | e] eqn:Hparse.
    + split; [| intros _; eexists; reflexivity].
      intros _ _. exists content. split; [reflexivity |].
      rewrite Hparse. discriminate.
    + split; [| intros _; eexists; reflexivity].
      intros _ _. exists content. split; [reflexivity |].
      rewrite Hparse. discriminate.
    + split; [intros [a Ha]; discriminate Ha |].
      intros Hok. destruct (Hok eq_refl) as (c & Hc & Hne).
      injection Hc as <-. destruct (Hne e Hparse).
Qed.

Lemma check_implementation_returns (files : list SourceFile) :
  (exists x, _check_implementation files = Return x)
  <-> (forall file, file ∈ files -> implementation_file file = true ->
         exists content, file_read file = Return content).
Proof.
  unfold _check_implementation.
  rewrite <- (for_each_returns
                (fun file => implementation_file file = true ->
                   exists content, file_read file = Return content)
                check_implementation_file files) with (acc := (0.0, 0%Z)).
  - split.
    + intros [x Hx].
      destruct (for_each check_implementation_file (0.0, 0%Z) files)
        as [r | e]; [exists r; reflexivity | discriminate Hx].
    + intros [[v t] ->]. eexists. reflexivity.
  - intros [v t] file _. unfold check_implementation_file, implementation_file.
    destruct (endswith_any _ (file_name file)); cbn [negb].
    2:{ split; [intros _ Hext; discriminate Hext | intros _; eexists; reflexivity]. }
    destruct (file_read file) as [content | e].
    + split; [intros _ _; exists content; reflexivity |].
      intros _. eexists. reflexivity.
    + split; [intros [a Ha]; discriminate Ha |].
      intros Hok. destruct (Hok eq_refl) as (c & Hc). discriminate Hc.
Qed.

(** X18: when the execution verifier returns at all.  [verify_execution]
    returns a score exactly when every Python and Rust file of the
    repository can be read and [ast.parse] raises nothing other than
    [SyntaxError] on the Python files; one unreadable source file makes
    the whole verification raise. *)
Theorem verify_execution_returns_iff (files : list SourceFile) :
  (exists x, verify_execution files = Return x) <-> verifiable files.
Proof.
  unfold verifiable. split.
  - intros [x Hx].
    destruct (verify_execution_parts files x Hx) as (s & i & Hs & Hi & _).
    pose proof (proj1 (check_syntax_returns files) (ex_intro _ s Hs)) as Hsyn.
    pose proof (proj1 (check_implementation_returns files) (ex_intro _ i Hi))
      as Himp.
    intros file Hin Hext. destruct (Himp file Hin Hext) as [content Hread].
    exists content. split; [exact Hread |].
    intros Hpy. destruct (Hsyn file Hin Hpy) as (c & Hc & Hne).
    rewrite Hread in Hc. injection Hc as <-. exact Hne.
  - intros Hok.
    destruct (proj2 (check_syntax_returns files)) as [s Hs].
    { intros file Hin Hpy.
      destruct (Hok file Hin (python_file_is_implementation_file file Hpy))
        as (c & Hc & Hne).
      exists c. split; [exact Hc | exact (Hne Hpy)]. }
    destruct (proj2 (check_implementation_returns files)) as [i Hi].
    { intros file Hin Hext. destruct (Hok file Hin Hext) as (c & Hc & _).
      exists c. exact Hc. }
    unfold verify_execution. rewrite Hs, Hi. eexists. reflexivity.
Qed.

(** X19: the verifier feeds the aggregation.  In an analysis result whose
    execution score is a value returned by [verify_execution], a base
    score is always collected, so with a market value of 0.8 or more the
    overall score, in the result and in the report, is at least 0.5: the
    branch of the aggregation without base scores cannot be reached
    through the verifier. *)
Theorem verified_execution_floor (files : list SourceFile)
    (r : CodeAnalyzer.AnalysisResult) :
  verify_execution files = Return (CodeAnalyzer.execution_score r) ->
  0.8 <= CodeAnalyzer.market_value_score r ->
  some_base_score_positive r
  /\ 0.5 <= CodeAnalyzer.calculate_overall_score r
  /\ 0.5 <= ReportGenerator.overall_score (ReportGenerator.generate_summary r).
Proof.
  intros Hret Hm.
  destruct (verify_execution_parts files _ Hret) as (s & i & Hs & Hi & Hx).
  destruct (check_syntax_range files s Hs) as [Hrange _].
  assert (Hpos : 0 < CodeAnalyzer.execution_score r).
  { rewrite Hx. unfold _check_dependencies.
    destruct (check_implementation_values files i Hi) as [Hi1 | Hi0];
      [rewrite Hi1 | rewrite Hi0]; lra. }
  assert (Hsome : some_base_score_positive r).
  { unfold some_base_score_positive. tauto. }
  split; [exact Hsome |].
  rewrite generate_summary_score, (floored_score r Hsome Hm).
  pose proof (py_max_ge_r (normalized_base r * 0.7)
                (0.5 - CodeAnalyzer.market_value_score r * 0.3)).
  split; lra.
Qed.

End ExecutionScore.

Section ExecutionScoreExamples.
Local Existing Instance demo_tools.
Import ExecutionVerifier.
Local Open Scope string_scope.

Lemma implementation_score_all_or_nothing_witness :
  _check_implementation rust_project = Return 1.0
  /\ (1.0 == 1
      \/ forall file content, file ∈ rust_project ->
           implementation_file file = true ->
           file_read file = Return content -> shows_ai_code content = false).
Proof.
  assert (Hret : _check_implementation rust_project = Return 1.0)
    by (vm_compute; reflexivity).
  split; [exact Hret |].
  destruct (implementation_score_all_or_nothing rust_project 1.0 Hret)
    as [[H1 _] | [_ H0]]; [left; exact H1 | right; exact H0].
Defined.

Lemma execution_score_range_witness :
  exists x, verify_execution rust_project = Return x
    /\ 0.05 <= x <= 1 /\ (x <= 0.3 \/ 0.7 <= x).
Proof.
  assert (Hret : verify_execution rust_project = Return 0.7000000)
    by (vm_compute; reflexivity).
  exists 0.7000000. split; [exact Hret |].
  exact (execution_score_range rust_project _ Hret).
Defined.

Lemma execution_score_without_python_witness :
  exists x,
    verify_execution [mkSourceFile "main.rs" (Return "fn main() {}")]
      = Return x
    /\ x <= 0.75.
Proof.
  assert (Hret : verify_execution
                   [mkSourceFile "main.rs" (Return "fn main() {}")]
                 = Return 0.0500000)
    by (vm_compute; reflexivity).
  exists 0.0500000. split; [exact Hret |].
  assert (Hnone : forall file,
            file ∈ [mkSourceFile "main.rs" (Return "fn main() {}")] ->
            endswith ".py" (file_name file) = false).
  { intros file Hin. apply list_elem_of_singleton in Hin as ->. reflexivity. }
  destruct (execution_score_without_python _ _ Hnone Hret)
    as (s & i & _ & _ & _ & _ & _ & Hcap).
  exact Hcap.
Defined.

Lemma verified_execution_floor_witness :
  let r := CodeAnalyzer.mkAnalysisResult 0 0 0.7000000 0 0.9 [] [] in
  verify_execution rust_project = Return (CodeAnalyzer.execution_score r)
  /\ 0.5 <= CodeAnalyzer.calculate_overall_score r.
Proof.
  intros r.
  assert (Hret : verify_execution rust_project
                 = Return (CodeAnalyzer.execution_score r))
    by (vm_compute; reflexivity).
  assert (Hm : 0.8 <= CodeAnalyzer.market_value_score r) by (cbn; lra).
  split; [exact Hret |].
  exact (proj1 (proj2 (verified_execution_floor rust_project r Hret Hm))).
Defined.

End ExecutionScoreExamples.

(** ** The authenticity detector *)

Section Authenticity.
Context `{TextTools}.
Import AuthenticityDetector.

Lemma for_each_invariant {A B : Type} (P : A -> Prop)
    (body : A -> B -> Outcome A) (items : list B) :
  (forall acc item acc', P acc -> body acc item = Return acc' -> P acc') ->
  forall acc r, P acc -> for_each body acc items = Return r -> P r.
Proof.
  intros Hbody. induction items as [| item items IH]; intros acc r Hacc Hloop.
  - injection Hloop as <-. exact Hacc.
  - rewrite for_each_cons in Hloop.
    destruct (body acc item) as [acc1 | e] eqn:Hstep; [| discriminate Hloop].
    exact (IH acc1 r (Hbody acc item acc1 Hacc Hstep) Hloop).
Qed.

Lemma py_min_range (lo a b : Q) :
  lo <= a -> lo <= b -> lo <= py_min a b <= a.
Proof.
  intros Ha Hb. unfold py_min. destruct (Qltb b a) eqn:E.
  - apply Qltb_true in E. lra.
  - lra.
Qed.

Lemma py_sum_from (l : list Q) : forall acc, fold_left Qplus l acc == acc + py_sum l.
Proof.
  unfold py_sum. induction l as [| v l IH]; intros acc; cbn [fold_left].
  - ring.
  - rewrite (IH (acc + v)), (IH (0 + v)). ring.
Qed.

Lemma py_sum_cons (v : Q) (l : list Q) : py_sum (v :: l) == v + py_sum l.
Proof. unfold py_sum at 1. cbn [fold_left]. rewrite py_sum_from. ring. Qed.

Lemma py_len_cons (v : Q) (l : list Q) : py_len (v :: l) == 1 + py_len l.
Proof.
  unfold py_len. cbn [length]. rewrite Nat2Z.inj_succ, <- Z.add_1_l.
  rewrite inject_Z_plus. reflexivity.
Qed.

Lemma py_len_nonneg (l : list Q) : 0 <= py_len l.
Proof.
  unfold py_len. change 0 with (inject_Z 0). rewrite <- Zle_Qle. lia.
Qed.

(** The sum of scores between two bounds lies between the bounds times
    the number of scores. *)
Lemma py_sum_range (lo hi : Q) (l : list Q) :
  Forall (fun v => lo <= v <= hi) l ->
  lo * py_len l <= py_sum l <= hi * py_len l.
Proof.
  induction 1 as [| v l Hv _ IH].
  - change (py_sum []) with 0. change (py_len []) with 0. lra.
  - rewrite py_sum_cons, py_len_cons. lra.
Qed.

(** The mean of at least one score between two bounds lies between
    them. *)
Lemma py_mean_range (lo hi : Q) (l : list Q) :
  l <> [] -> Forall (fun v => lo <= v <= hi) l ->
  lo <= py_sum l / py_len l <= hi.
Proof.
  intros Hne Hall. pose proof (py_sum_range lo hi l Hall) as [Hlo Hhi].
  assert (Hlen : 0 < py_len l).
  { destruct l as [| v l]; [destruct Hne; reflexivity |].
    rewrite py_len_cons. pose proof (py_len_nonneg l). lra. }
  split; [apply Qle_shift_div_l | apply Qle_shift_div_r]; assumption.
Qed.

Lemma known_weights (f : string) (patterns : Framework) :
  known_framework f = Some patterns -> 0.5 <= weight patterns <= 1.
Proof.
  unfold known_framework, KNOWN_AI_FRAMEWORKS. cbn [known_framework_in].
  repeat (destruct (String.eqb _ f);
          [intros Heq; injection Heq as <-; cbn [weight]; lra |]).
  discriminate.
Qed.

Lemma table_entries_known :
  Forall (fun entry => known_framework entry.1 = Some entry.2)
    KNOWN_AI_FRAMEWORKS.
Proof. repeat constructor. Qed.

Lemma matches_positive (patterns : list string) (content : string) :
  (0 <? matches patterns content)%Z = true ->
  1 <= inject_Z (matches patterns content).
Proof.
  intros Hpos. apply Z.ltb_lt in Hpos.
  change 1 with (inject_Z 1). rewrite <- Zle_Qle. lia.
Qed.

(** The score of one framework in one file is 0 or lies between 0.05 and
    1. *)
Lemma framework_score_range (patterns : Framework) (content : string) :
  0.5 <= weight patterns <= 1 ->
  0 <= framework_score patterns content <= 1
  /\ (0 < framework_score patterns content ->
      0.05 <= framework_score patterns content).
Proof.
  intros Hw. unfold framework_score.
  destruct (imports_found patterns content);
    destruct (0 <? matches (basic_patterns patterns) content)%Z eqn:Eb;
    destruct (0 <? matches (advanced_patterns patterns) content)%Z eqn:Ea;
    try (pose proof (matches_positive _ _ Eb) as Hb;
         pose proof (py_min_range 0.1 0.3
                       (inject_Z (matches (basic_patterns patterns) content)
                        * 0.1) ltac:(lra) ltac:(lra)) as Hbr);
    try (pose proof (matches_positive _ _ Ea) as Ha;
         pose proof (py_min_range 0.1 0.5
                       (inject_Z (matches (advanced_patterns patterns) content)
                        * 0.1) ltac:(lra) ltac:(lra)) as Har);
    cbv zeta; nra.
Qed.

Lemma find_framework_invariant (content : string)
    (found : gset string * gmap string Q) (entry : string * Framework) :
  known_framework entry.1 = Some entry.2 ->
  find_invariant found -> find_invariant (find_framework content found entry).
Proof.
  destruct found as [detected scores], entry as [framework patterns].
  cbn [fst snd]. intros Hknown [Hdet Hscores].
  pose proof (framework_score_range patterns content
                (known_weights _ _ Hknown)) as [Hrange Hpos].
  unfold find_framework.
  destruct (Qgtb (framework_score patterns content) 0) eqn:Egt;
    [| split; assumption].
  apply Qgtb_true in Egt. specialize (Hpos Egt).
  set (score := framework_score patterns content) in *.
  assert (Hnew : 0.05 <= py_max score (default 0 (scores !! framework)) <= 1).
  { unfold py_max.
    destruct (scores !! framework) as [old |] eqn:Hold;
      unfold default; cbn [from_option id].
    - destruct (Hscores _ _ Hold) as [_ Hold'].
      destruct (Qgtb old score); cbv iota; lra.
    - destruct (Qgtb 0 score) eqn:E0; [apply Qgtb_true in E0 |]; cbv iota; lra. }
  assert (Hinv : forall d,
            (forall f, f ∈ d -> f = framework \/ f ∈ detected) ->
            find_invariant
              (d, <[framework := py_max score (default 0 (scores !! framework))]>
                    scores)).
  { intros d Hd. split; cbn [fst snd].
    - intros f Hin. destruct (Hd f Hin) as [-> | Hin'].
      + split; [exists patterns; exact Hknown |].
        rewrite lookup_insert_eq. eexists. reflexivity.
      + destruct (Hdet f Hin') as [Hk Hs]. split; [exact Hk |].
        apply lookup_insert_is_Some. destruct (decide (framework = f));
          [left; assumption | right; split; assumption].
    - intros f v Hlook. destruct (decide (framework = f)) as [<- | Hne].
      + rewrite lookup_insert_eq in Hlook. injection Hlook as <-.
        split; [exists patterns; exact Hknown | exact Hnew].
      + rewrite lookup_insert_ne in Hlook by exact Hne.
        exact (Hscores f v Hlook). }
  destruct (imports_found patterns content);
    [| destruct (Qgtb score 0.2)]; apply Hinv; intros f Hin;
    try (apply elem_of_union in Hin as [Hin | Hin];
         [left; apply elem_of_singleton in Hin; exact Hin | right; exact Hin]).
  right. exact Hin.
Qed.

Lemma find_in_table_invariant (content : string)
    (table : list (string * Framework)) :
  Forall (fun entry => known_framework entry.1 = Some entry.2) table ->
  forall found, find_invariant found ->
    find_invariant (fold_left (find_framework content) table found).
Proof.
  induction 1 as [| entry table Hentry _ IH]; intros found Hinv;
    cbn [fold_left]; [exact Hinv |].
  apply IH. apply find_framework_invariant; assumption.
Qed.

Lemma find_frameworks_invariant (files : list SourceFile)
    (found : gset string * gmap string Q) :
  _find_framework_implementations files = Return found -> find_invariant found.
Proof.
  unfold _find_framework_implementations. intros Hloop.
  apply (for_each_invariant find_invariant find_in_file files) in Hloop;
    [exact Hloop | | split; [set_solver | intros f v Hlook; simplify_map_eq]].
  intros acc file acc' Hinv. unfold find_in_file.
  destruct (negb _); [intros Hret; injection Hret as <-; exact Hinv |].
  destruct (file_read file) as [content | e];
    cbv beta iota delta [mbind Outcome_bind]; [| discriminate].
  intros Hret.
  assert (acc' = fold_left (find_framework content) KNOWN_AI_FRAMEWORKS acc)
    as -> by congruence.
  exact (find_in_table_invariant content _ table_entries_known acc Hinv).
Qed.

(** X20: what the search for frameworks leaves behind.  When
    [_find_framework_implementations] returns, every detected framework
    is a name of the table and has a recorded score, and every recorded
    score belongs to a name of the table and lies between 0.05 and 1. *)
Theorem detected_frameworks_are_scored (files : list SourceFile)
    (detected : gset string) (framework_scores : gmap string Q) :
  _find_framework_implementations files = Return (detected, framework_scores) ->
  (forall f, f ∈ detected -> known_name f /\ is_Some (framework_scores !! f))
  /\ (forall f v, framework_scores !! f = Some v ->
        known_name f /\ 0.05 <= v <= 1).
Proof.
  intros Hfind. exact (find_frameworks_invariant files _ Hfind).
Qed.

Lemma mapM_weights (names : list string) :
  Forall known_name names ->
  exists weights,
    mapM (fun f => weight <$> known_framework f) names = Some weights
    /\ length weights = length names
    /\ Forall (fun w => 0.5 <= w <= 1) weights.
Proof.
  induction 1 as [| f names [patterns Hf] _ (weights & Hw & Hlen & Hall)].
  - exists []. repeat split. constructor.
  - exists (weight patterns :: weights). cbn [mapM]. rewrite Hf, Hw.
    repeat split; [cbn [length]; congruence |].
    constructor; [exact (known_weights f patterns Hf) | exact Hall].
Qed.

Lemma analyze_implementation_known (frameworks : gset string) :
  frameworks <> ∅ -> (forall f, f ∈ frameworks -> known_name f) ->
  exists x, _analyze_implementation frameworks = Some x /\ 0.5 <= x <= 1.
Proof.
  intros Hne Hknown. unfold _analyze_implementation.
  destruct (decide (frameworks = ∅)) as [Hempty | _]; [destruct (Hne Hempty) |].
  destruct (mapM_weights (elements frameworks)) as (weights & -> & Hlen & Hall).
  { apply Forall_forall. intros f Hin. apply Hknown, elem_of_elements, Hin. }
  cbn. eexists. split; [reflexivity |].
  assert (Hnil : weights <> []).
  { intros ->. cbn in Hlen. symmetry in Hlen.
    apply length_zero_iff_nil, elements_empty_iff in Hlen.
    apply Hne. apply leibniz_equiv. exact Hlen. }
  pose proof (py_mean_range 0.5 1 weights Hnil Hall) as Hmean.
  unfold py_len in Hmean. rewrite Hlen in Hmean.
  change (length (elements frameworks)) with (size frameworks) in Hmean.
  set (mean := py_sum weights / inject_Z (Z.of_nat (size frameworks))) in *.
  destruct (3 <=? Z.of_nat (size frameworks))%Z;
    [| destruct (Z.of_nat (size frameworks) =? 2)%Z];
    match goal with
    | |- _ <= py_min 1.0 ?b <= _ =>
        pose proof (py_min_range 0.5 1.0 b ltac:(lra) ltac:(lra)); lra
    end.
Qed.

(** X21: the implementation depth.  [_analyze_implementation] ends with a
    [KeyError] exactly when it is given a name outside the table; when it
    returns, the value is at most 1, and for a set that is not empty it
    is at least 0.5, the lowest weight of the table. *)
Theorem implementation_depth_range (frameworks : gset string) :
  (_analyze_implementation frameworks = None
   <-> exists f, f ∈ frameworks /\ known_framework f = None)
  /\ (forall x, _analyze_implementation frameworks = Some x ->
        0 <= x <= 1 /\ (frameworks <> ∅ -> 0.5 <= x)).
Proof.
  assert (Hcases : (forall f, f ∈ frameworks -> known_name f)
                   \/ exists f, f ∈ frameworks /\ known_framework f = None).
  { destruct (decide (Forall known_name (elements frameworks)))
      as [Hall | Hnot].
    - left. intros f Hin. rewrite Forall_forall in Hall.
      apply Hall, elem_of_elements, Hin.
    - right. apply not_Forall_Exists in Hnot; [| intros f; apply _].
      apply Exists_exists in Hnot as (f & Hin & Hf).
      exists f. split; [apply elem_of_elements, Hin |].
      apply eq_None_not_Some. exact Hf. }
  assert (Hunknown : (exists f, f ∈ frameworks /\ known_framework f = None) ->
                     _analyze_implementation frameworks = None).
  { intros (f & Hin & Hf). unfold _analyze_implementation.
    destruct (decide (frameworks = ∅)) as [-> | _]; [set_solver |].
    destruct (mapM _ (elements frameworks)) as [weights |] eqn:Hm;
      [| reflexivity].
    apply mapM_Some in Hm. apply elem_of_elements in Hin.
    apply list_elem_of_lookup_1 in Hin as [i Hi].
    destruct (Forall2_lookup_l _ _ _ _ _ Hm Hi) as (y & _ & Hy).
    rewrite Hf in Hy. discriminate Hy. }
  split.
  - split; [| exact Hunknown].
    intros Hnone. destruct Hcases as [Hknown | Hex]; [| exact Hex].
    destruct (decide (frameworks = ∅)) as [-> | Hne].
    + unfold _analyze_implementation in Hnone.
      rewrite decide_True in Hnone by reflexivity. discriminate Hnone.
    + destruct (analyze_implementation_known frameworks Hne Hknown)
        as (x & Hx & _). congruence.
  - intros x Hx. destruct Hcases as [Hknown | Hex];
      [| rewrite (Hunknown Hex) in Hx; discriminate Hx].
    destruct (decide (frameworks = ∅)) as [-> | Hne].
    + unfold _analyze_implementation in Hx.
      rewrite decide_True in Hx by reflexivity. injection Hx as <-.
      split; [lra | intros Hne; destruct Hne; reflexivity].
    + destruct (analyze_implementation_known frameworks Hne Hknown)
        as (y & Hy & Hrange).
      rewrite Hx in Hy. injection Hy as <-. split; [lra | intros _; lra].
Qed.

Lemma recorded_scores_range (detected : gset string)
    (scores : gmap string Q) :
  find_invariant (detected, scores) -> detected <> ∅ ->
  (map_to_list scores).*2 <> []
  /\ Forall (fun v => 0.05 <= v <= 1) (map_to_list scores).*2.
Proof.
  intros [Hdet Hscores] Hne. cbn [fst snd] in *. split.
  - apply set_choose_L in Hne as [f Hin].
    destruct (Hdet f Hin) as [_ [v Hv]].
    apply elem_of_map_to_list in Hv.
    intros Hnil. apply (list_elem_of_fmap_2 snd) in Hv.
    rewrite Hnil in Hv. inversion Hv.
  - apply Forall_forall. intros v Hin.
    apply list_elem_of_fmap in Hin as ([f w] & -> & Hin).
    apply elem_of_map_to_list in Hin. exact (proj2 (Hscores f w Hin)).
Qed.

Lemma authenticity_score_cases (files : list SourceFile) (r : option Q) :
  analyze_authenticity files = Return r ->
  exists detected framework_scores x,
    _find_framework_implementations files
      = Return (detected, framework_scores)
    /\ r = Some x
    /\ (detected = ∅ -> x == 0)
    /\ (detected <> ∅ -> 0.275 <= x <= 1).
Proof.
  unfold analyze_authenticity. intros Hret.
  destruct (_find_framework_implementations files) as [[detected scores] | e]
    eqn:Hfind; cbv beta iota delta [mbind Outcome_bind] in Hret;
    [| discriminate Hret].
  pose proof (find_frameworks_invariant files _ Hfind) as Hinv.
  exists detected, scores.
  destruct (decide (detected = ∅)) as [Hempty | Hne].
  - injection Hret as <-. exists 0.0.
    split; [reflexivity |]. split; [reflexivity |].
    split; [intros _; reflexivity | intros Hne; destruct (Hne Hempty)].
  - destruct (analyze_implementation_known detected Hne)
      as (impl & Himpl & Hrange);
      [intros f Hin; exact (proj1 (proj1 Hinv f Hin)) |].
    rewrite Himpl in Hret.
    destruct (recorded_scores_range detected scores Hinv Hne) as [Hnil Hall].
    pose proof (py_mean_range 0.05 1 _ Hnil Hall) as Hmean.
    destruct ((map_to_list scores).*2) as [| v l] eqn:Hvalues;
      [destruct Hnil; reflexivity |].
    injection Hret as <-. eexists.
    split; [reflexivity |]. split; [reflexivity |].
    split; [intros Hempty; destruct (Hne Hempty) | intros _].
    set (avg := py_sum (v :: l) / py_len (v :: l)) in *. clearbody avg.
    assert (Hhalf : 0.275 <= (impl + avg) / 2 <= 1)
      by (split; [apply Qle_shift_div_l | apply Qle_shift_div_r]; lra).
    pose proof (py_min_range 0.275 1.0 ((impl + avg) / 2) ltac:(lra)
                  ltac:(lra)).
    lra.
Qed.

(** X22: the authenticity score.  When [analyze_authenticity] returns, no
    [KeyError] has come up; the score is 0 exactly when no framework was
    detected, and otherwise it lies between 0.275 and 1: nothing is
    scored strictly between 0 and 0.275. *)
Theorem authenticity_score_range (files : list SourceFile) (r : option Q) :
  analyze_authenticity files = Return r ->
  exists detected framework_scores x,
    _find_framework_implementations files
      = Return (detected, framework_scores)
    /\ r = Some x
    /\ (x == 0 <-> detected = ∅)
    /\ (x == 0 \/ 0.275 <= x <= 1).
Proof.
  intros Hret.
  destruct (authenticity_score_cases files r Hret)
    as (detected & scores & x & Hfind & -> & Hzero & Hpos).
  exists detected, scores, x.
  split; [exact Hfind |]. split; [reflexivity |].
  destruct (decide (detected = ∅)) as [Hempty | Hne].
  - split; [| left; exact (Hzero Hempty)].
    split; [intros _; exact Hempty | exact Hzero].
  - specialize (Hpos Hne). split; [| right; exact Hpos].
    split; [intros Hx; lra | intros Hempty; destruct (Hne Hempty)].
Qed.

Lemma find_frameworks_returns (files : list SourceFile) :
  (exists found, _find_framework_implementations files = Return found)
  <-> (forall file, file ∈ files -> source_file file = true ->
         exists content, file_read file = Return content).
Proof.
  unfold _find_framework_implementations.
  apply (for_each_returns
           (fun file => source_file file = true ->
              exists content, file_read file = Return content)
           find_in_file files).
  intros found file _. unfold find_in_file, source_file.
  destruct (endswith_any _ (file_name file)); cbn [negb].
  2:{ split; [intros _ Hext; discriminate Hext | intros _; eexists; reflexivity]. }
  destruct (file_read file) as [content | e].
  - split; [intros _ _; exists content; reflexivity |].
    intros _. eexists. reflexivity.
  - split; [intros [a Ha]; discriminate Ha |].
    intros Hok. destruct (Hok eq_refl) as (c & Hc). discriminate Hc.
Qed.

(** X23: when the authenticity detector returns at all.
    [analyze_authenticity] returns exactly when every file with one of
    the six source extensions can be read: the detector catches nothing,
    so one unreadable source file ends the analysis. *)
Theorem analyze_authenticity_returns_iff (files : list SourceFile) :
  (exists r, analyze_authenticity files = Return r)
  <-> (forall file, file ∈ files -> source_file file = true ->
         exists content, file_read file = Return content).
Proof.
  rewrite <- find_frameworks_returns. unfold analyze_authenticity. split.
  - intros [r Hr].
    destruct (_find_framework_implementations files) as [found | e];
      [exists found; reflexivity | discriminate Hr].
  - intros [[detected scores] ->].
    cbv beta iota delta [mbind Outcome_bind].
    destruct (decide (detected = ∅)); [eexists; reflexivity |].
    destruct (_analyze_implementation detected); [| eexists; reflexivity].
    destruct ((map_to_list scores).*2); eexists; reflexivity.
Qed.

End Authenticity.

Section AuthenticityExamples.
Local Existing Instance demo_tools.
Import AuthenticityDetector.
Local Open Scope string_scope.

Lemma detected_frameworks_are_scored_witness :
  match _find_framework_implementations chat_project with
  | Return (detected, framework_scores) =>
      "openai" ∈ detected
      /\ forall f, f ∈ detected ->
           known_name f /\ is_Some (framework_scores !! f)
  | Raise _ => False
  end.
Proof.
  destruct (_find_framework_implementations chat_project)
    as [[detected scores] | e] eqn:Hfind.
  - split.
    + vm_compute in Hfind. injection Hfind as <- _. vm_compute. reflexivity.
    + exact (proj1 (detected_frameworks_are_scored chat_project _ _ Hfind)).
  - vm_compute in Hfind. discriminate Hfind.
Defined.

Lemma authenticity_score_range_witness :
  exists x, analyze_authenticity chat_project = Return (Some x)
    /\ 0.275 <= x <= 1.
Proof.
  destruct (analyze_authenticity chat_project) as [r | e] eqn:Hret;
    [| vm_compute in Hret; discriminate Hret].
  destruct (authenticity_score_range chat_project r Hret)
    as (detected & scores & x & Hfind & -> & Hzero & [Hx | Hrange]).
  - apply Hzero in Hx. subst detected.
    vm_compute in Hfind. discriminate Hfind.
  - exists x. split; [reflexivity | exact Hrange].
Defined.

End AuthenticityExamples.

(** ** The security and quality analyses *)

Section Scans.
Context `{TextTools} `{Radon}.
Import CodeAnalyzerMethods.

Lemma len_filter_le {A : Type} (p : A -> bool) (l : list A) :
  (0 <= len (List.filter p l) <= len l)%Z.
Proof.
  unfold len. pose proof (List.filter_length_le p l). lia.
Qed.

Lemma len_filter_negb_zero {A : Type} (p : A -> bool) (l : list A) :
  len (List.filter (fun x => negb (p x)) l) = 0%Z
  <-> forall x, x ∈ l -> p x = true.
Proof.
  unfold len. induction l as [| a l IH]; cbn [List.filter].
  - split; [intros _ x Hin; inversion Hin | reflexivity].
  - destruct (p a) eqn:Ea; cbn [negb].
    + rewrite IH. split.
      * intros Hall x Hin. apply elem_of_cons in Hin as [-> | Hin];
          [exact Ea | exact (Hall x Hin)].
      * intros Hall x Hin. apply Hall. right. exact Hin.
    + cbn [length]. split; [lia |].
      intros Hall. rewrite (Hall a) in Ea by left. discriminate Ea.
Qed.

(** A count of matches over the number of patterns is a fraction. *)
Lemma found_fraction (patterns : list string) (content : string) (n : Z) :
  (len patterns <= n)%Z -> (0 < n)%Z ->
  0 <= inject_Z (found patterns content) / inject_Z n <= 1.
Proof.
  intros Hn Hpos. unfold found.
  pose proof (len_filter_le (fun pattern => re_search pattern content) patterns)
    as [Hlo Hhi].
  assert (Hq : 0 < inject_Z n)
    by (change 0 with (inject_Z 0); rewrite <- Zlt_Qlt; exact Hpos).
  split; [apply Qle_shift_div_l | apply Qle_shift_div_r]; try exact Hq.
  - rewrite Qmult_0_l. change 0 with (inject_Z 0). rewrite <- Zle_Qle.
    exact Hlo.
  - rewrite Qmult_1_l, <- Zle_Qle. lia.
Qed.

(** What one file adds to the security total: a fraction, which is 1
    exactly when all eight patterns are found in the file. *)
Lemma security_of_file_cases (file : SourceFile) :
  match security_of_file file with
  | Return x =>
      0 <= x <= 1 /\ (x == 1 <-> matches_all_security_patterns file)
  | Raise e => file_read file = Raise e
  end.
Proof.
  unfold security_of_file, matches_all_security_patterns.
  destruct (file_read file) as [content | e];
    cbv beta iota delta [mbind Outcome_bind]; [| reflexivity].
  pose proof (len_filter_le (fun pattern => negb (re_search pattern content))
                security_patterns.*2) as [Hlo Hhi].
  pose proof (len_filter_negb_zero (fun pattern => re_search pattern content)
                security_patterns.*2) as Hzero.
  set (issues := len (List.filter _ security_patterns.*2)) in *.
  change (len security_patterns.*2) with 8%Z in Hhi.
  change (len security_patterns) with 8%Z.
  assert (Hq : 0 <= inject_Z issues <= 8).
  { change 0 with (inject_Z 0). change 8 with (inject_Z 8).
    rewrite <- !Zle_Qle. lia. }
  assert (Hone : inject_Z issues == 0 <-> issues = 0%Z).
  { change 0 with (inject_Z 0). rewrite inject_Z_injective. reflexivity. }
  unfold Qdiv. change (/ inject_Z 8) with (1 # 8).
  unfold py_max.
  destruct (Qgtb (1 - inject_Z issues * (1 # 8)) 0) eqn:E;
    [apply Qgtb_true in E | apply Qgtb_false in E].
  - split; [lra |]. split.
    + intros Hx. exists content. split; [reflexivity |].
      apply Hzero, Hone. lra.
    + intros (c & Hc & Hi). injection Hc as <-.
      apply Hzero, Hone in Hi. lra.
  - split; [lra |]. split; [lra |].
    intros (c & Hc & Hi). injection Hc as <-.
    apply Hzero, Hone in Hi. lra.
Qed.

Lemma analyze_security_step (file : SourceFile) (t : Q) (c : Z) :
  0 <= t <= inject_Z c ->
  let r := analyze_security_file (t, c) file in
  0 <= r.1 <= inject_Z r.2
  /\ (r.2 = if source_file file then c + 1 else c)%Z
  /\ (r.1 == inject_Z r.2
      <-> t == inject_Z c
          /\ (source_file file = true -> matches_all_security_patterns file)).
Proof.
  intros Ht. unfold analyze_security_file, source_file.
  destruct (endswith_any _ (file_name file)); cbn [negb].
  2:{ cbn [fst snd]. repeat split; try tauto; try lra. }
  pose proof (security_of_file_cases file) as Hfile.
  destruct (security_of_file file) as [x | e]; cbn [fst snd];
    rewrite inject_Z_plus; change (inject_Z 1) with 1.
  - destruct Hfile as [Hx Hall]. split; [lra |]. split; [reflexivity |].
    rewrite <- Hall. split.
    + intros Heq. split; [lra | intros _; lra].
    + intros [Heq Hone]. specialize (Hone eq_refl). lra.
  - split; [lra |]. split; [reflexivity |]. split; [lra |].
    intros [_ Hall]. destruct (Hall eq_refl) as (content & Hread & _).
    rewrite Hfile in Hread. discriminate Hread.
Qed.

Lemma analyze_security_loop (files : list SourceFile) :
  forall (t : Q) (c : Z),
    0 <= t <= inject_Z c ->
    let r := fold_left analyze_security_file files (t, c) in
    0 <= r.1 <= inject_Z r.2
    /\ (c <= r.2)%Z
    /\ (r.2 = c <-> existsb source_file files = false)
    /\ (r.1 == inject_Z r.2
        <-> t == inject_Z c
            /\ forall file, file ∈ files -> source_file file = true ->
                 matches_all_security_patterns file).
Proof.
  induction files as [| file files IH]; intros t c Ht; cbv zeta;
    cbn [fold_left existsb].
  - cbn [fst snd]. repeat split; try tauto; try lra; try lia.
    intros file Hin. inversion Hin.
  - pose proof (analyze_security_step file t c Ht) as (Ht1 & Hc1 & Hfull1).
    destruct (analyze_security_file (t, c) file) as [t1 c1].
    cbn [fst snd] in Ht1, Hc1, Hfull1.
    pose proof (IH t1 c1 Ht1) as IH1. cbv zeta in IH1.
    destruct IH1 as (Hr & Hle & Hcount & Hfull).
    split; [exact Hr |].
    split; [destruct (source_file file); lia |].
    split.
    + destruct (source_file file); cbn [orb].
      * split; [lia | discriminate].
      * subst c1. exact Hcount.
    + rewrite Hfull, Hfull1. split.
      * intros [[Heq Hhead] Htail]. split; [exact Heq |].
        intros f Hin. apply elem_of_cons in Hin as [-> | Hin];
          [exact Hhead | exact (Htail f Hin)].
      * intros [Heq Hall]. repeat split; [exact Heq | |].
        -- apply Hall. left.
        -- intros f Hin. apply Hall. right. exact Hin.
Qed.

Lemma security_score_bounds (repo_path : option (list SourceFile)) :
  0 <= _analyze_security repo_path <= 1
  /\ (has_source_file repo_path = false -> _analyze_security repo_path == 0).
Proof.
  destruct repo_path as [files |]; cbn [_analyze_security has_source_file];
    [| split; [lra | reflexivity]].
  assert (Hstart : 0 <= 0.0 <= inject_Z 0) by (split; discriminate).
  pose proof (analyze_security_loop files 0.0 0%Z Hstart) as (Hr & Hle & Hcount & _).
  destruct (fold_left analyze_security_file files (0.0, 0%Z)) as [t c].
  cbn [fst snd] in *.
  destruct (Z.eq_dec c 0%Z) as [-> | Hne].
  - change (inject_Z (Z.max 0 1)) with 1. change (inject_Z 0) with 0 in Hr.
    unfold Qdiv. change (/ 1) with 1. split; [lra | intros _; lra].
  - replace (Z.max c 1) with c by lia.
    assert (Hc : 0 < inject_Z c)
      by (change 0 with (inject_Z 0); rewrite <- Zlt_Qlt; lia).
    split.
    + split; [apply Qle_shift_div_l | apply Qle_shift_div_r]; lra.
    + intros Hnone. apply Hcount in Hnone. lia.
Qed.

(** What the security loop adds for a file that cannot be read: the
    file is counted and the total stays. *)
Lemma unreadable_file_counts (file : SourceFile) (t : Q) (c : Z) (e : Exn) :
  source_file file = true -> file_read file = Raise e ->
  analyze_security_file (t, c) file = (t, (c + 1)%Z).
Proof.
  unfold analyze_security_file, source_file, security_of_file.
  intros -> ->. reflexivity.
Qed.

(** X24: the range of the security score.  [_analyze_security] raises
    nothing and returns a value between 0 and 1; without a repository
    path or without a source file below it the value is 0, and so it is
    for a repository whose only source file cannot be read. *)
Theorem security_score_range (repo_path : option (list SourceFile)) :
  0 <= _analyze_security repo_path <= 1
  /\ (has_source_file repo_path = false -> _analyze_security repo_path == 0)
  /\ (forall file e, repo_path = Some [file] -> source_file file = true ->
        file_read file = Raise e -> _analyze_security repo_path == 0).
Proof.
  destruct (security_score_bounds repo_path) as [Hrange Hnone].
  split; [exact Hrange |]. split; [exact Hnone |].
  intros file e -> Hsource Hread. cbn [_analyze_security fold_left].
  rewrite (unreadable_file_counts file _ _ e Hsource Hread). reflexivity.
Qed.

(** X25: full marks for security.  The security score is 1 exactly when
    the repository has a source file and every source file can be read
    and matches all eight patterns of [security_patterns], those for an
    exposed key, an SQL injection, [dangerouslySetInnerHTML] and [eval]
    included: the score counts the patterns that are found. *)
Theorem security_full_marks (repo_path : option (list SourceFile)) :
  _analyze_security repo_path == 1
  <-> has_source_file repo_path = true
      /\ forall files file, repo_path = Some files -> file ∈ files ->
           source_file file = true -> matches_all_security_patterns file.
Proof.
  destruct repo_path as [files |]; cbn [_analyze_security has_source_file].
  2:{ split; [intros Hone; lra | intros [Hfalse _]; discriminate Hfalse]. }
  assert (Hstart : 0 <= 0.0 <= inject_Z 0) by (split; discriminate).
  pose proof (analyze_security_loop files 0.0 0%Z Hstart)
    as (Hr & Hle & Hcount & Hfull).
  destruct (fold_left analyze_security_file files (0.0, 0%Z)) as [t c].
  cbn [fst snd] in *.
  assert (Hall : (forall file, file ∈ files -> source_file file = true ->
                    matches_all_security_patterns file)
                 <-> forall files' file, Some files = Some files' ->
                       file ∈ files' -> source_file file = true ->
                       matches_all_security_patterns file).
  { split; [intros Hall files' file [= <-]; apply Hall |].
    intros Hall file. exact (Hall files file eq_refl). }
  rewrite <- Hall. clear Hall.
  destruct (Z.eq_dec c 0%Z) as [-> | Hne].
  - change (inject_Z (Z.max 0 1)) with 1. change (inject_Z 0) with 0 in Hr.
    unfold Qdiv. change (/ 1) with 1.
    split; [intros Hone; lra |].
    intros [Hsome _]. destruct Hcount as [Hcount _].
    rewrite Hcount in Hsome by reflexivity. discriminate Hsome.
  - replace (Z.max c 1) with c by lia.
    assert (Hc : 0 < inject_Z c)
      by (change 0 with (inject_Z 0); rewrite <- Zlt_Qlt; lia).
    assert (Hdiv : t / inject_Z c == 1 <-> t == inject_Z c).
    { split; intros Heq.
      - apply (Qmult_inj_r _ _ (/ inject_Z c));
          [intros Hz; apply Qinv_lt_0_compat in Hc; lra |].
        rewrite Qmult_inv_r by lra. exact Heq.
      - rewrite Heq. apply Qmult_inv_r. lra. }
    rewrite Hdiv, Hfull. split.
    + intros [_ Hall]. split; [| exact Hall].
      destruct (existsb source_file files); [reflexivity |].
      destruct Hcount as [_ Hcount]. specialize (Hcount eq_refl). lia.
    + intros [_ Hall]. split; [reflexivity | exact Hall].
Qed.

Lemma py_max_le (a b c : Q) : a <= c -> b <= c -> py_max a b <= c.
Proof. intros Ha Hb. unfold py_max. destruct (Qgtb b a); assumption. Qed.

Lemma py_mean_nonneg (blocks : list Z) :
  blocks <> [] -> Forall (fun complexity => (0 <= complexity)%Z) blocks ->
  0 <= py_sum (inject_Z <$> blocks) / py_len (inject_Z <$> blocks).
Proof.
  intros Hne Hall.
  assert (Hsum : 0 <= py_sum (inject_Z <$> blocks)).
  { induction Hall as [| b l Hb _ IH]; [discriminate |].
    rewrite fmap_cons, py_sum_cons.
    assert (0 <= inject_Z b)
      by (change 0 with (inject_Z 0); rewrite <- Zle_Qle; exact Hb).
    destruct l as [| b' l']; [change (py_sum (inject_Z <$> [])) with 0; lra |].
    specialize (IH ltac:(discriminate)). lra. }
  assert (Hlen : 0 < py_len (inject_Z <$> blocks)).
  { destruct blocks as [| b l]; [destruct Hne; reflexivity |].
    rewrite fmap_cons, py_len_cons.
    pose proof (py_len_nonneg (inject_Z <$> l)). lra. }
  apply Qle_shift_div_l; [exact Hlen | lra].
Qed.

Ltac bound_fractions :=
  repeat match goal with
    | |- context [inject_Z (found ?ps ?c) / inject_Z ?n] =>
        let Hf := fresh "Hf" in
        assert (Hf : 0 <= inject_Z (found ps c) / inject_Z n <= 1)
          by (apply found_fraction; [lia | reflexivity]);
        generalize dependent (inject_Z (found ps c) / inject_Z n); intros
    | |- context [py_min 1 ?b] =>
        let Hm := fresh "Hm" in
        pose proof (py_min_le_l 1 b) as Hm;
        generalize dependent (py_min 1 b); intros
    end.

Lemma rust_quality_le (file : SourceFile) (x : Q) :
  _analyze_rust_quality file = Return x -> x <= 1.
Proof.
  unfold _analyze_rust_quality.
  destruct (file_read file) as [content | e];
    cbv beta iota zeta delta [mbind Outcome_bind]; [| discriminate].
  intros Hret. injection Hret as <-. bound_fractions. lra.
Qed.

Lemma typescript_quality_le (file : SourceFile) (x : Q) :
  _analyze_typescript_quality file = Return x -> x <= 1.
Proof.
  unfold _analyze_typescript_quality.
  destruct (file_read file) as [content | e];
    cbv beta iota zeta delta [mbind Outcome_bind]; [| discriminate].
  intros Hret. injection Hret as <-. bound_fractions. lra.
Qed.

Lemma mi_normalized_le (content : string) : mi_normalized content <= 1.
Proof.
  unfold mi_normalized. destruct (h_visit content) as [mi_result | e]; [| lra].
  apply py_max_le; [lra | apply py_min_le_l].
Qed.

Lemma python_quality_le (file : SourceFile) (x : Q) :
  complexities_nonnegative ->
  _analyze_python_quality file = Return x -> x <= 1.
Proof.
  intros Hcc. unfold _analyze_python_quality.
  destruct (file_read file) as [content | e];
    cbv beta iota delta [mbind Outcome_bind]; [| discriminate].
  destruct (python_metrics content) as [score | e] eqn:Hmetrics;
    intros Hret; injection Hret as <-; [| lra].
  unfold python_metrics in Hmetrics.
  destruct (cc_visit content) as [blocks | e] eqn:Hblocks;
    cbv beta iota delta [mbind Outcome_bind] in Hmetrics;
    [| discriminate Hmetrics].
  destruct (analyze content) as [raw_metrics | e];
    cbv beta iota zeta delta [mbind Outcome_bind] in Hmetrics;
    [| discriminate Hmetrics].
  injection Hmetrics as <-.
  pose proof (mi_normalized_le content) as Hmi.
  assert (Hcs : match blocks with
                | [] => 1.0
                | _ => py_max 0 (1 - py_sum (inject_Z <$> blocks)
                                     / py_len (inject_Z <$> blocks) / 10)
                end <= 1).
  { destruct blocks as [| b l] eqn:Hb; [lra |]. rewrite <- Hb in *.
    assert (Hne : blocks <> []) by (rewrite Hb; discriminate).
    pose proof (py_mean_nonneg blocks Hne (Hcc content blocks Hblocks)) as Hm.
    apply py_max_le; [lra |].
    set (avg := py_sum _ / py_len _) in *. clearbody avg.
    unfold Qdiv. change (/ 10) with (1 # 10). lra. }
  bound_fractions.
  match goal with
  | |- ?cs * 0.4 + _ + _ <= 1 => generalize dependent cs; intros
  end.
  lra.
Qed.

Lemma analyze_quality_step (file : SourceFile) (t : Q) (c : Z) :
  let r := analyze_quality_file (t, c) file in
  (r.2 = if source_file file then c + 1 else c)%Z
  /\ (complexities_nonnegative -> t <= inject_Z c -> r.1 <= inject_Z r.2).
Proof.
  unfold analyze_quality_file, source_file.
  destruct (endswith_any _ (file_name file)) eqn:Hsource; cbn [negb];
    [| cbn [fst snd]; split; [reflexivity | intros _ Ht; exact Ht]].
  set (analysed := if endswith ".py" (file_name file) then _ else _).
  assert (Hle : complexities_nonnegative ->
                forall x, analysed = Return x -> x <= 1).
  { intros Hcc x. subst analysed.
    destruct (endswith ".py" (file_name file));
      [apply python_quality_le; exact Hcc |].
    destruct (endswith_any [".ts"; ".tsx"; ".js"; ".jsx"]%string
                (file_name file));
      [apply typescript_quality_le | apply rust_quality_le]. }
  destruct analysed as [x | e]; cbn [fst snd];
    (split; [reflexivity |]); intros Hcc Ht;
    rewrite inject_Z_plus; change (inject_Z 1) with 1.
  - specialize (Hle Hcc x eq_refl). lra.
  - lra.
Qed.

Lemma analyze_quality_loop (files : list SourceFile) :
  forall (t : Q) (c : Z),
    let r := fold_left analyze_quality_file files (t, c) in
    (c <= r.2)%Z
    /\ (r.2 = c <-> existsb source_file files = false)
    /\ (complexities_nonnegative -> t <= inject_Z c -> r.1 <= inject_Z r.2).
Proof.
  induction files as [| file files IH]; intros t c; cbv zeta;
    cbn [fold_left existsb].
  - cbn [fst snd]. repeat split; try tauto; lia.
  - pose proof (analyze_quality_step file t c) as Hstep. cbv zeta in Hstep.
    destruct (analyze_quality_file (t, c) file) as [t1 c1].
    cbn [fst snd] in Hstep. destruct Hstep as [Hc1 Ht1].
    pose proof (IH t1 c1) as IH1. cbv zeta in IH1.
    destruct IH1 as (Hle & Hcount & Hr).
    split; [destruct (source_file file); lia |]. split.
    + destruct (source_file file); cbn [orb].
      * split; [lia | discriminate].
      * subst c1. exact Hcount.
    + intros Hcc Ht. exact (Hr Hcc (Ht1 Hcc Ht)).
Qed.

(** Whatever goes wrong in the files, the quality score of a repository
    with a source file is at least 0.1; without one it is 0. *)
Lemma code_quality_floor (repo_path : option (list SourceFile)) :
  (has_source_file repo_path = true -> 0.1 <= _analyze_code_quality repo_path)
  /\ (has_source_file repo_path = false ->
      _analyze_code_quality repo_path = 0.0).
Proof.
  destruct repo_path as [files |]; cbn [_analyze_code_quality has_source_file];
    [| split; [discriminate | reflexivity]].
  pose proof (analyze_quality_loop files 0.0 0%Z) as Hloop. cbv zeta in Hloop.
  destruct (fold_left analyze_quality_file files (0.0, 0%Z)) as [t c].
  cbn [fst snd] in Hloop. destruct Hloop as (Hle & Hcount & _).
  destruct (0 <? c)%Z eqn:Hc.
  - split; [intros _; apply py_max_ge_l |].
    intros Hnone. apply Hcount in Hnone. apply Z.ltb_lt in Hc. lia.
  - split; [| reflexivity].
    intros Hsome. apply Z.ltb_ge in Hc.
    destruct Hcount as [Hcount _]. rewrite Hcount in Hsome by lia.
    discriminate Hsome.
Qed.

Lemma code_quality_le (repo_path : option (list SourceFile)) :
  complexities_nonnegative -> _analyze_code_quality repo_path <= 1.
Proof.
  intros Hcc.
  destruct repo_path as [files |]; cbn [_analyze_code_quality]; [| lra].
  pose proof (analyze_quality_loop files 0.0 0%Z) as Hloop. cbv zeta in Hloop.
  destruct (fold_left analyze_quality_file files (0.0, 0%Z)) as [t c].
  cbn [fst snd] in Hloop. destruct Hloop as (_ & _ & Ht).
  assert (Hstart : 0.0 <= inject_Z 0) by discriminate.
  specialize (Ht Hcc Hstart).
  destruct (0 <? c)%Z eqn:Hc; [| lra].
  apply Z.ltb_lt in Hc. replace (Z.max c 1) with c by lia.
  apply py_max_le; [lra |].
  apply Qle_shift_div_r; [| lra].
  change 0 with (inject_Z 0). rewrite <- Zlt_Qlt. exact Hc.
Qed.

(** X26: the range of the quality score.  [_analyze_code_quality] raises
    nothing.  For a repository with a source file it returns at least
    0.1, also when every file is unreadable or makes [radon] fail, and,
    as long as [radon] reports no negative complexity, at most 1; without
    a path or a source file it returns 0. *)
Theorem code_quality_range (repo_path : option (list SourceFile)) :
  complexities_nonnegative ->
  0 <= _analyze_code_quality repo_path <= 1
  /\ (has_source_file repo_path = true -> 0.1 <= _analyze_code_quality repo_path)
  /\ (has_source_file repo_path = false ->
      _analyze_code_quality repo_path = 0.0).
Proof.
  intros Hcc. destruct (code_quality_floor repo_path) as [Hsome Hnone].
  pose proof (code_quality_le repo_path Hcc) as Hle.
  split; [| split; assumption].
  split; [| exact Hle].
  destruct (has_source_file repo_path);
    [specialize (Hsome eq_refl); lra | rewrite (Hnone eq_refl); lra].
Qed.

(** X27: the analysis without the services.  When the analyzer runs
    without its GPT and market analyzers and [radon] reports no negative
    complexity, every result that [analyze] returns has four base scores
    between 0 and 1 with a positive execution score and the default
    market score 0.5; so no floor applies, the overall score is 0.7 times
    the mean of the positive base scores plus 0.15 (the mean as the code
    takes it and as [mean_of_positive_base_scores] states it), and it
    lies above 0.15 and at most at 0.85. *)
Theorem analysis_without_enhancement (files : list SourceFile)
    (r : option CodeAnalyzer.AnalysisResult) :
  complexities_nonnegative ->
  analyze_without_enhancement files = Return r ->
  exists result,
    r = Some result
    /\ base_scores_in_range result
    /\ 0 < CodeAnalyzer.execution_score result
    /\ CodeAnalyzer.market_value_score result = 0.5
    /\ CodeAnalyzer.calculate_overall_score result
       = normalized_base result * 0.7 + 0.5 * 0.3
    /\ CodeAnalyzer.calculate_overall_score result
       == mean_of_positive_base_scores result * 0.7 + 0.5 * 0.3
    /\ 0.15 < CodeAnalyzer.calculate_overall_score result <= 0.85.
Proof.
  intros Hcc. unfold analyze_without_enhancement. intros Hret.
  destruct (AuthenticityDetector.analyze_authenticity files) as [ai | e]
    eqn:Hai; cbv beta iota delta [mbind Outcome_bind] in Hret;
    [| discriminate Hret].
  destruct (authenticity_score_cases files ai Hai)
    as (detected & scores & ai_score & _ & -> & Hzero & Hpos).
  destruct (ExecutionVerifier.verify_execution files) as [exec_score | e]
    eqn:Hexec; cbv beta iota zeta delta [mbind Outcome_bind] in Hret;
    [| discriminate Hret].
  injection Hret as <-. eexists. split; [reflexivity |].
  destruct (verify_execution_parts files _ Hexec) as (s & i & Hs & Hi & ->).
  destruct (check_syntax_range files s Hs) as [Hsyntax _].
  assert (Hexec_range :
            0 < s * 0.25 + i * 0.65 + ExecutionVerifier._check_dependencies * 0.1
            <= 1).
  { unfold ExecutionVerifier._check_dependencies.
    destruct (check_implementation_values files i Hi) as [Hi1 | Hi0];
      [rewrite Hi1 | rewrite Hi0]; lra. }
  assert (Hai_range : 0 <= ai_score <= 1).
  { destruct (decide (detected = ∅)) as [Hempty | Hne];
      [rewrite (Hzero Hempty) | specialize (Hpos Hne)]; lra. }
  pose proof (security_score_bounds (Some files)) as [Hsec _].
  pose proof (code_quality_le (Some files) Hcc) as Hquality.
  destruct (code_quality_floor (Some files)) as [Hsome Hnone].
  assert (Hquality0 : 0 <= _analyze_code_quality (Some files)).
  { destruct (has_source_file (Some files));
      [specialize (Hsome eq_refl); lra | rewrite (Hnone eq_refl); lra]. }
  set (result := CodeAnalyzer.mkAnalysisResult _ _ _ _ _ _ _).
  assert (Hrange : base_scores_in_range result).
  { unfold base_scores_in_range, result.
    cbn [CodeAnalyzer.ai_framework_score CodeAnalyzer.code_quality_score
         CodeAnalyzer.execution_score CodeAnalyzer.security_score].
    repeat split;
      [ exact (proj1 Hai_range) | exact (proj2 Hai_range)
      | exact Hquality0 | exact Hquality
      | lra | lra
      | exact (proj1 Hsec) | exact (proj2 Hsec) ]. }
  assert (Hpositive : some_base_score_positive result).
  { unfold some_base_score_positive, result.
    cbn [CodeAnalyzer.ai_framework_score CodeAnalyzer.code_quality_score
         CodeAnalyzer.execution_score CodeAnalyzer.security_score].
    right. right. left. exact (proj1 Hexec_range). }
  split; [exact Hrange |]. split; [exact (proj1 Hexec_range) |].
  split; [reflexivity |].
  pose proof (normalized_base_range result Hrange Hpositive) as Hmean.
  assert (Hscore : CodeAnalyzer.calculate_overall_score result
                   = normalized_base result * 0.7 + 0.5 * 0.3).
  { rewrite calculate_overall_score_cases.
    apply base_scores_nonempty in Hpositive.
    destruct (CodeAnalyzer.base_scores result); [destruct Hpositive; reflexivity |].
    reflexivity. }
  split; [exact Hscore |].
  split; [rewrite Hscore, (normalized_base_mean result); reflexivity |].
  rewrite Hscore. lra.
Qed.

End Scans.

Section ScansExamples.
Local Existing Instance demo_tools.
Local Existing Instance demo_radon.
Import CodeAnalyzerMethods.

Lemma demo_complexities_nonnegative : complexities_nonnegative.
Proof.
  intros content blocks Hblocks. injection Hblocks as <-.
  repeat constructor. lia.
Defined.

Lemma code_quality_range_witness :
  0.1 <= _analyze_code_quality (Some rust_project) <= 1.
Proof.
  destruct (code_quality_range (Some rust_project)
              demo_complexities_nonnegative) as ([_ Hle] & Hsome & _).
  split; [apply Hsome; reflexivity | exact Hle].
Defined.

Lemma analysis_without_enhancement_witness :
  exists result,
    analyze_without_enhancement rust_project = Return (Some result)
    /\ 0.15 < CodeAnalyzer.calculate_overall_score result <= 0.85.
Proof.
  destruct (analyze_without_enhancement rust_project) as [r | e] eqn:Hret;
    [| vm_compute in Hret; discriminate Hret].
  destruct (analysis_without_enhancement rust_project r
              demo_complexities_nonnegative Hret)
    as (result & -> & _ & _ & _ & _ & _ & Hscore).
  exists result. split; [reflexivity | exact Hscore].
Defined.

End ScansExamples.
